(** * Search-parameter compiler and token query subsystem

    A shallow embedding of
      - [packages/core/src/search/details.ts] (the search-parameter compiler
        and its process-wide plan cache), and
      - the server's token module ([TokenTable], [getTokens],
        [buildWhereExpression], ...),
    followed by the properties the specification states about them.

    Conventions of the embedding:
      - JavaScript strings are [string]; an optional field [f?: string] is an
        [option string], and JavaScript truthiness of such a field is
        [truthy] (present and not the empty string).
      - [Set<string>] is a [gset string]; the JavaScript objects used as
        dictionaries ([globalSchema.types], [searchParamsDetails]) are [gmap]s
        of their own properties, keyed by strings.  Reading a key that the
        dictionary [searchParamsDetails] does not own goes on to its
        prototype, as it does in the runtime ([readProperty]).
      - The methods of the runtime's strings whose result depends on Unicode
        tables or on the host's locale ([toLocaleLowerCase], [trim]) are
        collaborators, like the parser and the schema: the statements hold
        for whatever they return.
      - A [throw] is an [Err] result.  Code that reads or writes the
        process-wide [globalSchema] lives in the monad [M], which threads the
        schema cache and keeps the writes made before an exception.
      - Arrays that the source mutates in place ([result.push]) are threaded
        explicitly: a function that pushes returns the new array. *)

From Stdlib Require Import String Ascii List Bool Arith Lia.
From stdpp Require Import base option list gmap strings.

Import ListNotations.
Local Open Scope list_scope.

(** ** Strings, as the JavaScript code uses them *)

Module Js.

(** [s.startsWith(p)]. *)
Definition startsWith (s p : string) : bool := String.prefix p s.

(** [s.endsWith(suffix)]: some tail of [s] is [suffix]. *)
Fixpoint endsWith (s suffix : string) : bool :=
  if String.eqb s suffix then true
  else match s with
       | EmptyString => false
       | String _ s' => endsWith s' suffix
       end.

(** [parts.join(sep)]. *)
Definition join (sep : string) (parts : list string) : string :=
  String.concat sep parts.

Definition lowerChar (c : ascii) : ascii :=
  let n := nat_of_ascii c in
  if (65 <=? n) && (n <=? 90) then ascii_of_nat (n + 32) else c.

Definition upperChar (c : ascii) : ascii :=
  let n := nat_of_ascii c in
  if (97 <=? n) && (n <=? 122) then ascii_of_nat (n - 32) else c.

(** [s.toLowerCase()], where the code compares the result with ['true'] and
    ['false'] ([shouldTokenRowExist]): the ASCII letters are lower-cased.  No
    character outside ASCII lower-cases to a letter of these two words, so
    whether the result is one of them is decided by the ASCII letters
    alone. *)
Fixpoint toLowerCase (s : string) : string :=
  match s with
  | EmptyString => EmptyString
  | String c s' => String (lowerChar c) (toLowerCase s')
  end.

(** [s.split(sep)] for a one-character separator: never the empty array. *)
Fixpoint split (sep : ascii) (s : string) : list string :=
  match s with
  | EmptyString => [EmptyString]
  | String c s' =>
      if Ascii.eqb c sep then EmptyString :: split sep s'
      else match split sep s' with
           | [] => [String c EmptyString]
           | w :: ws => String c w :: ws
           end
  end.

(** The character [x] occurs in [s]. *)
Fixpoint hasChar (x : ascii) (s : string) : bool :=
  match s with
  | EmptyString => false
  | String c s' => Ascii.eqb c x || hasChar x s'
  end.

(** Truthiness of a [string | undefined]: present and non-empty. *)
Definition truthy (o : option string) : bool :=
  match o with
  | Some s => negb (String.eqb s "")
  | None => false
  end.

(** [a === b] on [string | undefined]. *)
Definition strictEq (a b : option string) : bool :=
  match a, b with
  | Some x, Some y => String.eqb x y
  | None, None => true
  | _, _ => false
  end.

(** Membership of a string in an array literal: [list.includes(s)]. *)
Definition includes (l : list string) (s : string) : bool :=
  existsb (String.eqb s) l.

End Js.

(** ** Exceptions *)

Inductive Error : Type :=
| ConfigError (message : string)   (* [throw new Error(...)] of the compiler *)
| TypeError (message : string)     (* the runtime's own, on [undefined] *)
| BadRequest (message : string).   (* [OperationOutcomeError(badRequest(...))] *)

Inductive Result (A : Type) : Type :=
| Ok (a : A)
| Err (e : Error).
Arguments Ok {A} a.
Arguments Err {A} e.

Definition rbind {A B} (r : Result A) (k : A -> Result B) : Result B :=
  match r with
  | Ok a => k a
  | Err e => Err e
  end.

(** [for (const x of xs) acc = body(acc, x)], stopping at the first throw. *)
Fixpoint foldR {A B} (body : B -> A -> Result B) (xs : list A) (acc : B) : Result B :=
  match xs with
  | [] => Ok acc
  | x :: xs' =>
      match body acc x with
      | Ok acc' => foldR body xs' acc'
      | Err e => Err e
      end
  end.

(** ** Data model of the compiler *)

(** The FHIRPath atoms the compiler inspects ([../fhirpath/atoms]).  [IsAtom]
    and the other boolean infix operators are the subclasses of
    [BooleanInfixOperatorAtom]. *)
#[warnings="-register-all"]
Inductive Atom : Type :=
| SymbolAtom (name : string)
| LiteralAtom (text : string)
| DotAtom (left right : Atom)
| UnionAtom (left right : Atom)
| AsAtom (left right : Atom)
| IsAtom (left right : Atom)
| BooleanInfixAtom (operator : string) (left right : Atom)
| IndexerAtom (left expr : Atom)
| FunctionAtom (name : string) (args : list Atom).

(** [atom instanceof BooleanInfixOperatorAtom]. *)
Definition isBooleanInfixOperatorAtom (atom : Atom) : bool :=
  match atom with
  | IsAtom _ _ | BooleanInfixAtom _ _ _ => true
  | _ => false
  end.

Definition isIsAtom (atom : option Atom) : bool :=
  match atom with
  | Some (IsAtom _ _) => true
  | _ => false
  end.

Module PropertyType.
Definition boolean := "boolean".
Definition canonical := "canonical".
Definition code := "code".
Definition date := "date".
Definition string := "string".
Definition Identifier := "Identifier".
Definition CodeableConcept := "CodeableConcept".
Definition Coding := "Coding".
Definition ContactPoint := "ContactPoint".
End PropertyType.

(** [ElementType]: the [code] of one type of an element. *)
Record ElementType : Type := mkElementType { et_code : string }.

(** [InternalSchemaElement], with the fields the compiler reads. *)
Record InternalSchemaElement : Type := mkElement {
  ise_path : string;
  ise_isArray : bool;
  ise_type : list ElementType;
}.

(** [SearchParameter.type]. *)
Inductive SearchParamKind : Type :=
| KNumber | KDate | KString | KToken | KReference
| KComposite | KQuantity | KUri | KSpecial.

(** [SearchParameter], with the fields the compiler and the token module read;
    all of them are optional in the FHIR type declarations. *)
Record SearchParameter : Type := mkSearchParameter {
  sp_id : option string;
  sp_code : option string;
  sp_type : option SearchParamKind;
  sp_expression : option string;
}.

Inductive SearchParameterType : Type :=
| BOOLEAN | NUMBER | QUANTITY | TEXT | REFERENCE
| CANONICAL | DATE | DATETIME | PERIOD | UUID.

(** [SearchParameterDetails['implementation']]:
    ['column' | 'lookup-table' | 'token-columns']. *)
Inductive Implementation : Type :=
| ImplColumn | ImplLookupTable | ImplTokenColumns.

Record SearchParameterDetails : Type := mkDetails {
  columnName : string;
  type : SearchParameterType;
  elementDefinitions : option (list InternalSchemaElement);
  array : option bool;
  implementation : Implementation;
}.

Record SearchParameterDetailsBuilder : Type := mkBuilder {
  b_elementDefinitions : list InternalSchemaElement;
  b_propertyTypes : gset string;
  b_array : bool;
}.

Definition addPropertyType (t : string) (b : SearchParameterDetailsBuilder)
  : SearchParameterDetailsBuilder :=
  {| b_elementDefinitions := b_elementDefinitions b;
     b_propertyTypes := b_propertyTypes b ∪ {[ t ]};
     b_array := b_array b |}.

Definition setArray (a : bool) (b : SearchParameterDetailsBuilder)
  : SearchParameterDetailsBuilder :=
  {| b_elementDefinitions := b_elementDefinitions b;
     b_propertyTypes := b_propertyTypes b;
     b_array := a |}.

Definition pushElementDefinition (e : InternalSchemaElement)
    (b : SearchParameterDetailsBuilder) : SearchParameterDetailsBuilder :=
  {| b_elementDefinitions := b_elementDefinitions b ++ [e];
     b_propertyTypes := b_propertyTypes b;
     b_array := b_array b |}.

Definition emptyBuilder : SearchParameterDetailsBuilder :=
  {| b_elementDefinitions := []; b_propertyTypes := ∅; b_array := false |}.

(** The process-wide [globalSchema]: per resource type, the cache of compiled
    plans ([searchParamsDetails], absent until the first plan is stored).
    [globalSchema.types] itself is created by the type-schema module, outside
    the two embedded here, and is read as the entries it holds. *)
Record TypeSchema : Type := mkTypeSchema {
  searchParamsDetails : option (gmap string SearchParameterDetails);
}.

Abbreviation GlobalSchema := (gmap string TypeSchema).

(** Code that touches [globalSchema]: the schema is threaded, and a throw
    keeps the writes made before it. *)
Definition M (A : Type) : Type := GlobalSchema -> Result A * GlobalSchema.

Definition ret {A} (a : A) : M A := fun g => (Ok a, g).
Definition lift {A} (r : Result A) : M A := fun g => (r, g).
Definition bind {A B} (m : M A) (k : A -> M B) : M B :=
  fun g =>
    match m g with
    | (Ok a, g') => k a g'
    | (Err e, g') => (Err e, g')
    end.

Declare Scope schema_scope.
Delimit Scope schema_scope with schema.
Notation "'let*' x ':=' m 'in' k" := (bind m (fun x => k))
  (at level 10, x name, m at level 100, k at level 200) : schema_scope.

(** ** Data model of the token module *)

Record LookupToken : Type := mkToken {
  tok_code : option string;      (* [searchParam.code], as it is *)
  tok_system : option string;
  tok_value : option string;
}.

#[global] Instance LookupToken_eq_dec : EqDecision LookupToken.
Proof. solve_decision. Defined.

Record Identifier : Type := mkIdentifier {
  identifier_system : option string;
  identifier_value : option string;
}.

Record Coding : Type := mkCoding {
  coding_system : option string;
  coding_code : option string;
  coding_display : option string;
}.

Record CodeableConcept : Type := mkCodeableConcept {
  concept_text : option string;
  concept_coding : option (list Coding);
}.

Record ContactPoint : Type := mkContactPoint {
  contact_system : option string;
  contact_value : option string;
}.

(** [TypedValue]: the [type] tag decides how [buildTokens] reads [value]; for
    the types it does not know, all it takes is [value?.toString()]. *)
Inductive TypedValue : Type :=
| IdentifierValue (value : option Identifier)
| CodeableConceptValue (value : option CodeableConcept)
| CodingValue (value : option Coding)
| ContactPointValue (value : option ContactPoint)
| OtherValue (type : string) (text : option string).

Record Resource : Type := mkResource { resourceType : string }.

Module FhirOperator.
Inductive t : Type :=
| EQUALS | NOT_EQUALS | GREATER_THAN | LESS_THAN
| GREATER_THAN_OR_EQUALS | LESS_THAN_OR_EQUALS | STARTS_AFTER | ENDS_BEFORE
| APPROXIMATELY | CONTAINS | EXACT | TEXT | NOT | ABOVE | BELOW
| IN | NOT_IN | OF_TYPE | MISSING | PRESENT | IDENTIFIER | ITERATE.
End FhirOperator.

#[global] Instance FhirOperator_eq_dec : EqDecision FhirOperator.t.
Proof. solve_decision. Defined.

Record Filter : Type := mkFilter {
  f_code : string;
  f_operator : FhirOperator.t;
  f_value : string;
}.

Record SortRule : Type := mkSortRule {
  sort_code : string;
  sort_descending : option bool;
}.

Inductive TokenIndexType : Type := CASE_SENSITIVE | CASE_INSENSITIVE.

(** The query-expression tree of [../sql], as far as the token module builds
    it. *)
Record Column : Type := mkColumn {
  col_tableName : option string;
  col_columnName : string;
  col_raw : bool;
  col_alias : option string;
}.

(** The operator strings the token module passes to [TypedCondition]. *)
Inductive SqlOperator : Type :=
| OP_EQ                        (* '=' *)
| OP_IN                        (* 'IN' *)
| OP_LIKE                      (* 'LIKE' *)
| TSVECTOR_SIMPLE
| IN_SUBQUERY
| ARRAY_CONTAINS
| ARRAY_IREGEX
| ARRAY_ILIKE
| ARRAY_EMPTY
| ARRAY_CONTAINS_SUBQUERY.

#[warnings="-register-all"]
Inductive Expression : Type :=
| TypedCondition (column : Column) (operator : SqlOperator)
    (parameter : SqlParameter) (parameterType : option string)
| Conjunction (expressions : list Expression)
| Disjunction (expressions : list Expression)
| Negation (expression : Expression)
| SqlFunction (name : string) (args : list SelectQuery)
with SqlParameter : Type :=
| PUndefined
| PNull
| PString (s : string)
| PStrings (l : list string)
| PColumn (c : Column)
| PSubquery (q : SelectQuery)
with SelectQuery : Type :=
| mkSelectQuery (tableName : string) (innerQuery : option SelectQuery)
    (distinctOns columns : list Column) (predicate : list Expression)
    (joins : list Join) (orderBys : list (Column * option bool))
    (limit_ : option nat)
with Join : Type :=
| mkJoin (joinType : string) (joinItem : SelectQuery) (joinAlias : string)
    (onExpression : Expression).

(** [new Column(tableName, columnName)]. *)
Definition column (tableName columnName : string) : Column :=
  mkColumn (Some tableName) columnName false None.

(** [new SelectQuery(tableName, innerQuery)] and the builder methods the token
    module calls on it. *)
Definition newSelectQuery (tableName : string) (innerQuery : option SelectQuery)
  : SelectQuery :=
  mkSelectQuery tableName innerQuery [] [] [] [] [] None.

Definition sq_column (c : Column) (q : SelectQuery) : SelectQuery :=
  match q with
  | mkSelectQuery t i d cs p j o l => mkSelectQuery t i d (cs ++ [c]) p j o l
  end.

Definition sq_distinctOn (c : Column) (q : SelectQuery) : SelectQuery :=
  match q with
  | mkSelectQuery t i d cs p j o l => mkSelectQuery t i (d ++ [c]) cs p j o l
  end.

Definition sq_whereExpr (e : Expression) (q : SelectQuery) : SelectQuery :=
  match q with
  | mkSelectQuery t i d cs p j o l => mkSelectQuery t i d cs (p ++ [e]) j o l
  end.

Definition sq_limit (n : nat) (q : SelectQuery) : SelectQuery :=
  match q with
  | mkSelectQuery t i d cs p j o _ => mkSelectQuery t i d cs p j o (Some n)
  end.

Definition sq_join (j0 : Join) (q : SelectQuery) : SelectQuery :=
  match q with
  | mkSelectQuery t i d cs p j o l => mkSelectQuery t i d cs p (j ++ [j0]) o l
  end.

Definition sq_orderBy (c : Column) (descending : option bool) (q : SelectQuery)
  : SelectQuery :=
  match q with
  | mkSelectQuery t i d cs p j o l =>
      mkSelectQuery t i d cs p j (o ++ [(c, descending)]) l
  end.

(** ** A small concrete world

    One instance of the collaborators (a table-driven parser, a rendering of
    atoms in FHIRPath surface syntax, a structural schema with a handful of
    elements, a registry of search parameters and an evaluator) on which the
    general statements below are instantiated. *)

Module Demo.

Fixpoint toString (atom : Atom) : string :=
  match atom with
  | SymbolAtom name => name
  | LiteralAtom text => text
  | DotAtom lhs rhs => toString lhs +:+ "." +:+ toString rhs
  | UnionAtom lhs rhs => toString lhs +:+ " | " +:+ toString rhs
  | AsAtom lhs rhs => "(" +:+ toString lhs +:+ " as " +:+ toString rhs +:+ ")"
  | IsAtom lhs rhs => toString lhs +:+ " is " +:+ toString rhs
  | BooleanInfixAtom operator lhs rhs =>
      toString lhs +:+ " " +:+ operator +:+ " " +:+ toString rhs
  | IndexerAtom lhs expr => toString lhs +:+ "[" +:+ toString expr +:+ "]"
  | FunctionAtom name args =>
      name +:+ "(" +:+ Js.join ", " (map toString args) +:+ ")"
  end.

(** [a.b.c] as the parser nests it: [DotAtom (DotAtom a b) c]. *)
Definition dots (first : Atom) (steps : list Atom) : Atom :=
  fold_left DotAtom steps first.

Definition whereUrl (url : string) : Atom :=
  FunctionAtom "where"
    [BooleanInfixAtom "=" (SymbolAtom "url") (LiteralAtom ("'" +:+ url +:+ "'"))].

Definition observationCode : Atom :=
  dots (SymbolAtom "Observation") [SymbolAtom "code"].

Definition observationExtensionValue : Atom :=
  dots (SymbolAtom "Observation") [SymbolAtom "extension"; SymbolAtom "value"].

Definition patientRace : Atom :=
  dots (SymbolAtom "Patient")
    [SymbolAtom "extension"; whereUrl "us-core-race"; SymbolAtom "extension";
     SymbolAtom "value"; SymbolAtom "code"].

Definition conditionAssertedDate : Atom :=
  dots (SymbolAtom "Condition")
    [SymbolAtom "extension"; whereUrl "condition-assertedDate";
     SymbolAtom "valueDateTime"].

Definition patientTelecom : Atom :=
  dots (SymbolAtom "Patient") [SymbolAtom "telecom"].

Definition patientName : Atom :=
  dots (SymbolAtom "Patient") [SymbolAtom "name"].

Definition chargeItemFactor : Atom :=
  dots (SymbolAtom "ChargeItem") [SymbolAtom "factorOverride"].

Definition expressions : list (string * Atom) :=
  [ ("Observation.code", observationCode);
    ("Observation.extension.value", observationExtensionValue);
    ("Patient.extension.where(url = 'us-core-race').extension.value.code",
     patientRace);
    ("Condition.extension.where(url = 'condition-assertedDate').valueDateTime",
     conditionAssertedDate);
    ("Patient.telecom", patientTelecom);
    ("Patient.name", patientName);
    ("ChargeItem.factorOverride", chargeItemFactor) ].

Fixpoint assoc {A} (key : string) (table : list (string * A)) : option A :=
  match table with
  | [] => None
  | (k, v) :: rest => if String.eqb k key then Some v else assoc key rest
  end.

Definition parseFhirPath (expression : option string) : Result Atom :=
  match expression with
  | Some text =>
      match assoc text expressions with
      | Some atom => Ok atom
      | None => Err (ConfigError ("Cannot parse " +:+ text))
      end
  | None => Err (TypeError "expression is undefined")
  end.

Definition element (path : string) (isArray : bool) (types : list string)
  : InternalSchemaElement :=
  mkElement path isArray (map mkElementType types).

Definition schema : list (string * InternalSchemaElement) :=
  [ ("Observation.code", element "Observation.code" false ["CodeableConcept"]);
    ("Observation.extension", element "Observation.extension" true ["Extension"]);
    ("Condition.extension", element "Condition.extension" true ["Extension"]);
    ("Patient.extension", element "Patient.extension" true ["Extension"]);
    ("Extension.value", element "Extension.value[x]" false ["Coding"; "ContactPoint"]);
    ("Extension.valueDateTime", element "Extension.value[x]" false ["dateTime"]);
    ("Patient.telecom", element "Patient.telecom" true ["ContactPoint"]);
    ("Patient.name", element "Patient.name" true ["HumanName"]);
    ("ChargeItem.factorOverride", element "ChargeItem.factorOverride" false ["decimal"]) ].

Definition getElementDefinition (typeName propertyName : string)
  : option InternalSchemaElement :=
  assoc (typeName +:+ "." +:+ propertyName) schema.

Definition clinicalCode : SearchParameter :=
  mkSearchParameter (Some "clinical-code") (Some "code") (Some KToken)
    (Some "Observation.code").

Definition extensionValue : SearchParameter :=
  mkSearchParameter (Some "Observation-ext-value") (Some "ext-value") (Some KToken)
    (Some "Observation.extension.value").

Definition race : SearchParameter :=
  mkSearchParameter (Some "us-core-race") (Some "race") (Some KToken)
    (Some "Patient.extension.where(url = 'us-core-race').extension.value.code").

Definition assertedDate : SearchParameter :=
  mkSearchParameter (Some "us-core-condition-asserted-date") (Some "asserted-date")
    (Some KDate)
    (Some "Condition.extension.where(url = 'condition-assertedDate').valueDateTime").

Definition telecom : SearchParameter :=
  mkSearchParameter (Some "Patient-telecom") (Some "telecom") (Some KToken)
    (Some "Patient.telecom").

Definition name : SearchParameter :=
  mkSearchParameter (Some "Patient-name") (Some "name") (Some KString)
    (Some "Patient.name").

Definition factorOverride : SearchParameter :=
  mkSearchParameter (Some "ChargeItem-factor-override") (Some "factor-override")
    (Some KNumber) (Some "ChargeItem.factorOverride").

Definition getSearchParameters (resourceType : string)
  : option (list SearchParameter) :=
  if String.eqb resourceType "Observation" then Some [clinicalCode; extensionValue]
  else if String.eqb resourceType "Patient" then Some [race; telecom; name]
  else None.

Definition fever : CodeableConcept :=
  mkCodeableConcept (Some "Fever")
    (Some [mkCoding (Some "http://loinc.org") (Some "386661006") (Some "Fever")]).

Definition feverCoding : Coding :=
  mkCoding (Some "http://loinc.org") (Some "LA-386661006") None.

(** An observation whose [code] is the fever concept and which carries the
    same coding twice among its extension values. *)
Definition evalFhirPathTyped (expression : option string) (resource : Resource)
  : list TypedValue :=
  match expression with
  | Some text =>
      if String.eqb text "Observation.code" then [CodeableConceptValue (Some fever)]
      else if String.eqb text "Observation.extension.value"
      then [CodingValue (Some feverCoding); CodingValue (Some feverCoding)]
      else []
  | None => []
  end.

Definition deriveIdentifierSearchParameter (searchParam : SearchParameter)
  : SearchParameter :=
  mkSearchParameter None
    (option_map (fun c => c +:+ ":identifier") (sp_code searchParam))
    (Some KToken)
    (option_map (fun e => "(" +:+ e +:+ ").identifier") (sp_expression searchParam)).

Definition observation : Resource := mkResource "Observation".

Definition escapeLiteral (text : string) : string := "'" +:+ text +:+ "'".

Definition escapeLikeString (text : string) : string := text.

(** Join aliases are numbered after the joins already there. *)
Definition getNextJoinAlias (q : SelectQuery) : string * SelectQuery :=
  match q with
  | mkSelectQuery _ _ _ _ _ joins _ _ =>
      (String (ascii_of_nat (49 + length joins)) EmptyString, q)
  end.

Definition emptyQuery : SelectQuery := newSelectQuery "Observation" None.

(** The text of this world is ASCII: lower-casing changes the letters A to Z,
    and the white space that [trim] strips is the tab, the line breaks and
    the blank. *)
Definition toLocaleLowerCase (s : string) : string := Js.toLowerCase s.

Definition isSpace (c : ascii) : bool :=
  match c with
  | "009" | "010" | "011" | "012" | "013" | " " => true
  | _ => false
  end%char.

Fixpoint trimStart (s : string) : string :=
  match s with
  | String c s' => if isSpace c then trimStart s' else s
  | EmptyString => EmptyString
  end.

Fixpoint trimEnd (s : string) : string :=
  match s with
  | EmptyString => EmptyString
  | String c s' =>
      match trimEnd s' with
      | EmptyString => if isSpace c then EmptyString else String c EmptyString
      | t => String c t
      end
  end.

Definition trim (s : string) : string := trimEnd (trimStart s).

(** The properties every object inherits from [Object.prototype]. *)
Definition objectPrototypeProperties : list string :=
  ["constructor"; "__proto__"; "hasOwnProperty"; "isPrototypeOf";
   "propertyIsEnumerable"; "toLocaleString"; "toString"; "valueOf";
   "__defineGetter__"; "__defineSetter__"; "__lookupGetter__";
   "__lookupSetter__"].

(** The fields of a plan that are truthy, by their names. *)
Definition truthyFields (plan : SearchParameterDetails) : list string :=
  (if String.eqb (columnName plan) "" then [] else ["columnName"])
  ++ ["type"]
  ++ match elementDefinitions plan with
     | Some _ => ["elementDefinitions"]
     | None => []
     end
  ++ match array plan with
     | Some true => ["array"]
     | _ => []
     end
  ++ ["implementation"].

(** What is found under an inherited key is not a plan: read through the
    plan interface it has no [elementDefinitions] and no [array]; its other
    fields read [undefined] in the runtime, which has no counterpart in the
    record, so no statement on this world reads them from it. *)
Definition notAPlan : SearchParameterDetails :=
  mkDetails "" TEXT None None ImplColumn.

(** The dictionaries of this world are the runtime's plain objects: a key
    that is not their own is looked up in the plan that an assignment to
    [__proto__] has made their prototype, if any, and then in
    [Object.prototype]. *)
Definition inheritedProperty (prototype : option SearchParameterDetails)
    (key : string) : option SearchParameterDetails :=
  let fromPlan :=
    match prototype with
    | Some plan => Js.includes (truthyFields plan) key
    | None => false
    end in
  if fromPlan || Js.includes objectPrototypeProperties key
  then Some notAPlan else None.

End Demo.

(** A few more inhabitants of the small world: a second parameter that shares
    the code of [Demo.clinicalCode], two boolean-valued parameters of the
    patient (one on a boolean element, one written as a boolean expression),
    a parameter with two clauses, the first on a date-time extension and the
    second on a multi-valued element, a parameter named like an inherited
    property, and a registry with a resource type that has nothing to
    index. *)

Module Demo2.

Definition sameCode : SearchParameter :=
  mkSearchParameter (Some "Observation-other-code") (Some "code") (Some KNumber)
    (Some "Observation.extension.value").

Definition deceasedText : string :=
  "Patient.deceased.exists() and Patient.deceased != false".

Definition patientDeceased : Atom :=
  BooleanInfixAtom "and"
    (Demo.dots (SymbolAtom "Patient")
       [SymbolAtom "deceased"; FunctionAtom "exists" []])
    (BooleanInfixAtom "!="
       (Demo.dots (SymbolAtom "Patient") [SymbolAtom "deceased"])
       (LiteralAtom "false")).

Definition patientActive : Atom :=
  Demo.dots (SymbolAtom "Patient") [SymbolAtom "active"].

Definition contactedText : string :=
  "Patient.extension.valueDateTime | Patient.telecom".

Definition patientContacted : Atom :=
  UnionAtom
    (Demo.dots (SymbolAtom "Patient")
       [SymbolAtom "extension"; SymbolAtom "valueDateTime"])
    Demo.patientTelecom.

Definition parseFhirPath (expression : option string) : Result Atom :=
  match expression with
  | Some text =>
      if String.eqb text deceasedText then Ok patientDeceased
      else if String.eqb text "Patient.active" then Ok patientActive
      else if String.eqb text contactedText then Ok patientContacted
      else Demo.parseFhirPath expression
  | None => Demo.parseFhirPath expression
  end.

Definition activeElement : InternalSchemaElement :=
  Demo.element "Patient.active" false ["boolean"].

Definition telecomElement : InternalSchemaElement :=
  Demo.element "Patient.telecom" true ["ContactPoint"].

Definition getElementDefinition (typeName propertyName : string)
  : option InternalSchemaElement :=
  if String.eqb (typeName +:+ "." +:+ propertyName) "Patient.active"
  then Some activeElement
  else Demo.getElementDefinition typeName propertyName.

Definition deceased : SearchParameter :=
  mkSearchParameter (Some "Patient-deceased") (Some "deceased") (Some KToken)
    (Some deceasedText).

Definition active : SearchParameter :=
  mkSearchParameter (Some "Patient-active") (Some "active") (Some KToken)
    (Some "Patient.active").

Definition contacted : SearchParameter :=
  mkSearchParameter (Some "Patient-contacted") (Some "contacted") (Some KString)
    (Some contactedText).

(** A token parameter whose code is the name of a property that every object
    inherits. *)
Definition constructorNamed : SearchParameter :=
  mkSearchParameter (Some "Observation-constructor") (Some "constructor")
    (Some KToken) (Some "Observation.code").

Definition getSearchParameters (resourceType : string)
  : option (list SearchParameter) :=
  if String.eqb resourceType "ChargeItem" then Some [Demo.factorOverride]
  else Demo.getSearchParameters resourceType.

Definition chargeItem : Resource := mkResource "ChargeItem".

End Demo2.

(** ** The search-parameter compiler ([details.ts]) *)

Section Subsystem.

Set Default Proof Using "Type".

(** The collaborators of the compiler that live outside it: the FHIRPath
    parser ([parseFhirPath(expression).child]; it receives the optional
    [expression] as it is and may throw), the rendering of an atom
    ([atom.toString()]) and the structural schema lookup
    ([getElementDefinition(typeName, propertyName)]). *)
Variable parseFhirPath : option string -> Result Atom.
Variable toString : Atom -> string.
Variable getElementDefinition : string -> string -> option InternalSchemaElement.

(** The runtime's lookup of a key that a dictionary object does not own:
    [inheritedProperty prototype key] is what the prototype chain yields for
    [key], read as the plan the code takes it for, or [None] when it yields
    nothing truthy.  [prototype] is the plan that has become the
    dictionary's prototype, if one has ([None]: the dictionary still has the
    prototype [{}] gave it, [Object.prototype], under whose property names,
    [constructor], [toString], [__proto__] and the like, something is
    found). *)
Variable inheritedProperty :
  option SearchParameterDetails -> string -> option SearchParameterDetails.

(** Modelled from the spec: [capitalize(word)] of [../utils], a module
    outside the two embedded here; the column name is the "camelCase of the
    hyphenated code". *)
Definition capitalize (word : string) : string :=
  match word with
  | EmptyString => EmptyString
  | String c rest => String (Js.upperChar c) rest
  end.

(** [code.split('-').reduce((result, word, index) =>
       result + (index ? capitalize(word) : word), '')]. *)
Definition convertCodeToColumnName (code : string) : string :=
  match Js.split "-" code with
  | [] => EmptyString
  | word :: words => fold_left (fun result w => result +:+ capitalize w) words word
  end.

Fixpoint flattenAtom (atom : Atom) : list Atom :=
  match atom with
  | AsAtom lhs _ | IndexerAtom lhs _ => flattenAtom lhs ++ [atom]
  | IsAtom _ _ | BooleanInfixAtom _ _ _ => [atom]
  | DotAtom lhs rhs => flattenAtom lhs ++ flattenAtom rhs
  | FunctionAtom name args =>
      if String.eqb name "where" && negb (isIsAtom (head args)) then []
      else if String.eqb name "last" then []
      else [atom]
  | _ => [atom]
  end.

(** [result] is the array the source pushes onto. *)
Fixpoint buildExpressionsForResourceType (resourceType : string) (atom : Atom)
    (result : list Atom) : list Atom :=
  match atom with
  | UnionAtom lhs rhs =>
      buildExpressionsForResourceType resourceType rhs
        (buildExpressionsForResourceType resourceType lhs result)
  | _ =>
      if Js.startsWith (toString atom) (resourceType +:+ ".")
      then result ++ [atom] else result
  end.

Definition getExpressionsForResourceType (resourceType : string)
    (expression : option string) : Result (list Atom) :=
  rbind (parseFhirPath expression)
    (fun child => Ok (buildExpressionsForResourceType resourceType child [])).

Definition isBackboneElement (propertyType : string) : bool :=
  String.eqb propertyType "Element" || String.eqb propertyType "BackboneElement".

(** [functionAtom.args[0].toString()]; [args[0]] may be [undefined]. *)
Definition firstArgToString (args : list Atom) : Result string :=
  match args with
  | a :: _ => Ok (toString a)
  | [] => Err (TypeError "Cannot read properties of undefined (reading 'toString')")
  end.

Definition handleFunctionAtom (builder : SearchParameterDetailsBuilder)
    (name : string) (args : list Atom) : Result SearchParameterDetailsBuilder :=
  if String.eqb name "as" then
    rbind (firstArgToString args) (fun t => Ok (addPropertyType t builder))
  else if String.eqb name "ofType" then
    rbind (firstArgToString args) (fun t => Ok (addPropertyType t builder))
  else if String.eqb name "resolve" then
    Ok (addPropertyType "string" builder)
  else
    match String.eqb name "where", args with
    | true, IsAtom _ rhs :: _ => Ok (addPropertyType (toString rhs) builder)
    | _, _ => Err (ConfigError ("Unhandled FHIRPath function: " +:+ name))
    end.

(** The part of [crawlSearchParameterDetails] after the element definition of
    the current atom is found.  [final] is [nextIndex >= atoms.length] and
    [crawlNext details propertyType] is the recursive call at [nextIndex]. *)
Definition crawlElement (details : SearchParameterDetailsBuilder)
    (elementDefinition : InternalSchemaElement) (hasArrayIndex final : bool)
    (crawlNext : SearchParameterDetailsBuilder -> string ->
                 Result SearchParameterDetailsBuilder)
  : Result SearchParameterDetailsBuilder :=
  let details :=
    if ise_isArray elementDefinition && negb hasArrayIndex
    then setArray true details else details in
  if final then
    Ok (fold_left (fun d t => addPropertyType (et_code t) d)
          (ise_type elementDefinition)
          (pushElementDefinition elementDefinition details))
  else
    foldR (fun d elementDefinitionType =>
             let propertyType := et_code elementDefinitionType in
             let propertyType :=
               if isBackboneElement propertyType
               then match ise_type elementDefinition with
                    | t0 :: _ => et_code t0
                    | [] => propertyType
                    end
               else propertyType in
             crawlNext d propertyType)
          (ise_type elementDefinition) details.

Definition isNil {A} (l : list A) : bool :=
  match l with [] => true | _ => false end.

(** [crawlSearchParameterDetails(details, atoms, baseType, index)], on the
    atoms from [index] on: [atoms] here is the source's [atoms.slice(index)],
    so [currAtom] is its head, and an empty slice is the out-of-range read
    [atoms[index] === undefined]. *)
Fixpoint crawlSearchParameterDetails (details : SearchParameterDetailsBuilder)
    (atoms : list Atom) (baseType : string) {struct atoms}
  : Result SearchParameterDetailsBuilder :=
  match atoms with
  | [] => Err (TypeError "Cannot read properties of undefined (reading 'toString')")
  | currAtom :: rest =>
      match currAtom with
      | AsAtom _ rhs => Ok (addPropertyType (toString rhs) details)
      | FunctionAtom name args => handleFunctionAtom details name args
      | _ =>
          let propertyName := toString currAtom in
          match getElementDefinition baseType propertyName with
          | None =>
              Err (ConfigError ("Element definition not found for " +:+ baseType
                                +:+ " " +:+ propertyName))
          | Some elementDefinition =>
              match rest with
              | IndexerAtom _ _ :: rest' =>
                  crawlElement details elementDefinition true (isNil rest')
                    (fun d propertyType =>
                       crawlSearchParameterDetails d rest' propertyType)
              | _ =>
                  crawlElement details elementDefinition false (isNil rest)
                    (fun d propertyType =>
                       crawlSearchParameterDetails d rest propertyType)
              end
          end
      end
  end.

(** [atomArray.join('.')]. *)
Definition flattenedExpression (atomArray : list Atom) : string :=
  Js.join "." (map toString atomArray).

Definition isLoneBooleanInfix (atomArray : list Atom) : bool :=
  match atomArray with
  | [a] => isBooleanInfixOperatorAtom a
  | _ => false
  end.

(** The body of the loop over the retained expressions in
    [buildSearchParameterDetails]; the crawl starts at index 1. *)
Definition processExpression (resourceType : string)
    (builder : SearchParameterDetailsBuilder) (expression : Atom)
  : Result SearchParameterDetailsBuilder :=
  let atomArray := flattenAtom expression in
  let flat := flattenedExpression atomArray in
  rbind
    (if isLoneBooleanInfix atomArray then
       Ok (addPropertyType "boolean" builder)
     else if Js.endsWith flat "extension.value.code"
             || Js.endsWith flat "extension.value.coding.code" then
       Ok (addPropertyType "code" (setArray true builder))
     else
       crawlSearchParameterDetails builder (tail atomArray) resourceType)
    (fun builder =>
       if Js.endsWith flat "extension.valueDateTime"
       then Ok (setArray false builder) else Ok builder).

Definition nameParams : list string :=
  ["individual-given"; "individual-family"; "Patient-name"; "Person-name";
   "Practitioner-name"; "RelatedPerson-name"].

Definition telecomParams : list string :=
  ["individual-telecom"; "individual-email"; "individual-phone";
   "OrganizationAffiliation-telecom"; "OrganizationAffiliation-email";
   "OrganizationAffiliation-phone"].

Definition addressParams : list string :=
  ["individual-address"; "InsurancePlan-address"; "Location-address";
   "Organization-address"].

(** [list.includes(searchParam.id as string)]: an absent id is in no list. *)
Definition includesId (l : list string) (id : option string) : bool :=
  match id with
  | Some s => Js.includes l s
  | None => false
  end.

(** [searchParam.code?.startsWith(p)] / [?.endsWith(p)] as a condition. *)
Definition codeStartsWith (searchParam : SearchParameter) (p : string) : bool :=
  match sp_code searchParam with
  | Some c => Js.startsWith c p
  | None => false
  end.

Definition codeEndsWith (searchParam : SearchParameter) (p : string) : bool :=
  match sp_code searchParam with
  | Some c => Js.endsWith c p
  | None => false
  end.

Definition isTokenKind (k : option SearchParamKind) : bool :=
  match k with Some KToken => true | _ => false end.

Definition isTokenElementType (t : ElementType) : bool :=
  String.eqb (et_code t) PropertyType.Identifier
  || String.eqb (et_code t) PropertyType.CodeableConcept
  || String.eqb (et_code t) PropertyType.Coding
  || String.eqb (et_code t) PropertyType.ContactPoint.

Definition isTokenParam (searchParam : SearchParameter)
    (builder : SearchParameterDetailsBuilder) : bool :=
  if isTokenKind (sp_type searchParam) then
    if codeEndsWith searchParam ":identifier" then true
    else existsb (fun elementDefinition =>
                    existsb isTokenElementType (ise_type elementDefinition))
                 (b_elementDefinitions builder)
  else false.

Definition isLookupTableParam (searchParam : SearchParameter)
    (builder : SearchParameterDetailsBuilder) : bool :=
  if includesId nameParams (sp_id searchParam) then true
  else if includesId telecomParams (sp_id searchParam) then true
  else if includesId addressParams (sp_id searchParam) then true
  else if codeStartsWith searchParam "address-" then true
  else if isTokenParam searchParam builder then false
  else false.

Definition getSearchParameterType (searchParam : SearchParameter)
    (propertyTypes : gset string) : SearchParameterType :=
  match sp_type searchParam with
  | Some KDate =>
      if bool_decide (size propertyTypes = 1)
         && bool_decide (PropertyType.date ∈ propertyTypes)
      then DATE else DATETIME
  | Some KNumber => NUMBER
  | Some KQuantity => QUANTITY
  | Some KReference =>
      if bool_decide (PropertyType.canonical ∈ propertyTypes)
      then CANONICAL else REFERENCE
  | Some KToken =>
      if bool_decide (size propertyTypes = 1)
         && bool_decide (PropertyType.boolean ∈ propertyTypes)
      then BOOLEAN else TEXT
  | _ => TEXT
  end.

(** [typeSchema.searchParamsDetails[code] = details], creating the type's
    entry and its details dictionary when they are missing.  The dictionary
    is a [{}]: an assignment to its key [__proto__] does not create a
    property, it makes the plan the dictionary's prototype.  The entry of the
    map under ["__proto__"] stands for that prototype. *)
Definition setSearchParameterDetails (resourceType code : string)
    (details : SearchParameterDetails) (g : GlobalSchema) : GlobalSchema :=
  let typeSchema :=
    match g !! resourceType with
    | Some ts => ts
    | None => {| searchParamsDetails := None |}
    end in
  let dict :=
    match searchParamsDetails typeSchema with
    | Some d => d
    | None => ∅
    end in
  <[ resourceType := {| searchParamsDetails := Some (<[ code := details ]> dict) |} ]> g.

(** [searchParam.code as string], where the code goes on to be used as a
    string ([code.split]): an absent code throws there. *)
Definition requireCode (searchParam : SearchParameter) : Result string :=
  match sp_code searchParam with
  | Some c => Ok c
  | None => Err (TypeError "Cannot read properties of undefined (reading 'split')")
  end.

(** The loop of [buildSearchParameterDetails] over the retained expressions,
    from the empty builder. *)
Definition crawlExpressions (resourceType : string) (expressions : list Atom)
  : Result SearchParameterDetailsBuilder :=
  foldR (processExpression resourceType) expressions emptyBuilder.

Definition planOfBuilder (searchParam : SearchParameter) (columnName : string)
    (builder : SearchParameterDetailsBuilder) : SearchParameterDetails :=
  {| columnName := columnName;
     type := getSearchParameterType searchParam (b_propertyTypes builder);
     elementDefinitions := Some (b_elementDefinitions builder);
     array := Some (b_array builder);
     implementation :=
       if isLookupTableParam searchParam builder then ImplLookupTable
       else if isTokenParam searchParam builder then ImplTokenColumns
       else ImplColumn |}.

Definition buildSearchParameterDetails (resourceType : string)
    (searchParam : SearchParameter) : M SearchParameterDetails :=
  (let* code := lift (requireCode searchParam) in
   let columnName := convertCodeToColumnName code in
   let* expressions :=
     lift (getExpressionsForResourceType resourceType (sp_expression searchParam)) in
   let* builder := lift (crawlExpressions resourceType expressions) in
   let result := planOfBuilder searchParam columnName builder in
   fun g => (Ok result, setSearchParameterDetails resourceType code result g))%schema.

(** [dictionary[key]] on the dictionary of a type: its own property, or
    else what its prototype chain yields.  Reading [__proto__] yields the
    prototype itself. *)
Definition readProperty (dictionary : gmap string SearchParameterDetails)
    (key : string) : option SearchParameterDetails :=
  match dictionary !! key with
  | Some plan => Some plan
  | None => inheritedProperty (dictionary !! "__proto__") key
  end.

(** [globalSchema.types[resourceType]?.searchParamsDetails?.[code]], as far
    as it is truthy; an absent code is the property name ["undefined"]. *)
Definition cachedDetails (g : GlobalSchema) (resourceType : string)
    (searchParam : SearchParameter) : option SearchParameterDetails :=
  match g !! resourceType with
  | Some typeSchema =>
      match searchParamsDetails typeSchema with
      | Some dictionary =>
          readProperty dictionary (default "undefined" (sp_code searchParam))
      | None => None
      end
  | None => None
  end.

Definition getSearchParameterDetails (resourceType : string)
    (searchParam : SearchParameter) : M SearchParameterDetails :=
  fun g =>
    match cachedDetails g resourceType searchParam with
    | Some result => (Ok result, g)
    | None => buildSearchParameterDetails resourceType searchParam g
    end.


(** ** The token module *)

(** Its collaborators: the search parameters registered for a resource type
    ([getSearchParameters], in [Object.values] order), the typed FHIRPath
    evaluator, the derivation of the identifier companion of a reference
    parameter, the two escaping functions of the SQL layer, the join-alias
    counter of a select query, and two methods of the runtime's strings:
    [value.toLocaleLowerCase()], which follows the Unicode case mappings and
    the locale of the host, and [value.trim()], which strips the white space
    and the line terminators of Unicode at both ends. *)
Variable getSearchParameters : string -> option (list SearchParameter).
Variable evalFhirPathTyped : option string -> Resource -> list TypedValue.
Variable deriveIdentifierSearchParameter : SearchParameter -> SearchParameter.
Variable escapeLiteral : string -> string.
Variable escapeLikeString : string -> string.
Variable getNextJoinAlias : SelectQuery -> string * SelectQuery.
Variable toLocaleLowerCase : string -> string.
Variable trim : string -> string.

Definition USE_TOKEN_TABLE : bool := false.
Definition DELIM : string := String "001" EmptyString.
Definition NULL_SYSTEM : string := String "002" EmptyString.
Definition ARRAY_DELIM : string := String "003" EmptyString.

(** Modelled from the spec: [splitSearchOnComma] of the core package, a
    module outside the two embedded here: "split each comma-separated value
    into a disjunction term". *)
Definition splitSearchOnComma (input : string) : list string :=
  Js.split "," input.

(** The text before and after the first [delim], if there is one. *)
Fixpoint splitFirst (delim : ascii) (s : string) : option (string * string) :=
  match s with
  | EmptyString => None
  | String c s' =>
      if Ascii.eqb c delim then Some (EmptyString, s')
      else match splitFirst delim s' with
           | Some (a, b) => Some (String c a, b)
           | None => None
           end
  end.

Fixpoint splitAtMost (delim : ascii) (cuts : nat) (s : string) : list string :=
  match cuts with
  | 0 => [s]
  | S cuts' =>
      match splitFirst delim s with
      | Some (a, b) => a :: splitAtMost delim cuts' b
      | None => [s]
      end
  end.

(** Modelled from the spec: [splitN(str, delim, n)] of the core package, a
    module outside the two embedded here: "within a term, split on the first
    [|] to get optional system and value parts" (at most [n] parts). *)
Definition splitN (str : string) (delim : ascii) (n : nat) : list string :=
  splitAtMost delim (n - 1) str.

Definition hasElementType (codes : list string)
    (elementDefinitions : list InternalSchemaElement) : bool :=
  existsb (fun elementDefinition =>
             existsb (fun t => Js.includes codes (et_code t))
                     (ise_type elementDefinition))
          elementDefinitions.

Definition getTokenIndexType (searchParam : SearchParameter)
    (resourceType : string) : M (option TokenIndexType) :=
  if negb (isTokenKind (sp_type searchParam)) then ret None
  else if codeEndsWith searchParam ":identifier" then ret (Some CASE_SENSITIVE)
  else
    (let* details := getSearchParameterDetails resourceType searchParam in
     match elementDefinitions details with
     | None | Some [] => ret None
     | Some eds =>
         if hasElementType [PropertyType.ContactPoint] eds
         then ret (Some CASE_INSENSITIVE)
         else if hasElementType [PropertyType.Identifier;
                                 PropertyType.CodeableConcept;
                                 PropertyType.Coding] eds
         then ret (Some CASE_SENSITIVE)
         else ret None
     end)%schema.

Definition isCaseSensitiveSearchParameter (param : SearchParameter)
    (resourceType : string) : M bool :=
  (let* indexType := getTokenIndexType param resourceType in
   ret (match indexType with Some CASE_SENSITIVE => true | _ => false end))%schema.

Definition shouldCompareTokenValue (operator : FhirOperator.t) : bool :=
  match operator with
  | FhirOperator.MISSING | FhirOperator.PRESENT | FhirOperator.IN
  | FhirOperator.NOT_IN | FhirOperator.IDENTIFIER => false
  | _ => true
  end.

Definition missingMessage : string :=
  "Search filter ':missing' must have a value of 'true' or 'false'".

Definition shouldTokenRowExist (filter : Filter) : Result bool :=
  if shouldCompareTokenValue (f_operator filter) then
    match f_operator filter with
    | FhirOperator.NOT | FhirOperator.NOT_EQUALS => Ok false
    | _ => Ok true
    end
  else
    match f_operator filter with
    | FhirOperator.MISSING =>
        let v := Js.toLowerCase (f_value filter) in
        if String.eqb v "true" then Ok false
        else if String.eqb v "false" then Ok true
        else Err (BadRequest missingMessage)
    | FhirOperator.PRESENT =>
        let v := Js.toLowerCase (f_value filter) in
        if String.eqb v "true" then Ok true
        else if String.eqb v "false" then Ok false
        else Err (BadRequest missingMessage)
    | _ => Ok true
    end.

Definition getTableName (resourceType : string) : string :=
  resourceType +:+ "_Token".

(** *** Token extraction *)

Definition sameToken (searchParam : SearchParameter)
    (system value : option string) (token : LookupToken) : bool :=
  Js.strictEq (tok_code token) (sp_code searchParam)
  && Js.strictEq (tok_system token) system
  && Js.strictEq (tok_value token) value.

Definition buildSimpleToken (result : list LookupToken)
    (searchParam : SearchParameter) (caseSensitive : bool)
    (system value : option string) : list LookupToken :=
  if (Js.truthy system || Js.truthy value)
     && negb (existsb (sameToken searchParam system value) result)
  then result ++
       [ {| tok_code := sp_code searchParam;
            tok_system := system;
            tok_value := if Js.truthy value && negb caseSensitive
                         then option_map toLocaleLowerCase value else value |} ]
  else result.

Definition buildIdentifierToken (result : list LookupToken)
    (searchParam : SearchParameter) (caseSensitive : bool)
    (identifier : option Identifier) : list LookupToken :=
  buildSimpleToken result searchParam caseSensitive
    (identifier ≫= identifier_system) (identifier ≫= identifier_value).

Definition buildCodingToken (result : list LookupToken)
    (searchParam : SearchParameter) (caseSensitive : bool)
    (coding : option Coding) : list LookupToken :=
  match coding with
  | Some coding =>
      let result :=
        if Js.truthy (coding_display coding)
        then buildSimpleToken result searchParam caseSensitive
               (Some "text") (coding_display coding)
        else result in
      buildSimpleToken result searchParam caseSensitive
        (coding_system coding) (coding_code coding)
  | None => result
  end.

Definition buildCodeableConceptToken (result : list LookupToken)
    (searchParam : SearchParameter) (caseSensitive : bool)
    (codeableConcept : option CodeableConcept) : list LookupToken :=
  let result :=
    if Js.truthy (codeableConcept ≫= concept_text)
    then buildSimpleToken result searchParam caseSensitive
           (Some "text") (codeableConcept ≫= concept_text)
    else result in
  match codeableConcept ≫= concept_coding with
  | Some codings =>
      fold_left (fun result coding =>
                   buildCodingToken result searchParam caseSensitive (Some coding))
                codings result
  | None => result
  end.

Definition buildContactPointToken (result : list LookupToken)
    (searchParam : SearchParameter) (caseSensitive : bool)
    (contactPoint : option ContactPoint) : list LookupToken :=
  buildSimpleToken result searchParam caseSensitive
    (contactPoint ≫= contact_system)
    (if Js.truthy (contactPoint ≫= contact_value)
     then option_map toLocaleLowerCase (contactPoint ≫= contact_value)
     else contactPoint ≫= contact_value).

Definition buildTokens (result : list LookupToken)
    (searchParam : SearchParameter) (resource : Resource)
    (typedValue : TypedValue) : M (list LookupToken) :=
  (let* caseSensitive :=
     isCaseSensitiveSearchParameter searchParam (resourceType resource) in
   ret (match typedValue with
        | IdentifierValue value =>
            buildIdentifierToken result searchParam caseSensitive value
        | CodeableConceptValue value =>
            buildCodeableConceptToken result searchParam caseSensitive value
        | CodingValue value =>
            buildCodingToken result searchParam caseSensitive value
        | ContactPointValue value =>
            buildContactPointToken result searchParam caseSensitive value
        | OtherValue _ text =>
            buildSimpleToken result searchParam caseSensitive None text
        end))%schema.

(** [for (const x of xs) acc = body(acc, x)] for a body that touches the
    schema cache. *)
Fixpoint foldM {A B} (body : B -> A -> M B) (xs : list A) (acc : B) : M B :=
  match xs with
  | [] => ret acc
  | x :: xs' => (let* acc' := body acc x in foldM body xs' acc')%schema
  end.

Definition buildTokensForSearchParameter (result : list LookupToken)
    (resource : Resource) (searchParam : SearchParameter)
  : M (list LookupToken) :=
  foldM (fun result typedValue => buildTokens result searchParam resource typedValue)
        (evalFhirPathTyped (sp_expression searchParam) resource) result.

Definition isReferenceKind (k : option SearchParamKind) : bool :=
  match k with Some KReference => true | _ => false end.

Definition getTokens (resource : Resource) : M (list LookupToken) :=
  match getSearchParameters (resourceType resource) with
  | Some searchParams =>
      foldM (fun result searchParam =>
               (let* indexType :=
                  getTokenIndexType searchParam (resourceType resource) in
                let* result :=
                  match indexType with
                  | Some _ => buildTokensForSearchParameter result resource searchParam
                  | None => ret result
                  end in
                if isReferenceKind (sp_type searchParam)
                then buildTokensForSearchParameter result resource
                       (deriveIdentifierSearchParameter searchParam)
                else ret result)%schema)
            searchParams []
  | None => ret []
  end.

(** *** Query conditions *)

Definition nonEmpty (s : string) : bool := negb (String.eqb s "").

(** [a === b] on operators. *)
Definition isOperator (a b : FhirOperator.t) : bool := bool_decide (a = b).

Definition buildValueCondition (details : SearchParameterDetails)
    (tableName : string) (filter : Filter) (caseSensitive : bool)
    (system : option string) (value : string) : Expression :=
  let value := trim value in
  if USE_TOKEN_TABLE then
    let col := column tableName "value" in
    if isOperator (f_operator filter) FhirOperator.TEXT then
      Conjunction
        [ TypedCondition (column tableName "system") OP_EQ (PString "text") None;
          TypedCondition col TSVECTOR_SIMPLE (PString (value +:+ ":*")) None ]
    else if isOperator (f_operator filter) FhirOperator.CONTAINS then
      TypedCondition col OP_LIKE (PString (escapeLikeString value +:+ "%")) None
    else if caseSensitive then
      TypedCondition col OP_EQ (PString value) None
    else
      TypedCondition col OP_IN (PStrings [value; toLocaleLowerCase value]) None
  else
    let system := default "" system in
    let valuePart := if nonEmpty value then DELIM +:+ value else "" in
    let tokenCol := column tableName (columnName details) in
    if isOperator (f_operator filter) FhirOperator.TEXT then
      Conjunction
        [ TypedCondition tokenCol ARRAY_CONTAINS (PString "text") (Some "text[]");
          TypedCondition tokenCol ARRAY_IREGEX
            (PString ("text" +:+ DELIM +:+ "[^" +:+ ARRAY_DELIM +:+ "]*" +:+ value))
            (Some "text[]") ]
    else if isOperator (f_operator filter) FhirOperator.CONTAINS then
      Conjunction
        [ TypedCondition tokenCol ARRAY_ILIKE
            (PString ("%" +:+ ARRAY_DELIM +:+ DELIM +:+ "%"
                      +:+ escapeLikeString value +:+ "%"))
            (Some "text[]");
          TypedCondition tokenCol ARRAY_IREGEX
            (PString (ARRAY_DELIM +:+ DELIM +:+ "[^" +:+ ARRAY_DELIM +:+ "]*" +:+ value))
            (Some "text[]") ]
    else if caseSensitive then
      TypedCondition tokenCol ARRAY_CONTAINS (PString (system +:+ valuePart))
        (Some "text[]")
    else
      TypedCondition tokenCol ARRAY_IREGEX
        (PString (system +:+ DELIM +:+ value +:+ ARRAY_DELIM)) (Some "text[]").

(** [new SelectQuery('ValueSet').column('reference').where('url', '=', value)
      .limit(1)]. *)
Definition valueSetReferenceQuery (value : string) : SelectQuery :=
  sq_limit 1
    (sq_whereExpr (TypedCondition (column "ValueSet" "url") OP_EQ (PString value) None)
       (sq_column (column "ValueSet" "reference") (newSelectQuery "ValueSet" None))).

Definition buildInValueSetCondition (tableName value : string) : Expression :=
  if USE_TOKEN_TABLE then
    TypedCondition (column tableName "system") IN_SUBQUERY
      (PSubquery (valueSetReferenceQuery value)) (Some "TEXT[]")
  else
    let inner := valueSetReferenceQuery value in
    let unnest :=
      sq_column (mkColumn (Some "ValueSet") "unnest(reference)" true (Some "reference"))
        (newSelectQuery "unnested" (Some inner)) in
    let code := "code" in
    let arrayAgg :=
      sq_column (mkColumn (Some "unnested")
                   ("array_agg('" +:+ code +:+ DELIM +:+ "' || reference)")
                   true (Some "code_and_system"))
        (newSelectQuery "array_agg" (Some unnest)) in
    TypedCondition (column tableName "token") ARRAY_CONTAINS_SUBQUERY
      (PSubquery arrayAgg) (Some "TEXT[]").

Definition buildWhereCondition (details : SearchParameterDetails)
    (tableName : string) (filter : Filter) (caseSensitive : bool)
    (query : string) : option Expression :=
  match splitN query "|" 2 with
  | [system; value] =>
      if USE_TOKEN_TABLE then
        let systemCondition :=
          TypedCondition (column tableName "system") OP_EQ
            (if nonEmpty system then PString system else PNull) None in
        Some (if nonEmpty value
              then Conjunction
                     [ systemCondition;
                       buildValueCondition details tableName filter caseSensitive
                         (Some system) value ]
              else systemCondition)
      else
        Some (buildValueCondition details tableName filter caseSensitive
                (Some (if nonEmpty system then system else NULL_SYSTEM)) value)
  | _ =>
      if isOperator (f_operator filter) FhirOperator.IN then
        Some (buildInValueSetCondition tableName query)
      else if shouldCompareTokenValue (f_operator filter) then
        Some (buildValueCondition details tableName filter caseSensitive None query)
      else None
  end.

Definition buildWhereExpression (details : SearchParameterDetails)
    (tableName : string) (caseSensitive : bool) (filter : Filter)
  : option Expression :=
  let subExpressions :=
    omap (buildWhereCondition details tableName filter caseSensitive)
         (splitSearchOnComma (f_value filter)) in
  match subExpressions with
  | [] => None
  | _ => Some (Disjunction subExpressions)
  end.

(** [TokenTable.isIndexed]: [&&] does not evaluate its right operand when the
    left one is false. *)
Definition isIndexed (searchParam : SearchParameter) (resourceType : string)
  : M bool :=
  if USE_TOKEN_TABLE then
    (let* indexType := getTokenIndexType searchParam resourceType in
     ret (match indexType with Some _ => true | None => false end))%schema
  else ret false.

(** [TokenTable.buildWhere]; the select query it is handed is not used. *)
Definition buildWhere (_selectQuery : SelectQuery) (resourceType table : string)
    (param : SearchParameter) (filter : Filter) : M Expression :=
  (let* caseSensitive := isCaseSensitiveSearchParameter param resourceType in
   let* details := getSearchParameterDetails resourceType param in
   if USE_TOKEN_TABLE then
     let lookupTableName := getTableName resourceType in
     let conjunction :=
       [ TypedCondition (column table "id") OP_EQ
           (PColumn (column lookupTableName "resourceId")) None;
         TypedCondition (column lookupTableName "code") OP_EQ
           (PString (f_code filter)) None ] in
     let conjunction :=
       match buildWhereExpression details lookupTableName caseSensitive filter with
       | Some whereExpression => conjunction ++ [whereExpression]
       | None => conjunction
       end in
     let exists_ :=
       SqlFunction "EXISTS"
         [ sq_whereExpr (Conjunction conjunction)
             (sq_column (column lookupTableName "resourceId")
                (newSelectQuery lookupTableName None)) ] in
     let* rowExists := lift (shouldTokenRowExist filter) in
     ret (if rowExists then exists_ else Negation exists_)
   else
     let whereExpression :=
       match buildWhereExpression details table caseSensitive filter with
       | Some e => e
       | None =>
           TypedCondition (column table (columnName details)) ARRAY_EMPTY
             PUndefined None
       end in
     let* rowExists := lift (shouldTokenRowExist filter) in
     ret (if rowExists then whereExpression else Negation whereExpression))%schema.

(** [TokenTable.addOrderBy]: the select query it mutates is returned. *)
Definition addOrderBy (selectQuery : SelectQuery) (resourceType : string)
    (sortRule : SortRule) : SelectQuery :=
  if USE_TOKEN_TABLE then
    let lookupTableName := getTableName resourceType in
    let '(joinName, selectQuery) := getNextJoinAlias selectQuery in
    let joinOnExpression :=
      TypedCondition (column resourceType "id") OP_EQ
        (PColumn (column joinName "resourceId")) None in
    let selectQuery :=
      sq_join
        (mkJoin "INNER JOIN"
           (sq_whereExpr
              (TypedCondition (column lookupTableName "code") OP_EQ
                 (PString (sort_code sortRule)) None)
              (sq_column (column lookupTableName "value")
                 (sq_column (column lookupTableName "resourceId")
                    (sq_distinctOn (column lookupTableName "resourceId")
                       (newSelectQuery lookupTableName None)))))
           joinName joinOnExpression)
        selectQuery in
    sq_orderBy (column joinName "value") (sort_descending sortRule) selectQuery
  else
    sq_orderBy
      (mkColumn None
         ("substring(a2t(token),"
          +:+ escapeLiteral (sort_code sortRule +:+ DELIM +:+ DELIM +:+ "([^"
                             +:+ ARRAY_DELIM +:+ "]+)")
          +:+ ")")
         true None)
      (sort_descending sortRule) selectQuery.


(** ** The vocabulary of the specification

    The statements below are phrased with these definitions, which follow the
    words of the specification rather than the code. *)

(** The code is [prefix] followed by something. *)
Definition codeHasPrefix (searchParam : SearchParameter) (prefix : string) : Prop :=
  exists code rest, sp_code searchParam = Some code /\ code = prefix +:+ rest.

(** The code is something followed by [suffix]. *)
Definition codeHasSuffix (searchParam : SearchParameter) (suffix : string) : Prop :=
  exists code front, sp_code searchParam = Some code /\ code = front +:+ suffix.

Definition idIn (members : list string) (searchParam : SearchParameter) : Prop :=
  exists i, sp_id searchParam = Some i /\ In i members.

(** "matches one of three fixed membership lists (composite name, composite
    telecom, composite address) or the code is prefixed [address-]". *)
Definition isSideLookupParameter (searchParam : SearchParameter) : Prop :=
  idIn nameParams searchParam \/ idIn telecomParams searchParam
  \/ idIn addressParams searchParam \/ codeHasPrefix searchParam "address-".

(** "some resolved element definition has a type among [codes]". *)
Definition resolvesToOneOf (codes : list string)
    (elementDefinitions : list InternalSchemaElement) : Prop :=
  exists elementDefinition t,
    In elementDefinition elementDefinitions
    /\ In t (ise_type elementDefinition)
    /\ In (et_code t) codes.

Definition tokenElementTypes : list string :=
  ["Identifier"; "CodeableConcept"; "Coding"; "ContactPoint"].

Definition caseSensitiveElementTypes : list string :=
  ["Identifier"; "CodeableConcept"; "Coding"].

(** "the declared type is token and (the code ends in [:identifier], or any
    resolved element type is one of Identifier, CodeableConcept, Coding,
    ContactPoint)". *)
Definition isTokenColumnsParameter (searchParam : SearchParameter)
    (elementDefinitions : list InternalSchemaElement) : Prop :=
  sp_type searchParam = Some KToken
  /\ (codeHasSuffix searchParam ":identifier"
      \/ resolvesToOneOf tokenElementTypes elementDefinitions).

(** "a path ending in [steps]": the flattened steps end with them. *)
Definition endsInSteps (atomArray : list Atom) (steps : list string) : Prop :=
  exists front, map toString atomArray = front ++ steps.

(** "Ending in", as the code tests it: on the dotted text of the flattened
    steps. *)
Definition endsInText (expression : Atom) (suffix : string) : Prop :=
  Js.endsWith (flattenedExpression (flattenAtom expression)) suffix = true.

(** "a path ending in extension value code or extension value coding code",
    on the steps or on the text (there a lone boolean-infix expression, which
    is no path, is classified first). *)
Definition isForcedCode (expression : Atom) : Prop :=
  endsInSteps (flattenAtom expression) ["extension"; "value"; "code"]
  \/ endsInSteps (flattenAtom expression) ["extension"; "value"; "coding"; "code"]
  \/ (isLoneBooleanInfix (flattenAtom expression) = false
      /\ (endsInText expression "extension.value.code"
          \/ endsInText expression "extension.value.coding.code")).

(** "a path ending in extension valueDateTime". *)
Definition isForcedSingle (expression : Atom) : Prop :=
  endsInSteps (flattenAtom expression) ["extension"; "valueDateTime"]
  \/ endsInText expression "extension.valueDateTime".

(** The two special cases read on the plan of a parameter: "forced to an
    array plan" whenever one of its path expressions is of the first kind,
    "forced to a non-array plan" whenever one is of the second kind. *)
Definition extensionForcingAsStated (resourceType : string)
    (searchParam : SearchParameter) (g : GlobalSchema) : Prop :=
  forall expressions plan,
    getExpressionsForResourceType resourceType (sp_expression searchParam)
    = Ok expressions ->
    fst (buildSearchParameterDetails resourceType searchParam g) = Ok plan ->
    (Exists isForcedCode expressions -> array plan = Some true)
    /\ (Exists isForcedSingle expressions -> array plan = Some false).

(** The candidate (system, value) pairs of a Coding: "one token
    [{system: "text", value: coding.display}] if display present, plus one
    token [{system: coding.system, value: coding.code}]". *)
Definition codingCandidates (coding : Coding)
  : list (option string * option string) :=
  (if Js.truthy (coding_display coding)
   then [(Some "text", coding_display coding)] else [])
  ++ [(coding_system coding, coding_code coding)].

(** Those of a CodeableConcept: "one token [{system: "text", value:
    concept.text}] if text present, plus one token per contained Coding". *)
Definition conceptCandidates (concept : CodeableConcept)
  : list (option string * option string) :=
  (if Js.truthy (concept_text concept)
   then [(Some "text", concept_text concept)] else [])
  ++ flat_map codingCandidates (default [] (concept_coding concept)).

(** Offering candidates one after the other to [buildSimpleToken]. *)
Definition retainAll (result : list LookupToken) (searchParam : SearchParameter)
    (caseSensitive : bool) (candidates : list (option string * option string))
  : list LookupToken :=
  fold_left (fun result candidate =>
               buildSimpleToken result searchParam caseSensitive
                 (fst candidate) (snd candidate))
            candidates result.

(** A candidate "where both system and value are empty/absent". *)
Definition isBlank (system value : option string) : bool :=
  negb (Js.truthy system) && negb (Js.truthy value).

Definition notBlank (t : LookupToken) : Prop :=
  isBlank (tok_system t) (tok_value t) = false.

(** A candidate as a token of the parameter. *)
Definition candidateToken (searchParam : SearchParameter)
    (candidate : option string * option string) : LookupToken :=
  {| tok_code := sp_code searchParam;
     tok_system := fst candidate;
     tok_value := snd candidate |}.

(** "Deduplicate by the triple (code, system, value)": the tokens are added
    one after the other, and a token that is already there is not added
    again. *)
Definition addDistinct (result tokens : list LookupToken) : list LookupToken :=
  fold_left (fun result t =>
               if bool_decide (t ∈ result) then result else result ++ [t])
            tokens result.

(** The tokens of a list of candidates: those that are not blank. *)
Definition tokensOf (searchParam : SearchParameter)
    (candidates : list (option string * option string)) : list LookupToken :=
  map (candidateToken searchParam)
      (List.filter (fun c => negb (isBlank (fst c) (snd c))) candidates).

(** The example of the specification: the fever concept "yields exactly the
    two distinct tokens" of the text and of the coding. *)
Definition feverExampleAsStated (searchParam : SearchParameter)
    (resource : Resource) (g : GlobalSchema) : Prop :=
  forall tokens,
    fst (buildTokens [] searchParam resource
           (CodeableConceptValue (Some Demo.fever)) g) = Ok tokens ->
    tokens = [ mkToken (sp_code searchParam) (Some "text") (Some "Fever");
               mkToken (sp_code searchParam) (Some "http://loinc.org")
                 (Some "386661006") ].

(** The value of the token is a lower-cased text, if it has one. *)
Definition hasLowerCasedValue (t : LookupToken) : Prop :=
  match tok_value t with
  | Some v => v = "" \/ exists w, v = toLocaleLowerCase w
  | None => True
  end.

(** Lower-casing what is lower-cased changes nothing. *)
Definition lowerCasingIsIdempotent : Prop :=
  forall s, toLocaleLowerCase (toLocaleLowerCase s) = toLocaleLowerCase s.

(** Lower-casing a text that is not empty gives one that is not empty. *)
Definition lowerCasingKeepsText : Prop :=
  forall s, nonEmpty s = true -> nonEmpty (toLocaleLowerCase s) = true.

(** No negation anywhere in an expression. *)
Fixpoint negationFree (e : Expression) : bool :=
  match e with
  | TypedCondition _ _ _ _ => true
  | Conjunction es | Disjunction es =>
      (fix all (l : list Expression) : bool :=
         match l with
         | [] => true
         | x :: l' => negationFree x && all l'
         end) es
  | Negation _ => false
  | SqlFunction _ _ => true
  end.

Definition isArrayOperator (operator : SqlOperator) : bool :=
  match operator with
  | ARRAY_CONTAINS | ARRAY_IREGEX | ARRAY_ILIKE | ARRAY_EMPTY
  | ARRAY_CONTAINS_SUBQUERY => true
  | _ => false
  end.

(** An expression of the encoded-array-column branch: every condition is an
    array operator on a column, and there is no [EXISTS] over the lookup
    table. *)
Fixpoint onEncodedArrayColumn (e : Expression) : bool :=
  match e with
  | TypedCondition _ operator _ _ => isArrayOperator operator
  | Conjunction es | Disjunction es =>
      (fix all (l : list Expression) : bool :=
         match l with
         | [] => true
         | x :: l' => onEncodedArrayColumn x && all l'
         end) es
  | Negation e' => onEncodedArrayColumn e'
  | SqlFunction _ _ => false
  end.

(** Modelled from the spec: the meaning of the conditions of [../sql], a
    module outside the two embedded here, on one resource row, as far as the
    operators speak for themselves: [ARRAY_EMPTY] holds when the array column
    has no entry, [ARRAY_CONTAINS] when the given encoded entry is one of its
    entries; the pattern and subquery operators are left undefined.  [row]
    gives the encoded entries of each array column of the row. *)
Fixpoint satisfies (row : Column -> list string) (e : Expression) : option bool :=
  match e with
  | TypedCondition c ARRAY_EMPTY _ _ => Some (isNil (row c))
  | TypedCondition c ARRAY_CONTAINS (PString entry) _ =>
      Some (Js.includes (row c) entry)
  | TypedCondition _ _ _ _ => None
  | Conjunction es =>
      (fix all (l : list Expression) : option bool :=
         match l with
         | [] => Some true
         | x :: l' =>
             match satisfies row x, all l' with
             | Some a, Some b => Some (a && b)
             | _, _ => None
             end
         end) es
  | Disjunction es =>
      (fix any (l : list Expression) : option bool :=
         match l with
         | [] => Some false
         | x :: l' =>
             match satisfies row x, any l' with
             | Some a, Some b => Some (a || b)
             | _, _ => None
             end
         end) es
  | Negation e' => option_map negb (satisfies row e')
  | SqlFunction _ _ => None
  end.

(** The condition holds on exactly the rows whose array column [c] has no
    entry / has some entry. *)
Definition requiresNoEntry (c : Column) (e : Expression) : Prop :=
  forall row, satisfies row e = Some (isNil (row c)).

Definition requiresSomeEntry (c : Column) (e : Expression) : Prop :=
  forall row, satisfies row e = Some (negb (isNil (row c))).

(** The case-sensitivity rule in the specification's words: "a parameter's
    tokens are case-sensitive iff it is an [:identifier] parameter, or its
    resolved element type is one of Identifier, CodeableConcept, Coding". *)
Definition caseSensitivityAsStated (param : SearchParameter)
    (resourceType : string) (g : GlobalSchema) : Prop :=
  forall caseSensitive details resolved,
    fst (isCaseSensitiveSearchParameter param resourceType g) = Ok caseSensitive ->
    fst (getSearchParameterDetails resourceType param g) = Ok details ->
    elementDefinitions details = Some resolved ->
    (caseSensitive = true
     <-> codeHasSuffix param ":identifier"
         \/ resolvesToOneOf caseSensitiveElementTypes resolved).

(** ** Further functions of the two modules, and their vocabulary *)

(** [getExpressionForResourceType]: the retained clauses rendered and joined
    by [' | '], or [undefined] when there is none. *)
Definition getExpressionForResourceType (resourceType : string)
    (expression : option string) : Result (option string) :=
  rbind (getExpressionsForResourceType resourceType expression)
    (fun atoms =>
       Ok (match atoms with
           | [] => None
           | _ => Some (Js.join " | " (map toString atoms))
           end)).

(** The clauses of a union, from left to right. *)
Fixpoint unionLeaves (atom : Atom) : list Atom :=
  match atom with
  | UnionAtom lhs rhs => unionLeaves lhs ++ unionLeaves rhs
  | _ => [atom]
  end.

(** The clause renders with the resource type and a dot in front. *)
Definition leadsWith (resourceType : string) (atom : Atom) : bool :=
  Js.startsWith (toString atom) (resourceType +:+ ".").

(** A step that survives flattening: no dot node, no generic [where(...)]
    filter, no [last()]. *)
Definition isStep (atom : Atom) : bool :=
  match atom with
  | DotAtom _ _ => false
  | FunctionAtom name args =>
      negb (String.eqb name "where" && negb (isIsAtom (head args)))
      && negb (String.eqb name "last")
  | _ => true
  end.

(** The builder only grew: no narrowed type and no resolved element was
    removed, and the array mark was not taken back. *)
Definition grows (before after : SearchParameterDetailsBuilder) : Prop :=
  b_propertyTypes before ⊆ b_propertyTypes after
  /\ (exists more,
        b_elementDefinitions after = b_elementDefinitions before ++ more)
  /\ (b_array before = true -> b_array after = true).

(** Every type of every resolved element is among the narrowed types. *)
Definition typesCover (builder : SearchParameterDetailsBuilder) : Prop :=
  forall elementDefinition t,
    In elementDefinition (b_elementDefinitions builder) ->
    In t (ise_type elementDefinition) ->
    et_code t ∈ b_propertyTypes builder.

(** A step the walk looks up in the schema (neither a cast nor a function). *)
Definition isPropertyStep (atom : Atom) : bool :=
  match atom with
  | AsAtom _ _ | FunctionAtom _ _ => false
  | _ => true
  end.

Definition startsWithIndexer (atoms : list Atom) : bool :=
  match atoms with
  | IndexerAtom _ _ :: _ => true
  | _ => false
  end.

(** All types of all these elements have the code [code]. *)
Definition onlyOfType (code : string)
    (elementDefinitions : list InternalSchemaElement) : Prop :=
  Forall (fun elementDefinition =>
            Forall (fun t => et_code t = code) (ise_type elementDefinition))
         elementDefinitions.

(** The token was extracted for one of these parameters: under the code of
    a token parameter, or under the code of the identifier companion of a
    reference parameter. *)
Definition extractedFor (params : list SearchParameter) (t : LookupToken) : Prop :=
  exists searchParam,
    In searchParam params
    /\ ((isTokenKind (sp_type searchParam) = true
         /\ tok_code t = sp_code searchParam)
        \/ (isReferenceKind (sp_type searchParam) = true
            /\ tok_code t
               = sp_code (deriveIdentifierSearchParameter searchParam))).

(** [after] is [before] with tokens of the code of [searchParam] appended. *)
Definition appendsFor (searchParam : SearchParameter)
    (before after : list LookupToken) : Prop :=
  exists more,
    after = before ++ more
    /\ Forall (fun t => tok_code t = sp_code searchParam) more.

(** ** Properties *)

(** *** Strings *)

Lemma append_nil_l (s : string) : "" +:+ s = s.
Proof. reflexivity. Qed.

Lemma append_cons (c : ascii) (a b : string) :
  String c a +:+ b = String c (a +:+ b).
Proof. reflexivity. Qed.

Lemma append_assoc (a b c : string) : (a +:+ b) +:+ c = a +:+ (b +:+ c).
Proof.
  induction a as [|x a IH]; [reflexivity|].
  rewrite !append_cons. now f_equal.
Qed.

Lemma startsWith_spec (s p : string) :
  Js.startsWith s p = true <-> exists rest, s = p +:+ rest.
Proof.
  unfold Js.startsWith. revert s.
  induction p as [|c p IH]; intros s.
  - split; [intros _; exists s; reflexivity | intros _; now destruct s].
  - destruct s as [|d s]; simpl.
    + split; [discriminate | intros [rest H]; discriminate].
    + destruct (ascii_dec c d) as [->|Hne].
      * rewrite IH. split; intros [rest H]; exists rest.
        -- rewrite append_cons. now rewrite H.
        -- rewrite append_cons in H. now injection H.
      * split; [discriminate|].
        intros [rest H]. rewrite append_cons in H. injection H as H1 _. congruence.
Qed.

Lemma endsWith_refl (s : string) : Js.endsWith s s = true.
Proof. destruct s; cbn [Js.endsWith]; now rewrite String.eqb_refl. Qed.

Lemma endsWith_spec (s suffix : string) :
  Js.endsWith s suffix = true <-> exists front, s = front +:+ suffix.
Proof.
  induction s as [|c s IH]; cbn [Js.endsWith].
  - destruct (String.eqb_spec "" suffix) as [<-|Hne].
    + split; [intros _; exists ""; reflexivity | reflexivity].
    + split; [discriminate|].
      intros [front H]. destruct front.
      * rewrite append_nil_l in H. congruence.
      * rewrite append_cons in H. discriminate.
  - destruct (String.eqb_spec (String c s) suffix) as [<-|Hne].
    + split; [intros _; exists ""; reflexivity | reflexivity].
    + rewrite IH. split; intros [front H].
      * exists (String c front). rewrite append_cons. now rewrite H.
      * destruct front as [|d front].
        -- rewrite append_nil_l in H. congruence.
        -- rewrite append_cons in H. injection H as _ H. now exists front.
Qed.

Lemma includes_spec (l : list string) (s : string) :
  Js.includes l s = true <-> In s l.
Proof.
  unfold Js.includes. rewrite existsb_exists. split.
  - intros [x [Hin Heq]]. apply String.eqb_eq in Heq. now subst.
  - intros Hin. exists s. split; [assumption | apply String.eqb_refl].
Qed.

(** A joined list of steps ends with the join of its last steps. *)
Lemma join_app_suffix (front steps : list string) :
  steps <> [] ->
  exists pre, Js.join "." (front ++ steps) = pre +:+ Js.join "." steps.
Proof.
  intros Hne. induction front as [|x front [pre IH]].
  - exists "". reflexivity.
  - unfold Js.join in *. simpl.
    destruct (front ++ steps) as [|y rest] eqn:E.
    + destruct front; simpl in E; [congruence | discriminate].
    + exists (x +:+ "." +:+ pre). rewrite IH.
      now rewrite !append_assoc.
Qed.

Lemma toLowerCase_idempotent (s : string) :
  Js.toLowerCase (Js.toLowerCase s) = Js.toLowerCase s.
Proof.
  induction s as [|c s IH]; simpl; [reflexivity|].
  f_equal; [|exact IH].
  clear. destruct c as [[] [] [] [] [] [] [] []]; reflexivity.
Qed.

Lemma split_nonEmpty (sep : ascii) (s : string) : Js.split sep s <> [].
Proof.
  destruct s as [|c s]; simpl; [discriminate|].
  destruct (Ascii.eqb c sep); [discriminate|].
  destruct (Js.split sep s); discriminate.
Qed.

(** *** The compiler, step by step *)

Lemma includesId_spec (members : list string) (searchParam : SearchParameter) :
  includesId members (sp_id searchParam) = true <-> idIn members searchParam.
Proof.
  unfold includesId, idIn. destruct (sp_id searchParam) as [i|].
  - rewrite includes_spec. split.
    + intros H. now exists i.
    + intros [j [[= <-] H]]. exact H.
  - split; [discriminate | intros [j [[=] _]]].
Qed.

Lemma codeStartsWith_spec (searchParam : SearchParameter) (p : string) :
  codeStartsWith searchParam p = true <-> codeHasPrefix searchParam p.
Proof.
  unfold codeStartsWith, codeHasPrefix. destruct (sp_code searchParam) as [c|].
  - rewrite startsWith_spec. split.
    + intros [rest H]. now exists c, rest.
    + intros [c' [rest [[= <-] H]]]. now exists rest.
  - split; [discriminate | intros [c [rest [[=] _]]]].
Qed.

Lemma codeEndsWith_spec (searchParam : SearchParameter) (p : string) :
  codeEndsWith searchParam p = true <-> codeHasSuffix searchParam p.
Proof.
  unfold codeEndsWith, codeHasSuffix. destruct (sp_code searchParam) as [c|].
  - rewrite endsWith_spec. split.
    + intros [front H]. now exists c, front.
    + intros [c' [front [[= <-] H]]]. now exists front.
  - split; [discriminate | intros [c [front [[=] _]]]].
Qed.

Lemma isTokenKind_spec (k : option SearchParamKind) :
  isTokenKind k = true <-> k = Some KToken.
Proof. destruct k as [[]|]; simpl; split; congruence. Qed.

Lemma isLookupTableParam_spec (searchParam : SearchParameter)
    (builder : SearchParameterDetailsBuilder) :
  isLookupTableParam searchParam builder = true
  <-> isSideLookupParameter searchParam.
Proof.
  unfold isLookupTableParam, isSideLookupParameter.
  rewrite <- !includesId_spec, <- codeStartsWith_spec.
  destruct (includesId nameParams (sp_id searchParam)),
    (includesId telecomParams (sp_id searchParam)),
    (includesId addressParams (sp_id searchParam)),
    (codeStartsWith searchParam "address-"),
    (isTokenParam searchParam builder); clear; intuition congruence.
Qed.

Lemma hasElementType_spec (codes : list string)
    (eds : list InternalSchemaElement) :
  hasElementType codes eds = true <-> resolvesToOneOf codes eds.
Proof.
  unfold hasElementType, resolvesToOneOf. rewrite existsb_exists. split.
  - intros [ed [Hed H]]. apply existsb_exists in H as [t [Ht H]].
    apply includes_spec in H. now exists ed, t.
  - intros [ed [t [Hed [Ht H]]]]. exists ed. split; [assumption|].
    apply existsb_exists. exists t. split; [assumption|].
    now apply includes_spec.
Qed.

Lemma isTokenElementType_includes (t : ElementType) :
  isTokenElementType t = Js.includes tokenElementTypes (et_code t).
Proof.
  unfold isTokenElementType, Js.includes, tokenElementTypes,
    PropertyType.Identifier, PropertyType.CodeableConcept,
    PropertyType.Coding, PropertyType.ContactPoint.
  cbn [existsb]. now rewrite orb_false_r, !orb_assoc.
Qed.

Lemma isTokenParam_spec (searchParam : SearchParameter)
    (builder : SearchParameterDetailsBuilder) :
  isTokenParam searchParam builder = true
  <-> isTokenColumnsParameter searchParam (b_elementDefinitions builder).
Proof.
  unfold isTokenParam, isTokenColumnsParameter.
  rewrite <- isTokenKind_spec, <- codeEndsWith_spec, <- hasElementType_spec.
  assert (E : existsb (fun ed => existsb isTokenElementType (ise_type ed))
                (b_elementDefinitions builder)
              = hasElementType tokenElementTypes (b_elementDefinitions builder)).
  { unfold hasElementType.
    induction (b_elementDefinitions builder) as [|ed eds IH]; [reflexivity|].
    cbn [existsb]. rewrite IH. f_equal.
    induction (ise_type ed) as [|t ts IHt]; [reflexivity|].
    cbn [existsb]. now rewrite IHt, isTokenElementType_includes. }
  rewrite E.
  destruct (isTokenKind (sp_type searchParam)),
    (codeEndsWith searchParam ":identifier"),
    (hasElementType tokenElementTypes (b_elementDefinitions builder));
    clear; intuition congruence.
Qed.

(** What a successful compilation went through. *)
Lemma buildSearchParameterDetails_ok (resourceType : string)
    (searchParam : SearchParameter) (g : GlobalSchema)
    (plan : SearchParameterDetails) :
  fst (buildSearchParameterDetails resourceType searchParam g) = Ok plan ->
  exists code expressions builder,
    sp_code searchParam = Some code
    /\ getExpressionsForResourceType resourceType (sp_expression searchParam)
       = Ok expressions
    /\ crawlExpressions resourceType expressions = Ok builder
    /\ plan = planOfBuilder searchParam (convertCodeToColumnName code) builder
    /\ snd (buildSearchParameterDetails resourceType searchParam g)
       = setSearchParameterDetails resourceType code plan g.
Proof.
  unfold buildSearchParameterDetails, bind, lift, requireCode.
  destruct (sp_code searchParam) as [code|]; [|discriminate].
  destruct (getExpressionsForResourceType _ _) as [expressions|] eqn:E1;
    [|discriminate].
  destruct (crawlExpressions _ _) as [builder|] eqn:E2; [|discriminate].
  simpl. intros [= <-]. now exists code, expressions, builder.
Qed.

(** A compilation that throws leaves the cache as it was. *)
Lemma buildSearchParameterDetails_err (resourceType : string)
    (searchParam : SearchParameter) (g : GlobalSchema) (e : Error) :
  fst (buildSearchParameterDetails resourceType searchParam g) = Err e ->
  snd (buildSearchParameterDetails resourceType searchParam g) = g.
Proof.
  unfold buildSearchParameterDetails, bind, lift, requireCode.
  destruct (sp_code searchParam) as [code|]; [|reflexivity].
  destruct (getExpressionsForResourceType _ _) as [expressions|]; [|reflexivity].
  destruct (crawlExpressions _ _) as [builder|]; [|reflexivity].
  discriminate.
Qed.

(** *** Storage strategy *)

(** C3.  Compilation classifies the storage strategy as side-lookup-table
    exactly when the parameter's id is in the name, telecom or address
    membership list or its code starts with "address-"; otherwise as
    token-columns exactly when the declared type is token and either the code
    ends in ":identifier" or some resolved element definition has a type among
    Identifier, CodeableConcept, Coding, ContactPoint; otherwise as
    inline-column -- which is where a parameter of declared type number that
    is not a side-lookup parameter ends up. *)
Theorem storage_strategy_classification (resourceType : string)
    (searchParam : SearchParameter) (g : GlobalSchema)
    (plan : SearchParameterDetails) :
  fst (buildSearchParameterDetails resourceType searchParam g) = Ok plan ->
  exists resolved,
    elementDefinitions plan = Some resolved
    /\ (implementation plan = ImplLookupTable
        <-> isSideLookupParameter searchParam)
    /\ (implementation plan = ImplTokenColumns
        <-> ~ isSideLookupParameter searchParam
            /\ isTokenColumnsParameter searchParam resolved)
    /\ (implementation plan = ImplColumn
        <-> ~ isSideLookupParameter searchParam
            /\ ~ isTokenColumnsParameter searchParam resolved)
    /\ (sp_type searchParam = Some KNumber ->
        ~ isSideLookupParameter searchParam ->
        implementation plan = ImplColumn).
Proof.
  intros H.
  apply buildSearchParameterDetails_ok in H
    as (code & expressions & builder & _ & _ & _ & -> & _).
  exists (b_elementDefinitions builder). split; [reflexivity|].
  cbn [implementation planOfBuilder].
  pose proof (isLookupTableParam_spec searchParam builder) as HL.
  pose proof (isTokenParam_spec searchParam builder) as HT.
  assert (HN : sp_type searchParam = Some KNumber ->
               isTokenParam searchParam builder = false).
  { intros E. unfold isTokenParam. now rewrite E. }
  destruct (isLookupTableParam searchParam builder),
    (isTokenParam searchParam builder);
    clear - HL HT HN; intuition (try discriminate; try congruence).
Qed.

(** *** Semantic type *)

(** "The single narrowed type is exactly [t]". *)
Lemma single_narrowed_type (narrowed : gset string) (t : string) :
  bool_decide (size narrowed = 1) && bool_decide (t ∈ narrowed) = true
  <-> narrowed = {[ t ]}.
Proof.
  rewrite andb_true_iff, !bool_decide_eq_true. split.
  - intros [Hsize Hin].
    apply size_1_elem_of in Hsize as [x Hx].
    apply leibniz_equiv in Hx. subst narrowed.
    apply elem_of_singleton in Hin. now subst.
  - intros ->. split; [apply size_singleton | now apply elem_of_singleton].
Qed.

(** C6.  The plan's semantic type is derived from the declared type and the
    narrowed property-type set: date maps to DATE only if the single narrowed
    type is exactly date, else DATETIME; reference maps to CANONICAL if a
    canonical type was observed, else REFERENCE; token maps to BOOLEAN only
    if the single narrowed type is boolean, else TEXT; number maps to NUMBER;
    quantity maps to QUANTITY; every other declared type maps to TEXT. *)
Theorem semantic_type_derivation (resourceType : string)
    (searchParam : SearchParameter) (g : GlobalSchema)
    (plan : SearchParameterDetails) :
  fst (buildSearchParameterDetails resourceType searchParam g) = Ok plan ->
  exists expressions builder,
    getExpressionsForResourceType resourceType (sp_expression searchParam)
    = Ok expressions
    /\ crawlExpressions resourceType expressions = Ok builder
    /\ let narrowed := b_propertyTypes builder in
       match sp_type searchParam with
       | Some KDate =>
           (narrowed = {[ "date" ]} -> type plan = DATE)
           /\ (narrowed <> {[ "date" ]} -> type plan = DATETIME)
       | Some KReference =>
           ("canonical" ∈ narrowed -> type plan = CANONICAL)
           /\ ("canonical" ∉ narrowed -> type plan = REFERENCE)
       | Some KToken =>
           (narrowed = {[ "boolean" ]} -> type plan = BOOLEAN)
           /\ (narrowed <> {[ "boolean" ]} -> type plan = TEXT)
       | Some KNumber => type plan = NUMBER
       | Some KQuantity => type plan = QUANTITY
       | _ => type plan = TEXT
       end.
Proof.
  intros H.
  apply buildSearchParameterDetails_ok in H
    as (code & expressions & builder & _ & He & Hb & -> & _).
  exists expressions, builder. split; [exact He|]. split; [exact Hb|].
  cbn [type planOfBuilder]. unfold getSearchParameterType.
  destruct (sp_type searchParam) as [[]|]; try reflexivity.
  - pose proof (single_narrowed_type (b_propertyTypes builder) PropertyType.date) as S.
    destruct (bool_decide (size (b_propertyTypes builder) = 1)
              && bool_decide (PropertyType.date ∈ b_propertyTypes builder)).
    + split; [reflexivity|]. intros Hne. exfalso. apply Hne. now apply S.
    + split; [|reflexivity]. intros E. apply S in E. discriminate.
  - pose proof (single_narrowed_type (b_propertyTypes builder) PropertyType.boolean) as S.
    destruct (bool_decide (size (b_propertyTypes builder) = 1)
              && bool_decide (PropertyType.boolean ∈ b_propertyTypes builder)).
    + split; [reflexivity|]. intros Hne. exfalso. apply Hne. now apply S.
    + split; [|reflexivity]. intros E. apply S in E. discriminate.
  - case_bool_decide as Hc; split; intros; try reflexivity; contradiction.
Qed.

(** *** The two special cases of the walk *)

Lemma list_ascii_of_append (a b : string) :
  list_ascii_of_string (a +:+ b)
  = list_ascii_of_string a ++ list_ascii_of_string b.
Proof.
  induction a as [|c a IH]; [reflexivity|].
  rewrite append_cons. simpl. now rewrite IH.
Qed.

Lemma length_list_ascii (a : string) :
  length (list_ascii_of_string a) = String.length a.
Proof. induction a as [|c a IH]; simpl; [reflexivity | now rewrite IH]. Qed.

(** Two suffixes of one string agree on their last [n] characters. *)
Lemma suffixes_agree (n : nat) (s a b : string) :
  Js.endsWith s a = true -> Js.endsWith s b = true ->
  n <= String.length a -> n <= String.length b ->
  firstn n (rev (list_ascii_of_string a))
  = firstn n (rev (list_ascii_of_string b)).
Proof.
  intros Ha Hb La Lb.
  apply endsWith_spec in Ha as [fa Ea]. apply endsWith_spec in Hb as [fb Eb].
  assert (K : forall f x, s = f +:+ x -> n <= String.length x ->
              firstn n (rev (list_ascii_of_string s))
              = firstn n (rev (list_ascii_of_string x))).
  { intros f x -> L. rewrite list_ascii_of_append, rev_app_distr.
    rewrite firstn_app.
    assert (E : n - length (rev (list_ascii_of_string x)) = 0).
    { rewrite length_rev, length_list_ascii. lia. }
    rewrite E. simpl. apply app_nil_r. }
  rewrite <- (K fa a Ea La). now apply (K fb).
Qed.

Lemma codeSuffix_not_dateTime (s : string) :
  Js.endsWith s "extension.value.code" = true
  \/ Js.endsWith s "extension.value.coding.code" = true ->
  Js.endsWith s "extension.valueDateTime" = false.
Proof.
  intros H. destruct (Js.endsWith s "extension.valueDateTime") eqn:E;
    [exfalso | reflexivity].
  destruct H as [H|H];
    pose proof (suffixes_agree 2 _ _ _ H E ltac:(simpl; lia) ltac:(simpl; lia)) as K;
    vm_compute in K; discriminate.
Qed.

Lemma endsInSteps_endsWith (atomArray : list Atom) (steps : list string) :
  steps <> [] -> endsInSteps atomArray steps ->
  Js.endsWith (flattenedExpression atomArray) (Js.join "." steps) = true.
Proof.
  intros Hne [front E]. unfold flattenedExpression. rewrite E.
  destruct (join_app_suffix front steps Hne) as [pre ->].
  apply endsWith_spec. now exists pre.
Qed.

Lemma endsInSteps_not_lone (atomArray : list Atom) (steps : list string) :
  2 <= length steps -> endsInSteps atomArray steps ->
  isLoneBooleanInfix atomArray = false.
Proof.
  intros L [front E].
  assert (L' : 2 <= length atomArray).
  { rewrite <- (length_map toString), E, length_app. lia. }
  destruct atomArray as [|a [|b rest]]; simpl in L'; try lia; reflexivity.
Qed.

(** *** Determinism and the plan cache *)

Lemma cachedDetails_set (resourceType code : string)
    (searchParam : SearchParameter) (plan : SearchParameterDetails)
    (g : GlobalSchema) :
  sp_code searchParam = Some code ->
  cachedDetails (setSearchParameterDetails resourceType code plan g)
    resourceType searchParam = Some plan.
Proof.
  intros Hcode. unfold cachedDetails, setSearchParameterDetails.
  rewrite lookup_insert_eq. cbn [searchParamsDetails].
  rewrite Hcode. cbn [default]. unfold readProperty.
  now rewrite lookup_insert_eq.
Qed.

Lemma buildSearchParameterDetails_cache_independent (resourceType : string)
    (searchParam : SearchParameter) (g1 g2 : GlobalSchema) :
  fst (buildSearchParameterDetails resourceType searchParam g1)
  = fst (buildSearchParameterDetails resourceType searchParam g2).
Proof.
  unfold buildSearchParameterDetails, bind, lift.
  destruct (requireCode searchParam); [|reflexivity].
  destruct (getExpressionsForResourceType _ _); [|reflexivity].
  destruct (crawlExpressions _ _); reflexivity.
Qed.

(** Asking again right after a first request: same answer, same cache. *)
Lemma getSearchParameterDetails_again (resourceType : string)
    (searchParam : SearchParameter) (g : GlobalSchema) :
  getSearchParameterDetails resourceType searchParam
    (snd (getSearchParameterDetails resourceType searchParam g))
  = getSearchParameterDetails resourceType searchParam g.
Proof.
  destruct (cachedDetails g resourceType searchParam) as [cached|] eqn:Hc.
  - assert (E : getSearchParameterDetails resourceType searchParam g
                = (Ok cached, g)).
    { unfold getSearchParameterDetails. now rewrite Hc. }
    rewrite E. exact E.
  - assert (E : getSearchParameterDetails resourceType searchParam g
                = buildSearchParameterDetails resourceType searchParam g).
    { unfold getSearchParameterDetails. now rewrite Hc. }
    rewrite E.
    destruct (buildSearchParameterDetails resourceType searchParam g)
      as [[plan|e] g'] eqn:Hb.
    + assert (Hf : fst (buildSearchParameterDetails resourceType searchParam g)
                   = Ok plan) by now rewrite Hb.
      destruct (buildSearchParameterDetails_ok _ _ _ _ Hf)
        as (code & expressions & builder & Hcode & _ & _ & _ & Hg).
      rewrite Hb in Hg. cbn [snd] in *. subst g'.
      unfold getSearchParameterDetails.
      now rewrite (cachedDetails_set _ _ _ _ _ Hcode).
    + assert (Hf : fst (buildSearchParameterDetails resourceType searchParam g)
                   = Err e) by now rewrite Hb.
      pose proof (buildSearchParameterDetails_err _ _ _ _ Hf) as Hg.
      rewrite Hb in Hg. cbn [snd] in *. subst g'.
      now rewrite E.
Qed.

(** C9.  Compiling the same (resourceType, parameter definition) against the
    same schema twice yields equal results: what the compiler builds does not
    depend on the state of the plan cache, and asking for the plan a second
    time, after the first request has stored it, returns the same plan (or
    throws the same error) and leaves the cache as the first request left
    it. *)
Theorem compilation_deterministic (resourceType : string)
    (searchParam : SearchParameter) (g : GlobalSchema) :
  let first := getSearchParameterDetails resourceType searchParam g in
  let second := getSearchParameterDetails resourceType searchParam (snd first) in
  fst second = fst first
  /\ snd second = snd first
  /\ forall g', fst (buildSearchParameterDetails resourceType searchParam g')
                = fst (buildSearchParameterDetails resourceType searchParam g).
Proof.
  cbv zeta. rewrite getSearchParameterDetails_again.
  split; [reflexivity|]. split; [reflexivity|].
  intros g'. apply buildSearchParameterDetails_cache_independent.
Qed.

(** *** Query conditions, step by step *)

Lemma buildWhere_run (q : SelectQuery) (resourceType table : string)
    (param : SearchParameter) (filter : Filter) (g g1 g2 : GlobalSchema)
    (caseSensitive : bool) (details : SearchParameterDetails) :
  isCaseSensitiveSearchParameter param resourceType g = (Ok caseSensitive, g1) ->
  getSearchParameterDetails resourceType param g1 = (Ok details, g2) ->
  buildWhere q resourceType table param filter g
  = (rbind (shouldTokenRowExist filter)
       (fun rowExists =>
          let whereExpression :=
            match buildWhereExpression details table caseSensitive filter with
            | Some e => e
            | None =>
                TypedCondition (column table (columnName details)) ARRAY_EMPTY
                  PUndefined None
            end in
          Ok (if rowExists then whereExpression else Negation whereExpression)),
     g2).
Proof.
  intros H1 H2. unfold buildWhere, bind. rewrite H1, H2.
  cbn [USE_TOKEN_TABLE]. unfold lift, ret.
  destruct (shouldTokenRowExist filter); reflexivity.
Qed.

Lemma buildWhere_ok (q : SelectQuery) (resourceType table : string)
    (param : SearchParameter) (filter : Filter) (g : GlobalSchema)
    (e : Expression) :
  fst (buildWhere q resourceType table param filter g) = Ok e ->
  exists caseSensitive g1 details g2,
    isCaseSensitiveSearchParameter param resourceType g = (Ok caseSensitive, g1)
    /\ getSearchParameterDetails resourceType param g1 = (Ok details, g2).
Proof.
  unfold buildWhere, bind.
  destruct (isCaseSensitiveSearchParameter param resourceType g)
    as [[caseSensitive|err] g1] eqn:H1; [|cbn; discriminate].
  destruct (getSearchParameterDetails resourceType param g1)
    as [[details|err] g2] eqn:H2; [|cbn; discriminate].
  intros _. now exists caseSensitive, g1, details, g2.
Qed.

Lemma onEncodedArrayColumn_disjunction (es : list Expression) :
  onEncodedArrayColumn (Disjunction es) = forallb onEncodedArrayColumn es.
Proof. induction es as [|x es IH]; [reflexivity|]. cbn in *. now rewrite IH. Qed.

Lemma negationFree_disjunction (es : list Expression) :
  negationFree (Disjunction es) = forallb negationFree es.
Proof. induction es as [|x es IH]; [reflexivity|]. cbn in *. now rewrite IH. Qed.

Lemma buildValueCondition_shape (details : SearchParameterDetails)
    (tableName : string) (filter : Filter) (caseSensitive : bool)
    (system : option string) (value : string) :
  onEncodedArrayColumn
    (buildValueCondition details tableName filter caseSensitive system value) = true
  /\ negationFree
       (buildValueCondition details tableName filter caseSensitive system value) = true.
Proof.
  unfold buildValueCondition. cbn [USE_TOKEN_TABLE].
  destruct (isOperator (f_operator filter) FhirOperator.TEXT),
    (isOperator (f_operator filter) FhirOperator.CONTAINS), caseSensitive;
    split; reflexivity.
Qed.

Lemma buildWhereCondition_shape (details : SearchParameterDetails)
    (tableName : string) (filter : Filter) (caseSensitive : bool)
    (query : string) (term : Expression) :
  buildWhereCondition details tableName filter caseSensitive query = Some term ->
  onEncodedArrayColumn term = true /\ negationFree term = true.
Proof.
  unfold buildWhereCondition. cbn [USE_TOKEN_TABLE].
  destruct (splitN query "|" 2) as [|system [|value [|]]];
    try (destruct (isOperator (f_operator filter) FhirOperator.IN);
         [intros [= <-]; split; reflexivity|];
         destruct (shouldCompareTokenValue (f_operator filter)); [|discriminate]);
    intros [= <-]; apply buildValueCondition_shape.
Qed.

Lemma buildWhereExpression_shape (details : SearchParameterDetails)
    (tableName : string) (caseSensitive : bool) (filter : Filter)
    (e : Expression) :
  buildWhereExpression details tableName caseSensitive filter = Some e ->
  onEncodedArrayColumn e = true.
Proof.
  unfold buildWhereExpression.
  set (f := buildWhereCondition details tableName filter caseSensitive).
  assert (K : forallb onEncodedArrayColumn
                (omap f (splitSearchOnComma (f_value filter))) = true).
  { induction (splitSearchOnComma (f_value filter)) as [|x l IH]; [reflexivity|].
    cbn [omap list_omap]. destruct (f x) as [t|] eqn:E; [|exact IH].
    cbn [forallb]. rewrite IH.
    now destruct (buildWhereCondition_shape _ _ _ _ _ _ E) as [-> _]. }
  destruct (omap f (splitSearchOnComma (f_value filter))); [discriminate|].
  intros [= <-]. now rewrite onEncodedArrayColumn_disjunction.
Qed.

(** *** The lookup table is switched off *)


(** *** Negating filters *)

Lemma buildWhereCondition_comparing (details : SearchParameterDetails)
    (tableName : string) (filter : Filter) (caseSensitive : bool)
    (query : string) :
  shouldCompareTokenValue (f_operator filter) = true ->
  exists term,
    buildWhereCondition details tableName filter caseSensitive query = Some term.
Proof.
  intros Hcmp. unfold buildWhereCondition. cbn [USE_TOKEN_TABLE]. rewrite Hcmp.
  destruct (splitN query "|" 2) as [|system [|value [|]]]; eauto;
    destruct (isOperator (f_operator filter) FhirOperator.IN); eauto.
Qed.

Lemma omap_total {A B} (f : A -> option B) (P : B -> Prop) (l : list A) :
  (forall x, exists y, f x = Some y) ->
  (forall x y, f x = Some y -> P y) ->
  Forall2 (fun x y => f x = Some y /\ P y) l (omap f l).
Proof.
  intros Htotal HP. induction l as [|x l IH]; [constructor|].
  cbn [omap list_omap]. destruct (Htotal x) as [y Hy]. rewrite Hy.
  constructor; [split; [exact Hy | now apply (HP x)] | exact IH].
Qed.

(** C7.  For a filter whose operator is NOT or NOT_EQUALS, the condition is
    one negation applied to the disjunction of the per-value terms, one term
    per comma-separated value and in their order, and no term contains a
    negation of its own. *)
Theorem negation_of_whole_disjunction (q : SelectQuery)
    (resourceType table : string) (param : SearchParameter) (filter : Filter)
    (g g1 g2 : GlobalSchema) (caseSensitive : bool)
    (details : SearchParameterDetails) :
  f_operator filter = FhirOperator.NOT
  \/ f_operator filter = FhirOperator.NOT_EQUALS ->
  isCaseSensitiveSearchParameter param resourceType g = (Ok caseSensitive, g1) ->
  getSearchParameterDetails resourceType param g1 = (Ok details, g2) ->
  exists terms,
    buildWhere q resourceType table param filter g
    = (Ok (Negation (Disjunction terms)), g2)
    /\ terms <> []
    /\ Forall2
         (fun query term =>
            buildWhereCondition details table filter caseSensitive query = Some term
            /\ negationFree term = true)
         (splitSearchOnComma (f_value filter)) terms.
Proof.
  intros Hop H1 H2.
  assert (Hcmp : shouldCompareTokenValue (f_operator filter) = true)
    by (destruct Hop as [-> | ->]; reflexivity).
  assert (Hrow : shouldTokenRowExist filter = Ok false).
  { unfold shouldTokenRowExist. rewrite Hcmp.
    destruct Hop as [-> | ->]; reflexivity. }
  set (f := buildWhereCondition details table filter caseSensitive).
  exists (omap f (splitSearchOnComma (f_value filter))).
  assert (HF : Forall2 (fun query term => f query = Some term
                                          /\ negationFree term = true)
                 (splitSearchOnComma (f_value filter))
                 (omap f (splitSearchOnComma (f_value filter)))).
  { apply omap_total.
    - intros query. now apply buildWhereCondition_comparing.
    - intros query term E. now apply (buildWhereCondition_shape _ _ _ _ _ _ E). }
  assert (Hne : omap f (splitSearchOnComma (f_value filter)) <> []).
  { intros E. rewrite E in HF. inversion HF as [E'|].
    symmetry in E'. revert E'. apply split_nonEmpty. }
  split; [|split; [exact Hne | exact HF]].
  rewrite (buildWhere_run _ _ _ _ _ _ _ _ _ _ H1 H2), Hrow.
  unfold buildWhereExpression. fold f. cbn [rbind].
  destruct (omap f (splitSearchOnComma (f_value filter))); [congruence|].
  reflexivity.
Qed.

(** *** MISSING and PRESENT *)

Lemma hasChar_toLowerCase (x : ascii) (s : string) :
  Js.lowerChar x = x -> Js.hasChar x s = true ->
  Js.hasChar x (Js.toLowerCase s) = true.
Proof.
  intros Hx. induction s as [|c s IH]; cbn [Js.hasChar Js.toLowerCase]; [easy|].
  destruct (Ascii.eqb_spec c x) as [->|Hne]; cbn [orb].
  - intros _. rewrite Hx. now rewrite Ascii.eqb_refl.
  - intros H. rewrite (IH H). apply orb_true_r.
Qed.

Lemma split_without_separator (sep : ascii) (s : string) :
  Js.hasChar sep s = false -> Js.split sep s = [s].
Proof.
  induction s as [|c s IH]; cbn [Js.hasChar Js.split]; [reflexivity|].
  destruct (Ascii.eqb c sep); cbn [orb]; [discriminate|].
  intros H. now rewrite (IH H).
Qed.

Lemma splitN_without_separator (sep : ascii) (n : nat) (s : string) :
  Js.hasChar sep s = false -> splitN s sep n = [s].
Proof.
  intros H. unfold splitN.
  assert (K : splitFirst sep s = None).
  { induction s as [|c s IH]; cbn [Js.hasChar splitFirst] in *; [reflexivity|].
    destruct (Ascii.eqb c sep); cbn [orb] in H; [discriminate|].
    now rewrite (IH H). }
  destruct (n - 1); cbn [splitAtMost]; [reflexivity | now rewrite K].
Qed.

(** A literal that reads true or false has no comma and no bar in it, so it
    gives rise to no per-value condition under MISSING or PRESENT. *)
Lemma boolean_literal_no_condition (details : SearchParameterDetails)
    (table : string) (caseSensitive : bool) (filter : Filter) :
  f_operator filter = FhirOperator.MISSING
  \/ f_operator filter = FhirOperator.PRESENT ->
  Js.toLowerCase (f_value filter) = "true"
  \/ Js.toLowerCase (f_value filter) = "false" ->
  buildWhereExpression details table caseSensitive filter = None.
Proof.
  intros Hop Hlit.
  assert (Hno : forall x, Js.lowerChar x = x ->
                  Js.hasChar x "true" = false -> Js.hasChar x "false" = false ->
                  Js.hasChar x (f_value filter) = false).
  { intros x Hx Ht Hf. destruct (Js.hasChar x (f_value filter)) eqn:E; [|reflexivity].
    apply (hasChar_toLowerCase x _ Hx) in E.
    destruct Hlit as [L|L]; rewrite L in E; congruence. }
  unfold buildWhereExpression, splitSearchOnComma.
  rewrite (split_without_separator ","%char (f_value filter)
             (Hno ","%char eq_refl eq_refl eq_refl)).
  cbn [omap list_omap]. unfold buildWhereCondition.
  rewrite (splitN_without_separator "|"%char 2 (f_value filter)
             (Hno "|"%char eq_refl eq_refl eq_refl)).
  destruct Hop as [-> | ->]; reflexivity.
Qed.

(** C1, as the code has it.  For a token filter with operator MISSING or
    PRESENT on a parameter whose plan compiles: a literal that reads true for
    MISSING, or false for PRESENT, yields the NEGATION of "the encoded array of
    the code is empty", a condition that holds exactly on the rows that do
    have an entry (where the specification requires that no entry exists); a
    literal that reads false for MISSING, or true for PRESENT, yields "the
    encoded array is empty", which holds exactly on the rows without an entry
    (where the specification requires that an entry exists); any other literal
    is reported as a bad request.  Literals are read case-insensitively. *)
Theorem missing_present_conditions (q : SelectQuery)
    (resourceType table : string) (param : SearchParameter)
    (code : string) (operator : FhirOperator.t) (literal : string)
    (g g1 g2 : GlobalSchema) (caseSensitive : bool)
    (details : SearchParameterDetails) :
  operator = FhirOperator.MISSING \/ operator = FhirOperator.PRESENT ->
  isCaseSensitiveSearchParameter param resourceType g = (Ok caseSensitive, g1) ->
  getSearchParameterDetails resourceType param g1 = (Ok details, g2) ->
  let filter := mkFilter code operator literal in
  let tokenColumn := column table (columnName details) in
  let arrayEmpty := TypedCondition tokenColumn ARRAY_EMPTY PUndefined None in
  let reads (v : string) := Js.toLowerCase literal = v in
  let saysAbsent :=
    (operator = FhirOperator.MISSING /\ reads "true")
    \/ (operator = FhirOperator.PRESENT /\ reads "false") in
  let saysPresent :=
    (operator = FhirOperator.MISSING /\ reads "false")
    \/ (operator = FhirOperator.PRESENT /\ reads "true") in
  (saysAbsent ->
   buildWhere q resourceType table param filter g = (Ok (Negation arrayEmpty), g2)
   /\ requiresSomeEntry tokenColumn (Negation arrayEmpty))
  /\ (saysPresent ->
      buildWhere q resourceType table param filter g = (Ok arrayEmpty, g2)
      /\ requiresNoEntry tokenColumn arrayEmpty)
  /\ (~ saysAbsent -> ~ saysPresent ->
      buildWhere q resourceType table param filter g
      = (Err (BadRequest missingMessage), g2)).
Proof.
  clear getSearchParameters evalFhirPathTyped deriveIdentifierSearchParameter
    escapeLiteral getNextJoinAlias.
  intros Hop H1 H2 filter tokenColumn arrayEmpty reads saysAbsent saysPresent.
  rewrite (buildWhere_run _ _ _ _ filter _ _ _ _ _ H1 H2).
  assert (Hnone : reads "true" \/ reads "false" ->
                  buildWhereExpression details table caseSensitive filter = None).
  { intros L. apply boolean_literal_no_condition; [exact Hop | exact L]. }
  unfold saysAbsent, saysPresent, reads in *. clear saysAbsent saysPresent reads.
  unfold shouldTokenRowExist. cbn [f_operator f_value filter].
  split; [|split].
  - intros [[-> L] | [-> L]]; cbn; rewrite L; cbn;
      (rewrite Hnone; [|tauto]); split; try reflexivity; intros row; reflexivity.
  - intros [[-> L] | [-> L]]; cbn; rewrite L; cbn;
      (rewrite Hnone; [|tauto]); split; try reflexivity; intros row; reflexivity.
  - intros NA NP.
    destruct Hop as [-> | ->]; cbn;
      destruct (String.eqb_spec (Js.toLowerCase literal) "true") as [L|_];
      try (exfalso; tauto);
      destruct (String.eqb_spec (Js.toLowerCase literal) "false") as [L|_];
      try (exfalso; tauto); reflexivity.
Qed.

(** *** Token extraction *)

Lemma strictEq_refl (a : option string) : Js.strictEq a a = true.
Proof. destruct a; [apply String.eqb_refl | reflexivity]. Qed.

Lemma retainAll_app (result : list LookupToken) (searchParam : SearchParameter)
    (caseSensitive : bool) (a b : list (option string * option string)) :
  retainAll result searchParam caseSensitive (a ++ b)
  = retainAll (retainAll result searchParam caseSensitive a)
      searchParam caseSensitive b.
Proof. apply fold_left_app. Qed.

Lemma buildCodingToken_candidates (result : list LookupToken)
    (searchParam : SearchParameter) (caseSensitive : bool) (coding : Coding) :
  buildCodingToken result searchParam caseSensitive (Some coding)
  = retainAll result searchParam caseSensitive (codingCandidates coding).
Proof.
  unfold buildCodingToken, codingCandidates.
  destruct (Js.truthy (coding_display coding)); reflexivity.
Qed.

Lemma buildCodeableConceptToken_candidates (result : list LookupToken)
    (searchParam : SearchParameter) (caseSensitive : bool)
    (concept : CodeableConcept) :
  buildCodeableConceptToken result searchParam caseSensitive (Some concept)
  = retainAll result searchParam caseSensitive (conceptCandidates concept).
Proof.
  unfold buildCodeableConceptToken, conceptCandidates. cbn [mbind option_bind].
  rewrite retainAll_app.
  set (start := if Js.truthy (concept_text concept) then _ else result).
  assert (E : retainAll result searchParam caseSensitive
                (if Js.truthy (concept_text concept)
                 then [(Some "text", concept_text concept)] else [])
              = start).
  { subst start. destruct (Js.truthy (concept_text concept)); reflexivity. }
  rewrite E. clear E. generalize start. clear start.
  destruct (concept_coding concept) as [codings|]; [|reflexivity].
  change (default [] (Some codings)) with codings.
  induction codings as [|coding codings IH]; intros start; [reflexivity|].
  cbn [fold_left flat_map]. rewrite retainAll_app, IH.
  now rewrite buildCodingToken_candidates.
Qed.

(** The blank candidate is dropped, and nothing blank is ever retained, given
    that lower-casing does not empty a text. *)
Lemma buildSimpleToken_drops_blank (result : list LookupToken)
    (searchParam : SearchParameter) (caseSensitive : bool)
    (system value : option string) :
  (isBlank system value = true ->
   buildSimpleToken result searchParam caseSensitive system value = result)
  /\ (lowerCasingKeepsText ->
      Forall (fun t => isBlank (tok_system t) (tok_value t) = false) result ->
      Forall (fun t => isBlank (tok_system t) (tok_value t) = false)
        (buildSimpleToken result searchParam caseSensitive system value)).
Proof.
  unfold buildSimpleToken, isBlank. split.
  - destruct (Js.truthy system), (Js.truthy value); try discriminate. reflexivity.
  - intros Hkeeps H.
    destruct ((Js.truthy system || Js.truthy value)
              && negb (existsb (sameToken searchParam system value) result))
      eqn:E; [|exact H].
    apply Forall_app. split; [exact H|]. constructor; [|constructor].
    cbn [tok_system tok_value].
    apply andb_true_iff in E as [E _].
    destruct (Js.truthy system); [reflexivity|]. cbn in E. rewrite E.
    destruct caseSensitive; cbn; [now rewrite E|].
    destruct value as [v|]; [|discriminate]. cbn in *.
    pose proof (Hkeeps v E) as K. unfold nonEmpty in K. now rewrite K.
Qed.

(** For a case-sensitive parameter the triple that is compared is the triple
    that is stored, and no duplicate gets in. *)
Lemma buildSimpleToken_caseSensitive_NoDup (result : list LookupToken)
    (searchParam : SearchParameter) (system value : option string) :
  NoDup result ->
  NoDup (buildSimpleToken result searchParam true system value).
Proof.
  intros H. unfold buildSimpleToken.
  destruct ((Js.truthy system || Js.truthy value)
            && negb (existsb (sameToken searchParam system value) result))
    eqn:E; [|exact H].
  apply andb_true_iff in E as [_ E]. apply negb_true_iff in E.
  rewrite andb_false_r. apply NoDup_app. split; [exact H|].
  split; [|apply NoDup_singleton].
  intros t Hin Hnew. apply list_elem_of_singleton in Hnew. subst t.
  assert (K : existsb (sameToken searchParam system value) result = true).
  { apply existsb_exists. eexists. split; [apply list_elem_of_In; exact Hin|].
    unfold sameToken. cbn. now rewrite !strictEq_refl. }
  congruence.
Qed.

(** Nothing blank is retained, all the way up to [getTokens]. *)
Lemma retainAll_notBlank (result : list LookupToken)
    (searchParam : SearchParameter) (caseSensitive : bool)
    (candidates : list (option string * option string)) :
  lowerCasingKeepsText ->
  Forall notBlank result ->
  Forall notBlank (retainAll result searchParam caseSensitive candidates).
Proof.
  intros Hkeeps. revert result.
  induction candidates as [|c candidates IH]; intros result H; [exact H|].
  cbn [retainAll fold_left]. apply IH.
  now apply buildSimpleToken_drops_blank.
Qed.

Lemma foldM_invariant {A B} (P : B -> Prop) (body : B -> A -> M B) :
  (forall acc x g r, P acc -> fst (body acc x g) = Ok r -> P r) ->
  forall xs acc g r, P acc -> fst (foldM body xs acc g) = Ok r -> P r.
Proof.
  intros Hbody xs. induction xs as [|x xs IH]; intros acc g r Hacc.
  - cbn. now intros [= <-].
  - cbn [foldM]. unfold bind.
    destruct (body acc x g) as [[acc'|e] g'] eqn:E; [|cbn; discriminate].
    apply IH. apply (Hbody acc x g). { exact Hacc. } now rewrite E.
Qed.

Lemma buildTokens_notBlank (result : list LookupToken)
    (searchParam : SearchParameter) (resource : Resource)
    (typedValue : TypedValue) (g : GlobalSchema) (r : list LookupToken) :
  lowerCasingKeepsText ->
  Forall notBlank result ->
  fst (buildTokens result searchParam resource typedValue g) = Ok r ->
  Forall notBlank r.
Proof.
  intros Hkeeps H. unfold buildTokens, bind, ret.
  destruct (isCaseSensitiveSearchParameter searchParam (resourceType resource) g)
    as [[caseSensitive|e] g']; [|cbn; discriminate].
  cbn [fst]. intros [= <-].
  destruct typedValue as [v|v|v|v|t text].
  - now apply buildSimpleToken_drops_blank.
  - destruct v as [concept|].
    + rewrite buildCodeableConceptToken_candidates. now apply retainAll_notBlank.
    + exact H.
  - destruct v as [coding|].
    + rewrite buildCodingToken_candidates. now apply retainAll_notBlank.
    + exact H.
  - now apply buildSimpleToken_drops_blank.
  - now apply buildSimpleToken_drops_blank.
Qed.

Lemma buildTokensForSearchParameter_notBlank (result : list LookupToken)
    (resource : Resource) (searchParam : SearchParameter) (g : GlobalSchema)
    (r : list LookupToken) :
  lowerCasingKeepsText ->
  Forall notBlank result ->
  fst (buildTokensForSearchParameter result resource searchParam g) = Ok r ->
  Forall notBlank r.
Proof.
  intros Hkeeps. unfold buildTokensForSearchParameter. apply foldM_invariant.
  intros acc x g0 r0 Hacc. now apply buildTokens_notBlank.
Qed.

Lemma getTokens_notBlank (resource : Resource) (g : GlobalSchema)
    (tokens : list LookupToken) :
  lowerCasingKeepsText ->
  fst (getTokens resource g) = Ok tokens -> Forall notBlank tokens.
Proof.
  intros Hkeeps. unfold getTokens.
  destruct (getSearchParameters (resourceType resource)) as [searchParams|].
  2: { cbn. intros [= <-]. constructor. }
  apply foldM_invariant; [|constructor].
  intros acc searchParam g0 r Hacc. unfold bind.
  destruct (getTokenIndexType searchParam (resourceType resource) g0)
    as [[indexType|e] g1]; [|cbn; discriminate].
  assert (K : forall g2 acc', Forall notBlank acc' ->
              fst ((if isReferenceKind (sp_type searchParam)
                    then buildTokensForSearchParameter acc' resource
                           (deriveIdentifierSearchParameter searchParam)
                    else ret acc') g2) = Ok r ->
              Forall notBlank r).
  { intros g2 acc' Hacc'. destruct (isReferenceKind (sp_type searchParam)).
    - now apply buildTokensForSearchParameter_notBlank.
    - cbn. now intros [= <-]. }
  destruct indexType as [indexType|].
  - destruct (buildTokensForSearchParameter acc resource searchParam g1)
      as [[acc'|e] g2] eqn:E; [|cbn; discriminate].
    apply K. apply (buildTokensForSearchParameter_notBlank acc resource searchParam g1);
      [exact Hkeeps | exact Hacc | now rewrite E].
  - unfold ret at 1. now apply K.
Qed.

(** *** The tokens of a CodeableConcept *)

Lemma strictEq_spec (a b : option string) : Js.strictEq a b = true <-> a = b.
Proof.
  destruct a as [x|], b as [y|]; cbn; try (split; congruence).
  rewrite String.eqb_eq. split; [now intros -> | now intros [= ->]].
Qed.

Lemma sameToken_spec (searchParam : SearchParameter)
    (system value : option string) (t : LookupToken) :
  sameToken searchParam system value t = true
  <-> t = mkToken (sp_code searchParam) system value.
Proof.
  unfold sameToken. rewrite !andb_true_iff, !strictEq_spec.
  destruct t as [c s v]. cbn. split.
  - now intros [[-> ->] ->].
  - now intros [= -> -> ->].
Qed.

Lemma existsb_sameToken (searchParam : SearchParameter)
    (system value : option string) (result : list LookupToken) :
  existsb (sameToken searchParam system value) result
  = bool_decide (mkToken (sp_code searchParam) system value ∈ result).
Proof.
  destruct (existsb (sameToken searchParam system value) result) eqn:E;
    symmetry.
  - apply bool_decide_eq_true_2. apply existsb_exists in E as [t [Hin Ht]].
    apply sameToken_spec in Ht. subst t. now apply list_elem_of_In.
  - apply bool_decide_eq_false_2. intros Hin.
    assert (K : existsb (sameToken searchParam system value) result = true).
    { apply existsb_exists. eexists. split; [apply list_elem_of_In; exact Hin|].
      now apply sameToken_spec. }
    congruence.
Qed.

(** For a case-sensitive parameter, [buildSimpleToken] adds the candidate as
    a token if it is not blank and not there yet. *)
Lemma buildSimpleToken_caseSensitive (result : list LookupToken)
    (searchParam : SearchParameter) (system value : option string) :
  buildSimpleToken result searchParam true system value
  = addDistinct result (tokensOf searchParam [(system, value)]).
Proof.
  unfold buildSimpleToken, addDistinct, tokensOf, isBlank.
  cbn [List.filter fst snd]. rewrite existsb_sameToken, andb_false_r.
  destruct (Js.truthy system), (Js.truthy value); cbn [negb andb orb map fold_left];
    try reflexivity;
    unfold candidateToken; cbn [fst snd];
    destruct (bool_decide (mkToken (sp_code searchParam) system value ∈ result));
    reflexivity.
Qed.

Lemma tokensOf_cons (searchParam : SearchParameter)
    (c : option string * option string)
    (candidates : list (option string * option string)) :
  tokensOf searchParam (c :: candidates)
  = tokensOf searchParam [c] ++ tokensOf searchParam candidates.
Proof.
  unfold tokensOf. cbn [List.filter].
  destruct (negb (isBlank (fst c) (snd c))); reflexivity.
Qed.

Lemma retainAll_caseSensitive (result : list LookupToken)
    (searchParam : SearchParameter)
    (candidates : list (option string * option string)) :
  retainAll result searchParam true candidates
  = addDistinct result (tokensOf searchParam candidates).
Proof.
  revert result. induction candidates as [|[system value] candidates IH];
    intros result; [reflexivity|].
  cbn [retainAll fold_left fst snd]. fold (retainAll
    (buildSimpleToken result searchParam true system value) searchParam true
    candidates).
  rewrite IH, buildSimpleToken_caseSensitive.
  rewrite (tokensOf_cons searchParam (system, value) candidates).
  unfold addDistinct. now rewrite fold_left_app.
Qed.

(** C2, amended.  For a case-sensitive parameter (as one that resolves to
    CodeableConcept is), extracting tokens from a CodeableConcept yields, in
    this order, one token [{system: "text", value: concept.text}] when the
    text is present and, for each contained Coding, one token [{"text",
    display}] when the display is present and one token [{coding.system,
    coding.code}]; a candidate whose system and value are both empty or
    absent yields no token, and a token that is already there is not added
    again.  In particular the fever concept yields exactly the two tokens
    [{"text", "Fever"}] and [{"http://loinc.org", "386661006"}], the second
    [{"text", "Fever"}] being a duplicate. *)
Theorem codeable_concept_tokens (result : list LookupToken)
    (searchParam : SearchParameter) (resource : Resource)
    (g g' : GlobalSchema) :
  isCaseSensitiveSearchParameter searchParam (resourceType resource) g
  = (Ok true, g') ->
  (forall concept,
     buildTokens result searchParam resource
       (CodeableConceptValue (Some concept)) g
     = (Ok (addDistinct result
              (tokensOf searchParam (conceptCandidates concept))), g'))
  /\ (forall coding,
        buildTokens result searchParam resource (CodingValue (Some coding)) g
        = (Ok (addDistinct result
                 (tokensOf searchParam (codingCandidates coding))), g'))
  /\ buildTokens [] searchParam resource
       (CodeableConceptValue (Some Demo.fever)) g
     = (Ok [ mkToken (sp_code searchParam) (Some "text") (Some "Fever");
             mkToken (sp_code searchParam) (Some "http://loinc.org")
               (Some "386661006") ],
        g').
Proof.
  intros H. unfold buildTokens, bind. rewrite H. unfold ret.
  split; [|split].
  - intros concept.
    now rewrite buildCodeableConceptToken_candidates, retainAll_caseSensitive.
  - intros coding.
    now rewrite buildCodingToken_candidates, retainAll_caseSensitive.
  - f_equal. f_equal. rewrite buildCodeableConceptToken_candidates.
    cbn. unfold buildSimpleToken, sameToken.
    repeat (cbn; rewrite ?strictEq_refl). reflexivity.
Qed.

(** *** Case sensitivity *)

Lemma buildSimpleToken_insensitive (result : list LookupToken)
    (searchParam : SearchParameter) (system : option string) (v : string) :
  v <> "" ->
  let after := buildSimpleToken result searchParam false system (Some v) in
  after = result
  \/ after = result ++ [mkToken (sp_code searchParam) system
                          (Some (toLocaleLowerCase v))].
Proof.
  intros Hv. cbv zeta. unfold buildSimpleToken.
  destruct ((Js.truthy system || Js.truthy (Some v))
            && negb (existsb (sameToken searchParam system (Some v)) result));
    [right | now left].
  cbn. destruct (String.eqb_spec v "") as [->|_]; [congruence | reflexivity].
Qed.

(** What [buildSimpleToken] stores has a lower-cased value when the
    parameter is case-insensitive, or when the value it is handed is
    lower-cased already. *)
Lemma buildSimpleToken_lowerCased (result : list LookupToken)
    (searchParam : SearchParameter) (caseSensitive : bool)
    (system value : option string) :
  caseSensitive = false
  \/ hasLowerCasedValue (mkToken (sp_code searchParam) system value) ->
  Forall hasLowerCasedValue result ->
  Forall hasLowerCasedValue
    (buildSimpleToken result searchParam caseSensitive system value).
Proof.
  intros Hlow H. unfold buildSimpleToken.
  destruct ((Js.truthy system || Js.truthy value)
            && negb (existsb (sameToken searchParam system value) result));
    [|exact H].
  apply Forall_app. split; [exact H|]. constructor; [|constructor].
  unfold hasLowerCasedValue in *. cbn [tok_value] in *.
  destruct caseSensitive.
  - rewrite andb_false_r. destruct Hlow as [Hlow|Hlow]; [discriminate|exact Hlow].
  - rewrite andb_true_r. destruct value as [v|]; cbn; [|exact I].
    destruct (String.eqb_spec v "") as [->|_]; cbn; [now left|].
    right. now exists v.
Qed.

Lemma retainAll_lowerCased (result : list LookupToken)
    (searchParam : SearchParameter)
    (candidates : list (option string * option string)) :
  Forall hasLowerCasedValue result ->
  Forall hasLowerCasedValue (retainAll result searchParam false candidates).
Proof.
  revert result. induction candidates as [|c candidates IH]; intros result H;
    [exact H|].
  cbn [retainAll fold_left]. apply IH.
  apply buildSimpleToken_lowerCased; [now left | exact H].
Qed.

Lemma buildContactPointToken_lowerCased (result : list LookupToken)
    (searchParam : SearchParameter) (caseSensitive : bool)
    (contactPoint : option ContactPoint) :
  Forall hasLowerCasedValue result ->
  Forall hasLowerCasedValue
    (buildContactPointToken result searchParam caseSensitive contactPoint).
Proof.
  intros H. unfold buildContactPointToken.
  apply buildSimpleToken_lowerCased; [|exact H]. right.
  unfold hasLowerCasedValue. cbn [tok_value].
  destruct (contactPoint ≫= contact_value) as [v|]; cbn; [|exact I].
  destruct (String.eqb_spec v "") as [->|_]; cbn; [now left|].
  right. now exists v.
Qed.

Lemma buildTokens_lowerCased (result : list LookupToken)
    (searchParam : SearchParameter) (resource : Resource)
    (typedValue : TypedValue) (g : GlobalSchema) (r : list LookupToken) :
  fst (isCaseSensitiveSearchParameter searchParam (resourceType resource) g)
  = Ok false ->
  Forall hasLowerCasedValue result ->
  fst (buildTokens result searchParam resource typedValue g) = Ok r ->
  Forall hasLowerCasedValue r.
Proof.
  intros H Hres. unfold buildTokens, bind, ret.
  destruct (isCaseSensitiveSearchParameter searchParam (resourceType resource) g)
    as [[flag|e] g1]; cbn [fst] in H; [|discriminate].
  injection H as ->. cbn [fst]. intros [= <-].
  destruct typedValue as [v|v|v|v|t text].
  - apply buildSimpleToken_lowerCased; [now left | exact Hres].
  - destruct v as [concept|]; [|exact Hres].
    rewrite buildCodeableConceptToken_candidates.
    now apply retainAll_lowerCased.
  - destruct v as [coding|]; [|exact Hres].
    rewrite buildCodingToken_candidates. now apply retainAll_lowerCased.
  - now apply buildContactPointToken_lowerCased.
  - apply buildSimpleToken_lowerCased; [now left | exact Hres].
Qed.


(** ** Further properties of the code *)

(** *** Column names *)

Lemma hasChar_append (x : ascii) (a b : string) :
  Js.hasChar x (a +:+ b) = Js.hasChar x a || Js.hasChar x b.
Proof.
  induction a as [|c a IH]; [reflexivity|].
  rewrite append_cons. cbn [Js.hasChar]. now rewrite IH, orb_assoc.
Qed.

Lemma split_parts_clean (sep : ascii) (s : string) :
  Forall (fun w => Js.hasChar sep w = false) (Js.split sep s).
Proof.
  induction s as [|c s IH]; cbn [Js.split].
  - constructor; [reflexivity | constructor].
  - destruct (Ascii.eqb c sep) eqn:E.
    + constructor; [reflexivity | exact IH].
    + destruct (Js.split sep s) as [|w ws].
      * constructor; [|constructor]. cbn [Js.hasChar]. now rewrite E.
      * inversion IH as [|w' ws' Hw Hws]; subst.
        constructor; [|exact Hws]. cbn [Js.hasChar]. now rewrite E, Hw.
Qed.

Lemma capitalize_clean (w : string) :
  Js.hasChar "-" (capitalize w) = Js.hasChar "-" w.
Proof.
  destruct w as [|c w]; [reflexivity|]. cbn [capitalize Js.hasChar]. f_equal.
  clear. destruct c as [[] [] [] [] [] [] [] []]; reflexivity.
Qed.

(** X1.  The column name derived from a code never contains a hyphen, and a
    code without a hyphen is its own column name. *)
Theorem column_name_has_no_hyphen (code : string) :
  Js.hasChar "-" (convertCodeToColumnName code) = false
  /\ (Js.hasChar "-" code = false -> convertCodeToColumnName code = code).
Proof.
  unfold convertCodeToColumnName. split.
  - pose proof (split_parts_clean "-" code) as H.
    destruct (Js.split "-" code) as [|word words]; [reflexivity|].
    inversion H as [|w ws Hw Hws]; subst. clear H.
    revert word Hw. induction words as [|x words IH]; intros word Hw;
      [exact Hw|].
    inversion Hws as [|x' ws' Hx Hws']; subst.
    cbn [fold_left]. apply IH; [exact Hws'|].
    now rewrite hasChar_append, capitalize_clean, Hw, Hx.
  - intros H. now rewrite (split_without_separator _ _ H).
Qed.

(** *** Flattening and clause selection *)

(** X2.  Flattening yields steps only: never a dot node, never a [where]
    filter other than a type test, never a [last()]. *)
Theorem flattenAtom_yields_steps (atom : Atom) :
  Forall (fun a => isStep a = true) (flattenAtom atom).
Proof.
  induction atom as [name|text|l IHl r IHr|l IHl r IHr|l IHl r IHr
                    |l IHl r IHr|op l IHl r IHr|l IHl e IHe|name args];
    cbn [flattenAtom];
    try (constructor; [reflexivity | constructor]).
  - apply Forall_app. now split.
  - apply Forall_app. split; [exact IHl|]. constructor; [reflexivity | constructor].
  - apply Forall_app. split; [exact IHl|]. constructor; [reflexivity | constructor].
  - destruct (String.eqb name "where" && negb (isIsAtom (head args))) eqn:E1;
      [constructor|].
    destruct (String.eqb name "last") eqn:E2; [constructor|].
    constructor; [|constructor]. cbn [isStep]. now rewrite E1, E2.
Qed.

Lemma buildExpressionsForResourceType_filter (resourceType : string)
    (atom : Atom) (result : list Atom) :
  buildExpressionsForResourceType resourceType atom result
  = result ++ List.filter (leadsWith resourceType) (unionLeaves atom).
Proof.
  revert result.
  induction atom as [name|text|l IHl r IHr|l IHl r IHr|l IHl r IHr
                    |l IHl r IHr|op l IHl r IHr|l IHl e IHe|name args];
    intros result;
    cbn [buildExpressionsForResourceType unionLeaves List.filter];
    try (unfold leadsWith;
         match goal with |- context [Js.startsWith ?a ?b] =>
           destruct (Js.startsWith a b) end;
         [reflexivity | now rewrite app_nil_r]).
  rewrite IHl, IHr, List.filter_app. now rewrite app_assoc.
Qed.

(** X3.  The expressions retained for a resource type are the clauses of the
    union, in their order, whose text starts with the resource type and a
    dot; the joined expression is absent exactly when no clause does. *)
Theorem expressions_for_resource_type (resourceType : string)
    (expression : option string) (child : Atom) :
  parseFhirPath expression = Ok child ->
  let retained := List.filter (leadsWith resourceType) (unionLeaves child) in
  getExpressionsForResourceType resourceType expression = Ok retained
  /\ (getExpressionForResourceType resourceType expression = Ok None
      <-> Forall (fun clause => leadsWith resourceType clause = false)
            (unionLeaves child))
  /\ (retained <> [] ->
      getExpressionForResourceType resourceType expression
      = Ok (Some (Js.join " | " (map toString retained)))).
Proof.
  intros Hparse retained.
  assert (E : getExpressionsForResourceType resourceType expression = Ok retained).
  { unfold getExpressionsForResourceType. rewrite Hparse. cbn [rbind].
    now rewrite buildExpressionsForResourceType_filter. }
  split; [exact E|].
  unfold getExpressionForResourceType. rewrite E. cbn [rbind].
  split.
  - subst retained. clear E Hparse.
    induction (unionLeaves child) as [|x l IH]; cbn [List.filter].
    + split; [constructor | reflexivity].
    + destruct (leadsWith resourceType x) eqn:Ex.
      * split; [discriminate|]. intros H. inversion H; congruence.
      * destruct IH as [IH1 IH2]. split.
        -- intros H. constructor; [exact Ex | now apply IH1].
        -- intros H. inversion H; subst. now apply IH2.
  - intros Hne. destruct retained; [congruence | reflexivity].
Qed.

(** *** The walk *)

Section WalkRelation.

(** A relation between the builder before and after that every elementary
    step of the walk establishes holds between the start and the end of any
    successful walk. *)
Variable R : SearchParameterDetailsBuilder -> SearchParameterDetailsBuilder -> Prop.
Hypothesis R_refl : forall b, R b b.
Hypothesis R_trans : forall a b c, R a b -> R b c -> R a c.
Hypothesis R_type : forall b t, R b (addPropertyType t b).
Hypothesis R_array : forall b, R b (setArray true b).
Hypothesis R_final :
  forall b elementDefinition,
    R b (fold_left (fun d t => addPropertyType (et_code t) d)
           (ise_type elementDefinition)
           (pushElementDefinition elementDefinition b)).

Lemma foldR_rel {A} (body : SearchParameterDetailsBuilder -> A ->
                            Result SearchParameterDetailsBuilder)
    (xs : list A) :
  (forall acc x acc', body acc x = Ok acc' -> R acc acc') ->
  forall acc acc', foldR body xs acc = Ok acc' -> R acc acc'.
Proof using R_refl R_trans.
  intros Hbody. induction xs as [|x xs IH]; intros acc acc'; cbn [foldR].
  - intros [= <-]. apply R_refl.
  - destruct (body acc x) as [mid|e] eqn:E; [|discriminate].
    intros H. apply (R_trans _ mid); [now apply (Hbody acc x) | now apply IH].
Qed.

Lemma handleFunctionAtom_rel (builder : SearchParameterDetailsBuilder)
    (name : string) (args : list Atom) (after : SearchParameterDetailsBuilder) :
  handleFunctionAtom builder name args = Ok after -> R builder after.
Proof using R_type.
  unfold handleFunctionAtom, firstArgToString.
  destruct (String.eqb name "as").
  { destruct args; cbn; [discriminate|]. intros [= <-]. apply R_type. }
  destruct (String.eqb name "ofType").
  { destruct args; cbn; [discriminate|]. intros [= <-]. apply R_type. }
  destruct (String.eqb name "resolve").
  { intros [= <-]. apply R_type. }
  destruct (String.eqb name "where"); [|discriminate].
  destruct args as [|[] ?]; try discriminate.
  intros [= <-]. apply R_type.
Qed.

Lemma crawlElement_rel (details : SearchParameterDetailsBuilder)
    (elementDefinition : InternalSchemaElement) (hasArrayIndex final : bool)
    (crawlNext : SearchParameterDetailsBuilder -> string ->
                 Result SearchParameterDetailsBuilder)
    (after : SearchParameterDetailsBuilder) :
  (forall d t d', crawlNext d t = Ok d' -> R d d') ->
  crawlElement details elementDefinition hasArrayIndex final crawlNext = Ok after ->
  R details after.
Proof using R_refl R_trans R_array R_final.
  intros Hnext. unfold crawlElement.
  set (start := if ise_isArray elementDefinition && negb hasArrayIndex
                then setArray true details else details).
  assert (Hstart : R details start).
  { subst start. destruct (ise_isArray elementDefinition && negb hasArrayIndex);
      [apply R_array | apply R_refl]. }
  destruct final.
  - intros [= <-]. apply (R_trans _ start); [exact Hstart | apply R_final].
  - intros H. apply (R_trans _ start); [exact Hstart|].
    revert H. apply foldR_rel. intros acc x acc'. apply Hnext.
Qed.

Lemma crawl_rel_bounded (n : nat) :
  forall atoms details baseType after,
    length atoms <= n ->
    crawlSearchParameterDetails details atoms baseType = Ok after ->
    R details after.
Proof using R_refl R_trans R_type R_array R_final.
  induction n as [|n IH]; intros atoms details baseType after Hlen.
  - destruct atoms; [cbn; discriminate | cbn in Hlen; lia].
  - destruct atoms as [|currAtom rest]; [cbn; discriminate|].
    cbn [length] in Hlen.
    assert (Hrest : forall tl, length tl <= length rest ->
                      forall d t d',
                        crawlSearchParameterDetails d tl t = Ok d' -> R d d').
    { intros tl Htl d t d'. apply IH. lia. }
    destruct currAtom; cbn [crawlSearchParameterDetails];
      try (intros [= <-]; apply R_type);
      try (apply handleFunctionAtom_rel);
      (destruct (getElementDefinition baseType _) as [elementDefinition|];
       [|discriminate]);
      (destruct rest as [|next rest']; [|destruct next]);
      apply crawlElement_rel; apply Hrest; cbn [length]; lia.
Qed.

Lemma crawl_rel (atoms : list Atom) (details : SearchParameterDetailsBuilder)
    (baseType : string) (after : SearchParameterDetailsBuilder) :
  crawlSearchParameterDetails details atoms baseType = Ok after ->
  R details after.
Proof using R_refl R_trans R_type R_array R_final.
  apply (crawl_rel_bounded (length atoms)). lia.
Qed.

End WalkRelation.

Lemma fold_addPropertyType (types : list ElementType)
    (b : SearchParameterDetailsBuilder) :
  let after := fold_left (fun d t => addPropertyType (et_code t) d) types b in
  b_elementDefinitions after = b_elementDefinitions b
  /\ b_array after = b_array b
  /\ (forall code, code ∈ b_propertyTypes after
                   <-> code ∈ b_propertyTypes b
                       \/ exists t, In t types /\ et_code t = code).
Proof.
  cbv zeta. revert b. induction types as [|t types IH]; intros b; cbn [fold_left].
  - split; [reflexivity|]. split; [reflexivity|]. intros code. split.
    + now left.
    + intros [H|[t [[] _]]]. exact H.
  - destruct (IH (addPropertyType (et_code t) b)) as (E1 & E2 & E3).
    split; [exact E1|]. split; [exact E2|]. intros code. rewrite E3.
    cbn [addPropertyType b_propertyTypes]. rewrite elem_of_union, elem_of_singleton.
    split.
    + intros [[H|H]|[t' [Hin Ht']]].
      * now left.
      * right. exists t. split; [now left | now symmetry].
      * right. exists t'. split; [now right | exact Ht'].
    + intros [H|[t' [[<-|Hin] Ht']]].
      * left. now left.
      * left. now right.
      * right. now exists t'.
Qed.

Lemma grows_refl (b : SearchParameterDetailsBuilder) : grows b b.
Proof.
  split; [reflexivity|].
  split; [exists []; now rewrite app_nil_r | intros H; exact H].
Qed.

Lemma grows_trans (a b c : SearchParameterDetailsBuilder) :
  grows a b -> grows b c -> grows a c.
Proof.
  intros (T1 & [m1 E1] & A1) (T2 & [m2 E2] & A2).
  split; [clear - T1 T2; set_solver|]. split; [|intros H; apply A2, A1, H].
  exists (m1 ++ m2). now rewrite E2, E1, app_assoc.
Qed.

Lemma crawl_grows (atoms : list Atom) (details : SearchParameterDetailsBuilder)
    (baseType : string) (after : SearchParameterDetailsBuilder) :
  crawlSearchParameterDetails details atoms baseType = Ok after ->
  grows details after.
Proof.
  apply crawl_rel.
  - apply grows_refl.
  - apply grows_trans.
  - intros b t. split; [cbn; clear; set_solver|].
    split; [exists []; cbn; now rewrite app_nil_r | intros H; exact H].
  - intros b. split; [reflexivity|].
    split; [exists []; cbn; now rewrite app_nil_r | reflexivity].
  - intros b ed.
    destruct (fold_addPropertyType (ise_type ed) (pushElementDefinition ed b))
      as (E1 & E2 & E3).
    split; [|split].
    + intros code H. apply E3. now left.
    + exists [ed]. now rewrite E1.
    + now rewrite E2.
Qed.

Lemma crawl_typesCover (atoms : list Atom) (details : SearchParameterDetailsBuilder)
    (baseType : string) (after : SearchParameterDetailsBuilder) :
  crawlSearchParameterDetails details atoms baseType = Ok after ->
  typesCover details -> typesCover after.
Proof.
  apply (crawl_rel (fun b b' => typesCover b -> typesCover b')).
  - intros b H. exact H.
  - intros a b c H1 H2 H. apply H2, H1, H.
  - intros b t H ed t' Hed Ht'. cbn. apply elem_of_union. left.
    now apply (H ed t').
  - intros b H. exact H.
  - intros b ed H.
    destruct (fold_addPropertyType (ise_type ed) (pushElementDefinition ed b))
      as (E1 & _ & E3).
    intros ed' t Hed Ht. rewrite E1 in Hed. apply E3.
    cbn [pushElementDefinition b_elementDefinitions b_propertyTypes] in *.
    apply in_app_or in Hed as [Hed|[<-|[]]].
    + left. now apply (H ed' t).
    + right. now exists t.
Qed.

(** X4.  A successful walk only adds: every narrowed type and every resolved
    element that was there is still there (the elements in their order, new
    ones after them), and an array mark is not taken back.  Processing one
    more expression keeps the types and the elements as well (it may only
    take the array mark back, for the date-time extension). *)
Theorem walk_only_adds :
  (forall atoms details baseType after,
     crawlSearchParameterDetails details atoms baseType = Ok after ->
     grows details after)
  /\ (forall resourceType builder expression after,
        processExpression resourceType builder expression = Ok after ->
        b_propertyTypes builder ⊆ b_propertyTypes after
        /\ exists more,
             b_elementDefinitions after = b_elementDefinitions builder ++ more).
Proof.
  split; [exact crawl_grows|].
  intros resourceType builder expression after. unfold processExpression.
  set (first := if isLoneBooleanInfix (flattenAtom expression) then _ else _).
  assert (H : forall mid, first = Ok mid -> grows builder mid).
  { subst first. intros mid.
    destruct (isLoneBooleanInfix (flattenAtom expression)).
    { intros [= <-]. split; [cbn; clear; set_solver|].
      split; [exists []; cbn; now rewrite app_nil_r | intros H; exact H]. }
    destruct (Js.endsWith _ "extension.value.code"
              || Js.endsWith _ "extension.value.coding.code").
    { intros [= <-]. split; [cbn; clear; set_solver|].
      split; [exists []; cbn; now rewrite app_nil_r | reflexivity]. }
    apply crawl_grows. }
  destruct first as [mid|e]; cbn [rbind]; [|discriminate].
  destruct (H mid eq_refl) as (T & M & _).
  destruct (Js.endsWith _ "extension.valueDateTime"); intros [= <-];
    split; assumption.
Qed.

Lemma processExpression_typesCover (resourceType : string)
    (builder : SearchParameterDetailsBuilder) (expression : Atom)
    (after : SearchParameterDetailsBuilder) :
  processExpression resourceType builder expression = Ok after ->
  typesCover builder -> typesCover after.
Proof.
  unfold processExpression.
  set (first := if isLoneBooleanInfix (flattenAtom expression) then _ else _).
  assert (H : forall mid, first = Ok mid -> typesCover builder -> typesCover mid).
  { subst first. intros mid.
    destruct (isLoneBooleanInfix (flattenAtom expression)).
    { intros [= <-] C ed t Hed Ht. cbn. apply elem_of_union. left.
      now apply (C ed t). }
    destruct (Js.endsWith _ "extension.value.code"
              || Js.endsWith _ "extension.value.coding.code").
    { intros [= <-] C ed t Hed Ht. cbn. apply elem_of_union. left.
      now apply (C ed t). }
    apply crawl_typesCover. }
  destruct first as [mid|e]; cbn [rbind]; [|discriminate].
  specialize (H mid eq_refl).
  destruct (Js.endsWith _ "extension.valueDateTime"); intros [= <-] C;
    exact (H C).
Qed.

Lemma crawlExpressions_typesCover (resourceType : string)
    (expressions : list Atom) (builder : SearchParameterDetailsBuilder) :
  crawlExpressions resourceType expressions = Ok builder -> typesCover builder.
Proof.
  unfold crawlExpressions.
  assert (K : forall start, typesCover start ->
                foldR (processExpression resourceType) expressions start = Ok builder ->
                typesCover builder).
  { induction expressions as [|e es IH]; intros start C; cbn [foldR].
    - now intros [= <-].
    - destruct (processExpression resourceType start e) as [mid|err] eqn:E;
        [|discriminate].
      apply IH. exact (processExpression_typesCover _ _ _ _ E C). }
  apply K. intros ed t [].
Qed.

(** *** The two special cases, clause by clause and on the plan *)

Lemma foldR_app {A B} (body : B -> A -> Result B) (xs ys : list A) (acc : B) :
  foldR body (xs ++ ys) acc = rbind (foldR body xs acc) (foldR body ys).
Proof.
  revert acc. induction xs as [|x xs IH]; intros acc; [reflexivity|].
  cbn [app foldR]. destruct (body acc x); [apply IH | reflexivity].
Qed.

Lemma processExpression_types (resourceType : string)
    (builder : SearchParameterDetailsBuilder) (expression : Atom)
    (after : SearchParameterDetailsBuilder) :
  processExpression resourceType builder expression = Ok after ->
  b_propertyTypes builder ⊆ b_propertyTypes after.
Proof.
  unfold processExpression.
  set (first := if isLoneBooleanInfix (flattenAtom expression) then _ else _).
  assert (H : forall mid, first = Ok mid ->
                b_propertyTypes builder ⊆ b_propertyTypes mid).
  { subst first. intros mid.
    destruct (isLoneBooleanInfix (flattenAtom expression)).
    { intros [= <-]. cbn. clear. set_solver. }
    destruct (Js.endsWith _ "extension.value.code"
              || Js.endsWith _ "extension.value.coding.code").
    { intros [= <-]. cbn. clear. set_solver. }
    intros E. now destruct (crawl_grows _ _ _ _ E) as [T _]. }
  destruct first as [mid|e]; cbn [rbind]; [|discriminate].
  specialize (H mid eq_refl).
  destruct (Js.endsWith _ "extension.valueDateTime"); intros [= <-]; exact H.
Qed.

Lemma processExpression_array (resourceType : string)
    (builder : SearchParameterDetailsBuilder) (expression : Atom)
    (after : SearchParameterDetailsBuilder) :
  processExpression resourceType builder expression = Ok after ->
  ~ endsInText expression "extension.valueDateTime" ->
  b_array builder = true -> b_array after = true.
Proof.
  unfold processExpression, endsInText. intros H Hno Harr.
  apply not_true_is_false in Hno. rewrite Hno in H.
  destruct (isLoneBooleanInfix (flattenAtom expression)).
  { cbn in H. injection H as <-. exact Harr. }
  destruct (Js.endsWith _ "extension.value.code"
            || Js.endsWith _ "extension.value.coding.code").
  { cbn in H. injection H as <-. reflexivity. }
  destruct (crawlSearchParameterDetails builder _ resourceType)
    as [walked|e] eqn:E; cbn [rbind] in H; [|discriminate].
  injection H as <-. destruct (crawl_grows _ _ _ _ E) as (_ & _ & A).
  now apply A.
Qed.

Lemma laterExpressions_types (resourceType : string) (later : list Atom)
    (start builder : SearchParameterDetailsBuilder) :
  foldR (processExpression resourceType) later start = Ok builder ->
  b_propertyTypes start ⊆ b_propertyTypes builder.
Proof.
  revert start. induction later as [|e es IH]; intros start; cbn [foldR].
  - now intros [= <-].
  - destruct (processExpression resourceType start e) as [mid|err] eqn:E;
      [|discriminate].
    intros H. apply processExpression_types in E. apply IH in H.
    clear - E H. set_solver.
Qed.

Lemma laterExpressions_array (resourceType : string) (later : list Atom)
    (start builder : SearchParameterDetailsBuilder) :
  foldR (processExpression resourceType) later start = Ok builder ->
  Forall (fun e => ~ endsInText e "extension.valueDateTime") later ->
  b_array start = true -> b_array builder = true.
Proof.
  revert start. induction later as [|e es IH]; intros start; cbn [foldR].
  - now intros [= <-].
  - destruct (processExpression resourceType start e) as [mid|err] eqn:E;
      [|discriminate].
    intros H F Harr. inversion F as [|e' es' He Hes]; subst.
    apply (IH mid H Hes). exact (processExpression_array _ _ _ _ E He Harr).
Qed.

Lemma narrowed_code_type (searchParam : SearchParameter)
    (narrowed : gset string) :
  "code" ∈ narrowed ->
  getSearchParameterType searchParam narrowed <> BOOLEAN
  /\ getSearchParameterType searchParam narrowed <> DATE.
Proof.
  intros Hcode. unfold getSearchParameterType.
  assert (K : forall t, t <> "code" ->
                bool_decide (size narrowed = 1) && bool_decide (t ∈ narrowed)
                = false).
  { intros t Ht.
    destruct (bool_decide (size narrowed = 1) && bool_decide (t ∈ narrowed))
      eqn:E; [|reflexivity].
    apply single_narrowed_type in E. subst narrowed.
    apply elem_of_singleton in Hcode. congruence. }
  destruct (sp_type searchParam) as [[]|]; try (split; discriminate).
  - rewrite (K PropertyType.date) by (unfold PropertyType.date; discriminate).
    split; discriminate.
  - rewrite (K PropertyType.boolean)
      by (unfold PropertyType.boolean; discriminate).
    split; discriminate.
  - destruct (bool_decide (PropertyType.canonical ∈ narrowed)); split; discriminate.
Qed.

(** C8, amended.  A path expression ending in "extension value code" or
    "extension value coding code" is not walked: processing it sets the
    array mark and adds the narrowed type code, and leaves the resolved
    elements as they were, whatever the schema says.  A path expression
    ending in "extension valueDateTime" is walked, and the array mark is
    cleared after the walk, whatever the walk found.  On the plan of a
    parameter, whose retained expressions are processed one after the other:
    the narrowed type code stays (so the plan's type is neither BOOLEAN nor
    DATE), and the plan is an array plan unless a later expression ends in
    "extension.valueDateTime"; the plan is a non-array plan when the
    expression ending in "extension valueDateTime" is the last one.  "Ending
    in" is read on the flattened steps and, as the code tests it, on their
    dotted text. *)
Theorem extension_special_cases (resourceType : string) (expression : Atom) :
  (isForcedCode expression ->
   forall builder,
     processExpression resourceType builder expression
     = Ok {| b_elementDefinitions := b_elementDefinitions builder;
             b_propertyTypes := b_propertyTypes builder ∪ {[ "code" ]};
             b_array := true |})
  /\ (isForcedSingle expression ->
      forall builder forced,
        processExpression resourceType builder expression = Ok forced ->
        b_array forced = false)
  /\ (endsInSteps (flattenAtom expression) ["extension"; "valueDateTime"] ->
      forall builder,
        processExpression resourceType builder expression
        = rbind (crawlSearchParameterDetails builder
                   (tail (flattenAtom expression)) resourceType)
                (fun walked =>
                   Ok {| b_elementDefinitions := b_elementDefinitions walked;
                         b_propertyTypes := b_propertyTypes walked;
                         b_array := false |}))
  /\ (forall searchParam g front back plan,
        getExpressionsForResourceType resourceType (sp_expression searchParam)
        = Ok (front ++ expression :: back) ->
        fst (buildSearchParameterDetails resourceType searchParam g) = Ok plan ->
        (isForcedCode expression ->
         type plan <> BOOLEAN
         /\ type plan <> DATE
         /\ (Forall (fun later => ~ endsInText later "extension.valueDateTime")
               back ->
             array plan = Some true))
        /\ (isForcedSingle expression -> back = [] -> array plan = Some false)).
Proof.
  set (atomArray := flattenAtom expression).
  assert (T1 : isForcedCode expression ->
               isLoneBooleanInfix atomArray = false
               /\ (endsInText expression "extension.value.code"
                   \/ endsInText expression "extension.value.coding.code")).
  { intros [F|[F|F]]; [| |exact F].
    - split; [eapply endsInSteps_not_lone; [|exact F]; simpl; lia|].
      left. apply endsInSteps_endsWith in F; [exact F | discriminate].
    - split; [eapply endsInSteps_not_lone; [|exact F]; simpl; lia|].
      right. apply endsInSteps_endsWith in F; [exact F | discriminate]. }
  assert (T2 : isForcedSingle expression ->
               endsInText expression "extension.valueDateTime").
  { intros [F|F]; [|exact F].
    apply endsInSteps_endsWith in F; [exact F | discriminate]. }
  assert (P1 : isForcedCode expression -> forall builder,
             processExpression resourceType builder expression
             = Ok {| b_elementDefinitions := b_elementDefinitions builder;
                     b_propertyTypes := b_propertyTypes builder ∪ {[ "code" ]};
                     b_array := true |}).
  { intros F builder. destruct (T1 F) as [Hlone Hsuf].
    unfold endsInText in Hsuf. fold atomArray in Hsuf.
    unfold processExpression. fold atomArray.
    rewrite Hlone, (codeSuffix_not_dateTime _ Hsuf).
    destruct Hsuf as [E | E]; rewrite E;
      [reflexivity | now rewrite orb_true_r]. }
  assert (P2 : isForcedSingle expression -> forall builder forced,
             processExpression resourceType builder expression = Ok forced ->
             b_array forced = false).
  { intros F builder forced. pose proof (T2 F) as Hd. unfold endsInText in Hd.
    fold atomArray in Hd. unfold processExpression. fold atomArray. rewrite Hd.
    match goal with
    | |- rbind ?first _ = _ -> _ => destruct first as [walked|e]
    end; cbn [rbind]; [|discriminate].
    now intros [= <-]. }
  split; [exact P1|]. split; [exact P2|]. split.
  - intros F builder. unfold processExpression. fold atomArray.
    assert (Hlone : isLoneBooleanInfix atomArray = false)
      by (eapply endsInSteps_not_lone; [|exact F]; simpl; lia).
    rewrite Hlone.
    pose proof (T2 (or_introl F)) as Hd. unfold endsInText in Hd.
    fold atomArray in Hd. rewrite Hd.
    destruct (Js.endsWith (flattenedExpression atomArray) "extension.value.code") eqn:E1.
    { rewrite (codeSuffix_not_dateTime _ (or_introl E1)) in Hd. discriminate. }
    destruct (Js.endsWith (flattenedExpression atomArray)
                "extension.value.coding.code") eqn:E2.
    { rewrite (codeSuffix_not_dateTime _ (or_intror E2)) in Hd. discriminate. }
    reflexivity.
  - intros searchParam g front back plan Hexpr Hplan.
    destruct (buildSearchParameterDetails_ok _ _ _ _ Hplan)
      as (code & expressions & builder & _ & He & Hb & -> & _).
    rewrite Hexpr in He. injection He as <-.
    unfold crawlExpressions in Hb. rewrite foldR_app in Hb.
    destruct (foldR (processExpression resourceType) front emptyBuilder)
      as [mid|err]; cbn [rbind foldR] in Hb; [|discriminate].
    destruct (processExpression resourceType mid expression)
      as [forced|err] eqn:E; [|discriminate].
    cbn [type array planOfBuilder]. split.
    + intros F. rewrite (P1 F mid) in E. injection E as <-.
      assert (Hcode : "code" ∈ b_propertyTypes builder).
      { apply (laterExpressions_types _ _ _ _ Hb). cbn. clear. set_solver. }
      destruct (narrowed_code_type searchParam _ Hcode) as [N1 N2].
      split; [exact N1|]. split; [exact N2|].
      intros Hlater. f_equal.
      exact (laterExpressions_array _ _ _ _ Hb Hlater eq_refl).
    + intros F ->. cbn [foldR] in Hb. injection Hb as <-. f_equal.
      exact (P2 F mid forced E).
Qed.

(** X5.  In a compiled plan every type of every resolved element is one of
    the narrowed types.  So a plan of semantic type BOOLEAN resolves only to
    boolean elements, and is stored in token columns only if its code ends in
    ":identifier"; and a plan of semantic type DATE resolves only to date
    elements. *)
Theorem resolved_types_are_narrowed (resourceType : string)
    (searchParam : SearchParameter) (g : GlobalSchema)
    (plan : SearchParameterDetails) :
  fst (buildSearchParameterDetails resourceType searchParam g) = Ok plan ->
  exists resolved,
    elementDefinitions plan = Some resolved
    /\ (type plan = BOOLEAN ->
        onlyOfType "boolean" resolved
        /\ (implementation plan = ImplTokenColumns ->
            codeHasSuffix searchParam ":identifier"))
    /\ (type plan = DATE -> onlyOfType "date" resolved).
Proof.
  intros H.
  apply buildSearchParameterDetails_ok in H
    as (code & expressions & builder & _ & _ & Hb & -> & _).
  pose proof (crawlExpressions_typesCover _ _ _ Hb) as C.
  exists (b_elementDefinitions builder). split; [reflexivity|].
  assert (Honly : forall code0, b_propertyTypes builder = {[ code0 ]} ->
                    onlyOfType code0 (b_elementDefinitions builder)).
  { intros code0 E. apply List.Forall_forall. intros ed Hed.
    apply List.Forall_forall. intros t Ht.
    pose proof (C ed t Hed Ht) as K. rewrite E in K.
    now apply elem_of_singleton in K. }
  cbn [type implementation planOfBuilder]. unfold getSearchParameterType.
  split.
  - intros HT.
    assert (E : b_propertyTypes builder = {[ "boolean" ]}).
    { destruct (sp_type searchParam) as [[]|]; try discriminate HT;
        match type of HT with
        | context [if ?c then _ else _] => destruct c eqn:X
        end; try discriminate HT.
      now apply single_narrowed_type. }
    split; [now apply Honly|].
    destruct (isLookupTableParam searchParam builder); [discriminate|].
    destruct (isTokenParam searchParam builder) eqn:ET; [|discriminate].
    intros _. apply isTokenParam_spec in ET as [_ [S|(ed & t & Hed & Ht & Hin)]];
      [exact S|].
    exfalso. pose proof (Honly _ E) as O. unfold onlyOfType in O.
    rewrite List.Forall_forall in O. specialize (O ed Hed).
    rewrite List.Forall_forall in O. rewrite (O t Ht) in Hin.
    cbn in Hin. destruct Hin as [K|[K|[K|[K|[]]]]]; discriminate K.
  - intros HT. apply Honly.
    destruct (sp_type searchParam) as [[]|]; try discriminate HT;
      match type of HT with
      | context [if ?c then _ else _] => destruct c eqn:X
      end; try discriminate HT.
    now apply single_narrowed_type.
Qed.

(** X6.  A step on an element without an index is the same walk as the step
    with an index, started with the array mark set when the element is
    multi-valued; and an indexed final step leaves the array mark as it
    was. *)
Theorem unindexed_step_sets_array (details : SearchParameterDetailsBuilder)
    (step : Atom) (rest : list Atom) (baseType : string)
    (elementDefinition : InternalSchemaElement) (indexed index : Atom) :
  isPropertyStep step = true ->
  startsWithIndexer rest = false ->
  getElementDefinition baseType (toString step) = Some elementDefinition ->
  crawlSearchParameterDetails details (step :: rest) baseType
  = crawlSearchParameterDetails
      (if ise_isArray elementDefinition then setArray true details else details)
      (step :: IndexerAtom indexed index :: rest) baseType
  /\ forall after,
       crawlSearchParameterDetails details [step; IndexerAtom indexed index]
         baseType = Ok after ->
       b_array after = b_array details.
Proof.
  intros Hstep Hrest Hed. split.
  - destruct step; try discriminate Hstep;
      cbn [crawlSearchParameterDetails]; rewrite Hed;
      (destruct rest as [|next rest']; [|destruct next; try discriminate Hrest]);
      unfold crawlElement; destruct (ise_isArray elementDefinition);
      reflexivity.
  - intros after.
    destruct step; try discriminate Hstep;
      cbn [crawlSearchParameterDetails]; rewrite Hed;
      unfold crawlElement; rewrite andb_false_r; cbn [isNil];
      intros [= <-];
      now destruct (fold_addPropertyType (ise_type elementDefinition)
                      (pushElementDefinition elementDefinition details))
        as (_ & -> & _).
Qed.

(** *** The plan cache *)

Lemma cachedDetails_set_keeps (resourceType code : string)
    (plan : SearchParameterDetails) (g : GlobalSchema)
    (resourceType' : string) (searchParam' : SearchParameter)
    (plan' : SearchParameterDetails) :
  resourceType <> resourceType'
  \/ (code <> default "undefined" (sp_code searchParam')
      /\ code <> "__proto__") ->
  cachedDetails g resourceType' searchParam' = Some plan' ->
  cachedDetails (setSearchParameterDetails resourceType code plan g)
    resourceType' searchParam' = Some plan'.
Proof.
  intros Hne. unfold cachedDetails, setSearchParameterDetails.
  destruct (decide (resourceType = resourceType')) as [<-|Hrt].
  - rewrite lookup_insert_eq. cbn [searchParamsDetails].
    destruct Hne as [Hne|[Hne Hproto]]; [congruence|].
    destruct (g !! resourceType) as [typeSchema|]; [|discriminate].
    destruct (searchParamsDetails typeSchema) as [dictionary|]; [|discriminate].
    unfold readProperty.
    rewrite (lookup_insert_ne dictionary _ _ plan Hne).
    now rewrite (lookup_insert_ne dictionary _ _ plan Hproto).
  - now rewrite lookup_insert_ne.
Qed.

Lemma getSearchParameterDetails_hit (resourceType : string)
    (searchParam : SearchParameter) (g : GlobalSchema)
    (plan : SearchParameterDetails) :
  cachedDetails g resourceType searchParam = Some plan ->
  getSearchParameterDetails resourceType searchParam g = (Ok plan, g).
Proof. intros H. unfold getSearchParameterDetails. now rewrite H. Qed.

Lemma getSearchParameterDetails_stores (resourceType : string)
    (searchParam : SearchParameter) (g : GlobalSchema)
    (plan : SearchParameterDetails) :
  fst (getSearchParameterDetails resourceType searchParam g) = Ok plan ->
  cachedDetails (snd (getSearchParameterDetails resourceType searchParam g))
    resourceType searchParam = Some plan.
Proof.
  unfold getSearchParameterDetails.
  destruct (cachedDetails g resourceType searchParam) as [cached|] eqn:Hc.
  - cbn. now intros [= <-].
  - intros H.
    destruct (buildSearchParameterDetails_ok _ _ _ _ H)
      as (code & _ & _ & Hcode & _ & _ & _ & ->).
    now apply cachedDetails_set.
Qed.

Lemma getSearchParameterDetails_keeps (resourceType : string)
    (searchParam : SearchParameter) (g : GlobalSchema)
    (resourceType' : string) (searchParam' : SearchParameter)
    (plan' : SearchParameterDetails) :
  sp_code searchParam <> Some "__proto__" ->
  cachedDetails g resourceType' searchParam' = Some plan' ->
  cachedDetails (snd (getSearchParameterDetails resourceType searchParam g))
    resourceType' searchParam' = Some plan'.
Proof.
  intros Hproto Hkept. unfold getSearchParameterDetails.
  destruct (cachedDetails g resourceType searchParam) as [cached|] eqn:Hc;
    [exact Hkept|].
  destruct (fst (buildSearchParameterDetails resourceType searchParam g))
    as [plan|e] eqn:Hb.
  - destruct (buildSearchParameterDetails_ok _ _ _ _ Hb)
      as (code & _ & _ & Hcode & _ & _ & _ & ->).
    apply cachedDetails_set_keeps; [|exact Hkept].
    destruct (decide (resourceType = resourceType')) as [<-|Hrt]; [|now left].
    right. split; [|congruence]. intros E.
    assert (K : cachedDetails g resourceType searchParam
                = cachedDetails g resourceType searchParam').
    { unfold cachedDetails. now rewrite Hcode, <- E. }
    congruence.
  - now rewrite (buildSearchParameterDetails_err _ _ _ _ Hb).
Qed.

(** X7.  The plan cache.  A request that finds something under the code of
    the parameter, a stored plan or what the dictionary inherits under that
    key, returns it without compiling and without writing; after a request
    that returns, the same lookup finds what it returned; a request that
    throws leaves the cache as it was; and a request for a parameter whose
    code is not [__proto__] changes the result of no lookup that found
    something before, for any resource type and parameter. *)
Theorem plan_cache_behaviour (resourceType : string)
    (searchParam : SearchParameter) (g : GlobalSchema) :
  let request := getSearchParameterDetails resourceType searchParam g in
  (forall plan,
     cachedDetails g resourceType searchParam = Some plan ->
     request = (Ok plan, g))
  /\ (forall plan,
        fst request = Ok plan ->
        cachedDetails (snd request) resourceType searchParam = Some plan)
  /\ (forall e, fst request = Err e -> snd request = g)
  /\ (sp_code searchParam <> Some "__proto__" ->
      forall resourceType' searchParam' plan',
        cachedDetails g resourceType' searchParam' = Some plan' ->
        cachedDetails (snd request) resourceType' searchParam' = Some plan').
Proof.
  cbv zeta. split; [apply getSearchParameterDetails_hit|].
  split; [apply getSearchParameterDetails_stores|].
  split.
  - intros e. unfold getSearchParameterDetails.
    destruct (cachedDetails g resourceType searchParam); [discriminate|].
    apply buildSearchParameterDetails_err.
  - intros Hproto resourceType' searchParam' plan'.
    now apply getSearchParameterDetails_keeps.
Qed.

(** X8.  The cache is keyed by the code alone: once a parameter has been
    compiled for a resource type, a request for any other parameter with the
    same code returns the first parameter's plan, whatever its own expression
    or declared type is, and does not compile it. *)
Theorem same_code_shares_plan (resourceType : string)
    (first other : SearchParameter) (g : GlobalSchema)
    (plan : SearchParameterDetails) :
  sp_code first = sp_code other ->
  fst (getSearchParameterDetails resourceType first g) = Ok plan ->
  let g' := snd (getSearchParameterDetails resourceType first g) in
  getSearchParameterDetails resourceType other g' = (Ok plan, g').
Proof.
  intros Hcode H. cbv zeta. apply getSearchParameterDetails_hit.
  apply getSearchParameterDetails_stores in H.
  unfold cachedDetails in *. now rewrite <- Hcode.
Qed.

(** *** Expressions that need no schema *)

Lemma buildSearchParameterDetails_of_builder (resourceType : string)
    (searchParam : SearchParameter) (g : GlobalSchema) (code : string)
    (expressions : list Atom) (builder : SearchParameterDetailsBuilder) :
  sp_code searchParam = Some code ->
  getExpressionsForResourceType resourceType (sp_expression searchParam)
  = Ok expressions ->
  crawlExpressions resourceType expressions = Ok builder ->
  let plan := planOfBuilder searchParam (convertCodeToColumnName code) builder in
  buildSearchParameterDetails resourceType searchParam g
  = (Ok plan, setSearchParameterDetails resourceType code plan g).
Proof.
  intros Hcode He Hb. unfold buildSearchParameterDetails, bind, lift, requireCode.
  now rewrite Hcode, He, Hb.
Qed.

(** X9.  A parameter none of whose clauses leads with the resource type still
    compiles, whatever the schema: to a plan without resolved elements, not
    an array, whose semantic type follows from the declared type and an
    empty narrowed set (so never DATE, BOOLEAN or CANONICAL), and the plan is
    stored. *)
Theorem compile_without_clause (resourceType : string)
    (searchParam : SearchParameter) (g : GlobalSchema) (code : string)
    (child : Atom) :
  sp_code searchParam = Some code ->
  parseFhirPath (sp_expression searchParam) = Ok child ->
  Forall (fun clause => leadsWith resourceType clause = false)
    (unionLeaves child) ->
  exists plan,
    buildSearchParameterDetails resourceType searchParam g
    = (Ok plan, setSearchParameterDetails resourceType code plan g)
    /\ elementDefinitions plan = Some []
    /\ array plan = Some false
    /\ type plan = match sp_type searchParam with
                   | Some KDate => DATETIME
                   | Some KNumber => NUMBER
                   | Some KQuantity => QUANTITY
                   | Some KReference => REFERENCE
                   | _ => TEXT
                   end.
Proof.
  intros Hcode Hparse Hnone.
  assert (He : getExpressionsForResourceType resourceType (sp_expression searchParam)
               = Ok []).
  { unfold getExpressionsForResourceType. rewrite Hparse. cbn [rbind].
    rewrite buildExpressionsForResourceType_filter. cbn [app]. f_equal.
    clear Hparse. induction Hnone as [|x l Hx _ IH]; [reflexivity|].
    cbn [List.filter]. now rewrite Hx. }
  eexists. split.
  - apply (buildSearchParameterDetails_of_builder _ _ _ _ _ emptyBuilder Hcode He).
    reflexivity.
  - cbn [elementDefinitions array type planOfBuilder emptyBuilder
           b_elementDefinitions b_array b_propertyTypes].
    split; [reflexivity|]. split; [reflexivity|].
    unfold getSearchParameterType.
    destruct (sp_type searchParam) as [[]|]; reflexivity.
Qed.

(** X10.  A parameter whose one retained expression is a boolean infix
    expression (a comparison, [and], [or], [is], ...) compiles without the
    schema being asked: no resolved element, not an array, and semantic type
    BOOLEAN when the declared type is token. *)
Theorem boolean_expression_compiles (resourceType : string)
    (searchParam : SearchParameter) (g : GlobalSchema) (code : string)
    (expression : Atom) :
  sp_code searchParam = Some code ->
  getExpressionsForResourceType resourceType (sp_expression searchParam)
  = Ok [expression] ->
  isBooleanInfixOperatorAtom expression = true ->
  exists plan,
    fst (buildSearchParameterDetails resourceType searchParam g) = Ok plan
    /\ elementDefinitions plan = Some []
    /\ array plan = Some false
    /\ (sp_type searchParam = Some KToken -> type plan = BOOLEAN).
Proof.
  intros Hcode He Hbool.
  assert (Hflat : flattenAtom expression = [expression]).
  { destruct expression; try discriminate Hbool; reflexivity. }
  assert (Hb : exists builder,
             crawlExpressions resourceType [expression] = Ok builder
             /\ b_elementDefinitions builder = []
             /\ b_array builder = false
             /\ b_propertyTypes builder = {[ "boolean" ]}).
  { unfold crawlExpressions. cbn [foldR]. unfold processExpression.
    rewrite Hflat. cbn [isLoneBooleanInfix]. rewrite Hbool. cbn [rbind].
    destruct (Js.endsWith _ "extension.valueDateTime");
      (eexists; split; [reflexivity|]);
      (split; [reflexivity|]); (split; [reflexivity|]);
      cbn; apply leibniz_equiv; clear; set_solver. }
  destruct Hb as (builder & Hb & E1 & E2 & E3).
  eexists. split.
  - rewrite (buildSearchParameterDetails_of_builder _ _ g _ _ _ Hcode He Hb).
    reflexivity.
  - cbn [elementDefinitions array type planOfBuilder]. rewrite E1, E2.
    split; [reflexivity|]. split; [reflexivity|].
    intros HT. unfold getSearchParameterType. rewrite HT.
    assert (K : bool_decide (size (b_propertyTypes builder) = 1)
                && bool_decide (PropertyType.boolean ∈ b_propertyTypes builder)
                = true) by now apply single_narrowed_type.
    now rewrite K.
Qed.

(** *** Which parameters are indexed *)

Lemma existsb_pointwise {A} (f h : A -> bool) (l : list A) :
  (forall x, f x = h x) -> existsb f l = existsb h l.
Proof.
  intros E. induction l as [|x l IH]; [reflexivity|].
  cbn [existsb]. now rewrite E, IH.
Qed.

Lemma existsb_either {A} (f h : A -> bool) (l : list A) :
  existsb (fun x => f x || h x) l = existsb f l || existsb h l.
Proof.
  induction l as [|x l IH]; [reflexivity|]. cbn [existsb]. rewrite IH.
  destruct (f x), (h x), (existsb f l), (existsb h l); reflexivity.
Qed.

Lemma hasElementType_token_split (eds : list InternalSchemaElement) :
  hasElementType tokenElementTypes eds
  = hasElementType ["ContactPoint"] eds
    || hasElementType caseSensitiveElementTypes eds.
Proof.
  unfold hasElementType. rewrite <- existsb_either.
  apply existsb_pointwise. intros ed. rewrite <- existsb_either.
  apply existsb_pointwise. intros t.
  unfold Js.includes, tokenElementTypes, caseSensitiveElementTypes.
  cbn [existsb].
  destruct (String.eqb (et_code t) "Identifier"),
    (String.eqb (et_code t) "CodeableConcept"),
    (String.eqb (et_code t) "Coding"),
    (String.eqb (et_code t) "ContactPoint"); reflexivity.
Qed.

(** X11.  The extractor's test and the compiler's classification agree: for
    a parameter under whose code the cache lookup finds nothing, neither a
    stored plan nor an inherited property, so that it is compiled afresh, a
    token index type is defined exactly when the parameter meets the
    token-columns condition; so a token-columns plan always has its tokens
    extracted, and a parameter whose tokens are extracted is never stored as
    a plain column. *)
Theorem index_type_matches_classification (resourceType : string)
    (searchParam : SearchParameter) (g : GlobalSchema)
    (plan : SearchParameterDetails) :
  cachedDetails g resourceType searchParam = None ->
  fst (buildSearchParameterDetails resourceType searchParam g) = Ok plan ->
  exists indexType resolved,
    fst (getTokenIndexType searchParam resourceType g) = Ok indexType
    /\ elementDefinitions plan = Some resolved
    /\ (indexType <> None <-> isTokenColumnsParameter searchParam resolved)
    /\ (implementation plan = ImplTokenColumns -> indexType <> None)
    /\ (indexType <> None -> implementation plan <> ImplColumn).
Proof.
  intros Hmiss Hb.
  destruct (buildSearchParameterDetails_ok _ _ _ _ Hb)
    as (code & expressions & builder & _ & _ & _ & Hplan & _).
  assert (Hrun : exists indexType,
             fst (getTokenIndexType searchParam resourceType g) = Ok indexType
             /\ (indexType <> None <-> isTokenParam searchParam builder = true)).
  { unfold getTokenIndexType, isTokenParam.
    destruct (isTokenKind (sp_type searchParam)); cbn [negb].
    2: { exists None. split; [reflexivity|]. split; [congruence | discriminate]. }
    destruct (codeEndsWith searchParam ":identifier").
    { exists (Some CASE_SENSITIVE). split; [reflexivity|].
      split; [reflexivity | discriminate]. }
    unfold bind, getSearchParameterDetails. rewrite Hmiss.
    destruct (buildSearchParameterDetails resourceType searchParam g)
      as [[built|err] g'] eqn:E; cbn [fst] in Hb; [|discriminate].
    injection Hb as ->. rewrite Hplan. cbn [elementDefinitions planOfBuilder].
    assert (S : existsb (fun ed => existsb isTokenElementType (ise_type ed))
                  (b_elementDefinitions builder)
                = hasElementType ["ContactPoint"] (b_elementDefinitions builder)
                  || hasElementType caseSensitiveElementTypes
                       (b_elementDefinitions builder)).
    { rewrite <- hasElementType_token_split. unfold hasElementType.
      induction (b_elementDefinitions builder) as [|ed eds IH]; [reflexivity|].
      cbn [existsb]. rewrite IH. f_equal.
      induction (ise_type ed) as [|t ts IHt]; [reflexivity|].
      cbn [existsb]. now rewrite IHt, isTokenElementType_includes. }
    rewrite S.
    change [PropertyType.ContactPoint] with ["ContactPoint"].
    change [PropertyType.Identifier; PropertyType.CodeableConcept;
            PropertyType.Coding] with caseSensitiveElementTypes.
    destruct (b_elementDefinitions builder) as [|ed eds].
    { exists None. split; [reflexivity|]. split; [congruence | discriminate]. }
    destruct (hasElementType ["ContactPoint"] (ed :: eds)).
    { eexists. split; [reflexivity|]. split; [reflexivity | discriminate]. }
    destruct (hasElementType caseSensitiveElementTypes (ed :: eds)).
    { eexists. split; [reflexivity|]. split; [reflexivity | discriminate]. }
    exists None. split; [reflexivity|]. split; [congruence | discriminate]. }
  destruct Hrun as (indexType & Hidx & Hiff).
  exists indexType, (b_elementDefinitions builder).
  split; [exact Hidx|]. split; [now rewrite Hplan|].
  split; [now rewrite Hiff, isTokenParam_spec|].
  rewrite Hplan. cbn [implementation planOfBuilder]. rewrite Hiff.
  destruct (isLookupTableParam searchParam builder),
    (isTokenParam searchParam builder);
    split; intros; try reflexivity; try discriminate; congruence.
Qed.

(** *** Extraction *)

Lemma foldM_rel_in {A B} (R : B -> B -> Prop) (body : B -> A -> M B)
    (xs : list A) :
  (forall b, R b b) ->
  (forall a b c, R a b -> R b c -> R a c) ->
  (forall acc x g r, In x xs -> fst (body acc x g) = Ok r -> R acc r) ->
  forall acc g r, fst (foldM body xs acc g) = Ok r -> R acc r.
Proof.
  intros Hrefl Htrans. induction xs as [|x xs IH]; intros Hbody acc g r.
  - cbn. intros [= <-]. apply Hrefl.
  - cbn [foldM]. unfold bind.
    destruct (body acc x g) as [[mid|e] g'] eqn:E; [|cbn; discriminate].
    intros H. apply (Htrans _ mid).
    + apply (Hbody acc x g); [now left | now rewrite E].
    + revert H. apply IH. intros acc0 x0 g0 r0 Hin. apply Hbody. now right.
Qed.

(** X12.  A resource type whose registered parameters are neither of type
    token nor of type reference (or that has none registered) yields no
    token: nothing is compiled, nothing is evaluated, and the plan cache is
    left as it was. *)
Theorem nothing_to_extract (resource : Resource) (g : GlobalSchema) :
  Forall (fun searchParam =>
            isTokenKind (sp_type searchParam) = false
            /\ isReferenceKind (sp_type searchParam) = false)
         (default [] (getSearchParameters (resourceType resource))) ->
  getTokens resource g = (Ok [], g).
Proof.
  unfold getTokens.
  destruct (getSearchParameters (resourceType resource)) as [params|];
    [|reflexivity].
  change (default [] (Some params)) with params.
  generalize (@nil LookupToken). intros acc H. revert acc.
  induction H as [|searchParam params [HT HR] _ IH]; intros acc; [reflexivity|].
  cbn [foldM]. unfold bind at 1. unfold bind at 1.
  unfold getTokenIndexType. rewrite HT, HR. cbn. apply IH.
Qed.

Lemma appendsFor_refl (searchParam : SearchParameter)
    (result : list LookupToken) : appendsFor searchParam result result.
Proof. exists []. split; [now rewrite app_nil_r | constructor]. Qed.

Lemma appendsFor_trans (searchParam : SearchParameter)
    (a b c : list LookupToken) :
  appendsFor searchParam a b -> appendsFor searchParam b c ->
  appendsFor searchParam a c.
Proof.
  intros (m1 & -> & F1) (m2 & -> & F2). exists (m1 ++ m2).
  split; [now rewrite app_assoc | now apply Forall_app].
Qed.

Lemma buildSimpleToken_appends (result : list LookupToken)
    (searchParam : SearchParameter) (caseSensitive : bool)
    (system value : option string) :
  appendsFor searchParam result
    (buildSimpleToken result searchParam caseSensitive system value).
Proof.
  unfold buildSimpleToken.
  destruct ((Js.truthy system || Js.truthy value)
            && negb (existsb (sameToken searchParam system value) result)).
  - eexists. split; [reflexivity|]. constructor; [reflexivity | constructor].
  - apply appendsFor_refl.
Qed.

Lemma retainAll_appends (result : list LookupToken)
    (searchParam : SearchParameter) (caseSensitive : bool)
    (candidates : list (option string * option string)) :
  appendsFor searchParam result
    (retainAll result searchParam caseSensitive candidates).
Proof.
  revert result. induction candidates as [|c candidates IH]; intros result.
  - apply appendsFor_refl.
  - cbn [retainAll fold_left].
    eapply appendsFor_trans; [apply buildSimpleToken_appends | apply IH].
Qed.

Lemma buildTokens_appends (result : list LookupToken)
    (searchParam : SearchParameter) (resource : Resource)
    (typedValue : TypedValue) (g : GlobalSchema) (r : list LookupToken) :
  fst (buildTokens result searchParam resource typedValue g) = Ok r ->
  appendsFor searchParam result r.
Proof.
  unfold buildTokens, bind, ret.
  destruct (isCaseSensitiveSearchParameter searchParam (resourceType resource) g)
    as [[caseSensitive|e] g']; [|cbn; discriminate].
  cbn [fst]. intros [= <-].
  destruct typedValue as [v|v|v|v|t text].
  - apply buildSimpleToken_appends.
  - destruct v as [concept|]; [|apply appendsFor_refl].
    rewrite buildCodeableConceptToken_candidates. apply retainAll_appends.
  - destruct v as [coding|]; [|apply appendsFor_refl].
    rewrite buildCodingToken_candidates. apply retainAll_appends.
  - apply buildSimpleToken_appends.
  - apply buildSimpleToken_appends.
Qed.

Lemma buildTokensForSearchParameter_appends (result : list LookupToken)
    (resource : Resource) (searchParam : SearchParameter) (g : GlobalSchema)
    (r : list LookupToken) :
  fst (buildTokensForSearchParameter result resource searchParam g) = Ok r ->
  appendsFor searchParam result r.
Proof.
  unfold buildTokensForSearchParameter.
  apply (foldM_rel_in (appendsFor searchParam)).
  - apply appendsFor_refl.
  - apply appendsFor_trans.
  - intros acc x g0 r0 _. apply buildTokens_appends.
Qed.

(** X13.  Every token that extraction returns carries the code of a
    registered token parameter or the code of the identifier companion of a
    registered reference parameter. *)
Theorem tokens_carry_parameter_codes (resource : Resource) (g : GlobalSchema)
    (params : list SearchParameter) (tokens : list LookupToken) :
  getSearchParameters (resourceType resource) = Some params ->
  fst (getTokens resource g) = Ok tokens ->
  Forall (extractedFor params) tokens.
Proof.
  intros Hparams. unfold getTokens. rewrite Hparams.
  set (R := fun before after : list LookupToken =>
              exists more, after = before ++ more
                           /\ Forall (extractedFor params) more).
  assert (Hrefl : forall b, R b b).
  { intros b. exists []. split; [now rewrite app_nil_r | constructor]. }
  assert (Htrans : forall a b c, R a b -> R b c -> R a c).
  { intros a b c (m1 & -> & F1) (m2 & -> & F2). exists (m1 ++ m2).
    split; [now rewrite app_assoc | now apply Forall_app]. }
  assert (Hlift : forall searchParam before after,
            appendsFor searchParam before after ->
            (forall t, tok_code t = sp_code searchParam -> extractedFor params t) ->
            R before after).
  { intros searchParam before after (more & -> & F) Hcode. exists more.
    split; [reflexivity|]. revert F. apply List.Forall_impl. exact Hcode. }
  intros H.
  assert (K : R [] tokens).
  { revert H. apply (foldM_rel_in R); [exact Hrefl | exact Htrans |].
    intros acc searchParam g0 r Hin. unfold bind.
    destruct (getTokenIndexType searchParam (resourceType resource) g0)
      as [[indexType|e] g1] eqn:Eidx; [|cbn; discriminate].
    assert (Hderived : forall g2 acc',
              fst ((if isReferenceKind (sp_type searchParam)
                    then buildTokensForSearchParameter acc' resource
                           (deriveIdentifierSearchParameter searchParam)
                    else ret acc') g2) = Ok r ->
              R acc' r).
    { intros g2 acc'.
      destruct (isReferenceKind (sp_type searchParam)) eqn:ER.
      - intros Hr. apply buildTokensForSearchParameter_appends in Hr.
        apply (Hlift _ _ _ Hr). intros t Ht. exists searchParam.
        split; [exact Hin|]. right. now split.
      - cbn. intros [= <-]. apply Hrefl. }
    destruct indexType as [indexType|].
    - destruct (buildTokensForSearchParameter acc resource searchParam g1)
        as [[acc'|e] g2] eqn:E; [|cbn; discriminate].
      intros Hr. apply (Htrans _ acc'); [|exact (Hderived _ _ Hr)].
      assert (Ha : fst (buildTokensForSearchParameter acc resource searchParam g1)
                   = Ok acc') by now rewrite E.
      apply buildTokensForSearchParameter_appends in Ha.
      apply (Hlift _ _ _ Ha). intros t Ht. exists searchParam.
      split; [exact Hin|]. left. split; [|exact Ht].
      revert Eidx. unfold getTokenIndexType.
      destruct (isTokenKind (sp_type searchParam)); [reflexivity|].
      cbn. discriminate.
    - unfold ret at 1. apply Hderived. }
  destruct K as (more & -> & F). exact F.
Qed.

Lemma buildSimpleToken_stable_NoDup (result : list LookupToken)
    (searchParam : SearchParameter) (caseSensitive : bool)
    (system value : option string) :
  caseSensitive = true \/ Js.truthy value = false
  \/ option_map toLocaleLowerCase value = value ->
  NoDup result ->
  NoDup (buildSimpleToken result searchParam caseSensitive system value).
Proof.
  intros Hstable H. unfold buildSimpleToken.
  destruct ((Js.truthy system || Js.truthy value)
            && negb (existsb (sameToken searchParam system value) result))
    eqn:E; [|exact H].
  apply andb_true_iff in E as [_ E]. apply negb_true_iff in E.
  assert (Hstored : (if Js.truthy value && negb caseSensitive
                     then option_map toLocaleLowerCase value else value) = value).
  { destruct Hstable as [-> | [-> | Hv]];
      [now rewrite andb_false_r | reflexivity |].
    now destruct (Js.truthy value && negb caseSensitive). }
  rewrite Hstored. apply NoDup_app. split; [exact H|].
  split; [|apply NoDup_singleton].
  intros t Hin Hnew. apply list_elem_of_singleton in Hnew. subst t.
  assert (K : existsb (sameToken searchParam system value) result = true).
  { apply existsb_exists. eexists. split; [apply list_elem_of_In; exact Hin|].
    unfold sameToken. cbn. now rewrite !strictEq_refl. }
  congruence.
Qed.

Lemma retainAll_caseSensitive_NoDup (result : list LookupToken)
    (searchParam : SearchParameter)
    (candidates : list (option string * option string)) :
  NoDup result -> NoDup (retainAll result searchParam true candidates).
Proof.
  revert result. induction candidates as [|c candidates IH]; intros result H;
    [exact H|].
  cbn [retainAll fold_left]. apply IH.
  apply buildSimpleToken_stable_NoDup; [now left | exact H].
Qed.

(** X14.  Extracting the tokens of a value keeps the tokens distinct when
    the parameter is case-sensitive, and also, whatever the parameter, when
    the value is a ContactPoint (whose value is lower-cased before it is
    compared), lower-casing being idempotent as the runtime's is. *)
Theorem extraction_keeps_distinct (result : list LookupToken)
    (searchParam : SearchParameter) (resource : Resource)
    (typedValue : TypedValue) (g : GlobalSchema) (r : list LookupToken) :
  NoDup result ->
  fst (buildTokens result searchParam resource typedValue g) = Ok r ->
  fst (isCaseSensitiveSearchParameter searchParam (resourceType resource) g)
  = Ok true
  \/ ((exists contactPoint, typedValue = ContactPointValue contactPoint)
      /\ lowerCasingIsIdempotent) ->
  NoDup r.
Proof.
  intros Hnd. unfold buildTokens, bind, ret.
  destruct (isCaseSensitiveSearchParameter searchParam (resourceType resource) g)
    as [[caseSensitive|e] g']; [|cbn; discriminate].
  cbn [fst]. intros [= <-] [[= ->] | [[contactPoint ->] Hidem]].
  - destruct typedValue as [v|v|v|v|t text].
    + apply buildSimpleToken_stable_NoDup; [now left | exact Hnd].
    + destruct v as [concept|]; [|exact Hnd].
      rewrite buildCodeableConceptToken_candidates.
      now apply retainAll_caseSensitive_NoDup.
    + destruct v as [coding|]; [|exact Hnd].
      rewrite buildCodingToken_candidates.
      now apply retainAll_caseSensitive_NoDup.
    + apply buildSimpleToken_stable_NoDup; [now left | exact Hnd].
    + apply buildSimpleToken_stable_NoDup; [now left | exact Hnd].
  - unfold buildContactPointToken.
    apply buildSimpleToken_stable_NoDup; [|exact Hnd]. right.
    destruct (contactPoint ≫= contact_value) as [v|]; [|left; reflexivity].
    cbn [Js.truthy].
    destruct (String.eqb_spec v "") as [->|Hne]; cbn [negb option_map];
      [left; reflexivity | right; now rewrite Hidem].
Qed.

(** *** Conditions *)

Lemma split_parts_chars (sep x : ascii) (s w : string) :
  In w (Js.split sep s) -> Js.hasChar x w = true -> Js.hasChar x s = true.
Proof.
  revert w. induction s as [|c s IH]; intros w; cbn [Js.split].
  - intros [<-|[]]. discriminate.
  - destruct (Ascii.eqb c sep).
    + intros [<-|Hin]; [discriminate|]. intros H. cbn [Js.hasChar].
      rewrite (IH w Hin H). apply orb_true_r.
    + destruct (Js.split sep s) as [|w0 ws] eqn:E.
      * intros [<-|[]]. cbn [Js.hasChar]. rewrite orb_false_r.
        intros ->. reflexivity.
      * intros [<-|Hin]; cbn [Js.hasChar].
        -- intros H. apply orb_true_iff in H as [H|H]; [now rewrite H|].
           rewrite (IH w0 (or_introl eq_refl) H). apply orb_true_r.
        -- intros H. rewrite (IH w (or_intror Hin) H). apply orb_true_r.
Qed.

Lemma splitFirst_at_first (delim : ascii) (a b : string) :
  Js.hasChar delim a = false ->
  splitFirst delim (a +:+ String delim b) = Some (a, b).
Proof.
  induction a as [|c a IH]; intros H.
  - rewrite append_nil_l. cbn [splitFirst]. now rewrite Ascii.eqb_refl.
  - rewrite append_cons. cbn [splitFirst Js.hasChar] in *.
    destruct (Ascii.eqb c delim); cbn [orb] in H; [discriminate|].
    now rewrite (IH H).
Qed.

(** X15.  With a plan at hand, [buildWhere] reports a client error only for
    MISSING and PRESENT with a literal that reads neither true nor false, and
    that error is the bad request about ':missing'; for every other operator
    it returns a condition. *)
Theorem buildWhere_client_errors (q : SelectQuery)
    (resourceType table : string) (param : SearchParameter) (filter : Filter)
    (g g1 g2 : GlobalSchema) (caseSensitive : bool)
    (details : SearchParameterDetails) :
  isCaseSensitiveSearchParameter param resourceType g = (Ok caseSensitive, g1) ->
  getSearchParameterDetails resourceType param g1 = (Ok details, g2) ->
  (f_operator filter <> FhirOperator.MISSING ->
   f_operator filter <> FhirOperator.PRESENT ->
   exists e, buildWhere q resourceType table param filter g = (Ok e, g2))
  /\ (forall err,
        fst (buildWhere q resourceType table param filter g) = Err err ->
        err = BadRequest missingMessage
        /\ (f_operator filter = FhirOperator.MISSING
            \/ f_operator filter = FhirOperator.PRESENT)
        /\ Js.toLowerCase (f_value filter) <> "true"
        /\ Js.toLowerCase (f_value filter) <> "false").
Proof.
  intros H1 H2. rewrite (buildWhere_run _ _ _ _ filter _ _ _ _ _ H1 H2).
  unfold shouldTokenRowExist. split.
  - intros HM HP.
    destruct (f_operator filter); try congruence; cbn; eexists; reflexivity.
  - intros err. cbn [fst].
    destruct (f_operator filter); cbn; try discriminate;
      destruct (String.eqb_spec (Js.toLowerCase (f_value filter)) "true");
      cbn; try discriminate;
      destruct (String.eqb_spec (Js.toLowerCase (f_value filter)) "false");
      cbn; try discriminate;
      intros [= <-]; (split; [reflexivity|]);
      (split; [(now left) || (now right)|]); now split.
Qed.

(** X16.  Under NOT_IN and IDENTIFIER a filter value without a bar is not
    looked at: the condition is "the encoded array of the code is empty",
    whatever the value is. *)
Theorem value_without_bar_ignored (q : SelectQuery)
    (resourceType table : string) (param : SearchParameter) (filter : Filter)
    (g g1 g2 : GlobalSchema) (caseSensitive : bool)
    (details : SearchParameterDetails) :
  f_operator filter = FhirOperator.NOT_IN
  \/ f_operator filter = FhirOperator.IDENTIFIER ->
  Js.hasChar "|" (f_value filter) = false ->
  isCaseSensitiveSearchParameter param resourceType g = (Ok caseSensitive, g1) ->
  getSearchParameterDetails resourceType param g1 = (Ok details, g2) ->
  buildWhere q resourceType table param filter g
  = (Ok (TypedCondition (column table (columnName details)) ARRAY_EMPTY
           PUndefined None), g2).
Proof.
  intros Hop Hbar H1 H2.
  rewrite (buildWhere_run _ _ _ _ filter _ _ _ _ _ H1 H2).
  assert (Hnone : buildWhereExpression details table caseSensitive filter = None).
  { unfold buildWhereExpression, splitSearchOnComma.
    assert (K : forall query, In query (Js.split "," (f_value filter)) ->
                  buildWhereCondition details table filter caseSensitive query
                  = None).
    { intros query Hin. unfold buildWhereCondition.
      rewrite splitN_without_separator.
      - destruct Hop as [-> | ->]; reflexivity.
      - destruct (Js.hasChar "|" query) eqn:E; [|reflexivity].
        rewrite (split_parts_chars _ _ _ _ Hin E) in Hbar. discriminate. }
    induction (Js.split "," (f_value filter)) as [|x l IH]; [reflexivity|].
    cbn [omap list_omap]. rewrite (K x (or_introl eq_refl)).
    apply IH. intros query Hin. apply K. now right. }
  rewrite Hnone. unfold shouldTokenRowExist.
  destruct Hop as [-> | ->]; reflexivity.
Qed.

(** X17.  Under IN, the condition for a value without a bar does not depend
    on the search parameter: it asks the 'token' column of the table for the
    entries of the value set under the fixed code prefix 'code', whatever the
    plan, the filter's code and the case-sensitivity are. *)
Theorem in_condition_ignores_parameter (table query : string) :
  Js.hasChar "|" query = false ->
  exists subquery,
    forall details filter caseSensitive,
      f_operator filter = FhirOperator.IN ->
      buildWhereCondition details table filter caseSensitive query
      = Some (TypedCondition (column table "token") ARRAY_CONTAINS_SUBQUERY
                (PSubquery subquery) (Some "TEXT[]")).
Proof.
  intros Hbar. eexists. intros details filter caseSensitive Hop.
  unfold buildWhereCondition.
  rewrite (splitN_without_separator _ _ _ Hbar), Hop. reflexivity.
Qed.

(** X18.  For a comparing operator other than NOT and NOT_EQUALS (EQUALS,
    TEXT, CONTAINS, ...), the condition is the bare disjunction of the
    per-value terms, one per comma-separated value and in their order, with
    no negation anywhere. *)
Theorem disjunction_for_comparing_operators (q : SelectQuery)
    (resourceType table : string) (param : SearchParameter) (filter : Filter)
    (g g1 g2 : GlobalSchema) (caseSensitive : bool)
    (details : SearchParameterDetails) :
  shouldCompareTokenValue (f_operator filter) = true ->
  f_operator filter <> FhirOperator.NOT ->
  f_operator filter <> FhirOperator.NOT_EQUALS ->
  isCaseSensitiveSearchParameter param resourceType g = (Ok caseSensitive, g1) ->
  getSearchParameterDetails resourceType param g1 = (Ok details, g2) ->
  exists terms,
    buildWhere q resourceType table param filter g = (Ok (Disjunction terms), g2)
    /\ terms <> []
    /\ Forall2
         (fun query term =>
            buildWhereCondition details table filter caseSensitive query = Some term
            /\ negationFree term = true)
         (splitSearchOnComma (f_value filter)) terms.
Proof.
  intros Hcmp HN HNE H1 H2.
  assert (Hrow : shouldTokenRowExist filter = Ok true).
  { unfold shouldTokenRowExist. rewrite Hcmp.
    destruct (f_operator filter); try reflexivity; congruence. }
  set (f := buildWhereCondition details table filter caseSensitive).
  exists (omap f (splitSearchOnComma (f_value filter))).
  assert (HF : Forall2 (fun query term => f query = Some term
                                          /\ negationFree term = true)
                 (splitSearchOnComma (f_value filter))
                 (omap f (splitSearchOnComma (f_value filter)))).
  { apply omap_total.
    - intros query. now apply buildWhereCondition_comparing.
    - intros query term E. now apply (buildWhereCondition_shape _ _ _ _ _ _ E). }
  assert (Hne : omap f (splitSearchOnComma (f_value filter)) <> []).
  { intros E. rewrite E in HF. inversion HF as [E'|].
    symmetry in E'. revert E'. apply split_nonEmpty. }
  split; [|split; [exact Hne | exact HF]].
  rewrite (buildWhere_run _ _ _ _ _ _ _ _ _ _ H1 H2), Hrow.
  unfold buildWhereExpression. fold f. cbn [rbind].
  destruct (omap f (splitSearchOnComma (f_value filter))); [congruence|].
  reflexivity.
Qed.

(** X19.  A query term [system|value] is split at its first bar only, so the
    value may itself contain bars.  For an operator other than TEXT and
    CONTAINS the term looks for one encoded entry: the system (the null-system
    mark when it is empty), followed by the delimiter and the value as the
    runtime's [trim] returns it, when that is not empty; exactly that entry
    for a case-sensitive parameter, and a case-insensitive pattern ending at
    the array delimiter otherwise. *)
Theorem system_value_term (details : SearchParameterDetails)
    (table : string) (filter : Filter) (system value : string) :
  Js.hasChar "|" system = false ->
  f_operator filter <> FhirOperator.TEXT ->
  f_operator filter <> FhirOperator.CONTAINS ->
  let tokenColumn := column table (columnName details) in
  let encodedSystem := if nonEmpty system then system else NULL_SYSTEM in
  let trimmed := trim value in
  buildWhereCondition details table filter true (system +:+ "|" +:+ value)
  = Some (TypedCondition tokenColumn ARRAY_CONTAINS
            (PString (encodedSystem
                      +:+ (if nonEmpty trimmed then DELIM +:+ trimmed else "")))
            (Some "text[]"))
  /\ buildWhereCondition details table filter false (system +:+ "|" +:+ value)
     = Some (TypedCondition tokenColumn ARRAY_IREGEX
               (PString (encodedSystem +:+ DELIM +:+ trimmed +:+ ARRAY_DELIM))
               (Some "text[]")).
Proof.
  intros Hbar HT HC. cbv zeta.
  assert (Hsplit : splitN (system +:+ "|" +:+ value) "|" 2 = [system; value]).
  { unfold splitN. cbn [Nat.sub splitAtMost].
    change ("|" +:+ value) with (String "|" value).
    now rewrite (splitFirst_at_first _ _ _ Hbar). }
  unfold buildWhereCondition, buildValueCondition, isOperator.
  rewrite Hsplit. cbn [USE_TOKEN_TABLE].
  rewrite (bool_decide_eq_false_2 _ HT), (bool_decide_eq_false_2 _ HC).
  assert (Hdef : default "" (Some (if nonEmpty system then system else NULL_SYSTEM))
                 = (if nonEmpty system then system else NULL_SYSTEM))
    by reflexivity.
  rewrite Hdef. split; reflexivity.
Qed.

End Subsystem.

(** ** The statements on the small world *)

(** C5, at the failing input.  The observation of the small world carries the
    same coding twice under a parameter whose resolved element is a choice of
    Coding and ContactPoint, hence case-insensitive: the second occurrence is
    compared before lower-casing against the first one stored after
    lower-casing, is not recognised, and the extractor returns the triple
    (ext-value, http://loinc.org, la-386661006) twice. *)
Theorem duplicate_token_retained :
  let tokens :=
    [ mkToken (Some "code") (Some "text") (Some "Fever");
      mkToken (Some "code") (Some "http://loinc.org") (Some "386661006");
      mkToken (Some "ext-value") (Some "http://loinc.org") (Some "la-386661006");
      mkToken (Some "ext-value") (Some "http://loinc.org") (Some "la-386661006") ] in
  fst (getTokens Demo.parseFhirPath Demo.toString Demo.getElementDefinition
         Demo.inheritedProperty Demo.getSearchParameters
         Demo.evalFhirPathTyped Demo.deriveIdentifierSearchParameter
         Demo.toLocaleLowerCase Demo.observation ∅)
  = Ok tokens
  /\ ~ NoDup tokens.
Proof.
  cbv zeta. split; [vm_compute; reflexivity|].
  intros H. apply NoDup_cons_1_2 in H. apply NoDup_cons_1_2 in H.
  apply NoDup_cons_1_1 in H. apply H. constructor.
Qed.


(** C2, as stated, fails on the same parameter: its tokens are not
    case-sensitive, so the text and the display of the fever concept are both
    stored lower-cased, the second one is compared as "Fever" with the
    stored "fever" and retained, and the concept yields three tokens, two of
    them equal. *)
Lemma codeable_concept_counterexample :
  ~ feverExampleAsStated Demo.parseFhirPath Demo.toString
      Demo.getElementDefinition Demo.inheritedProperty Demo.toLocaleLowerCase
      Demo.extensionValue Demo.observation ∅.
Proof.
  intros H.
  assert (E : fst (buildTokens Demo.parseFhirPath Demo.toString
                     Demo.getElementDefinition Demo.inheritedProperty
                     Demo.toLocaleLowerCase [] Demo.extensionValue
                     Demo.observation (CodeableConceptValue (Some Demo.fever))
                     ∅)
              = Ok [ mkToken (Some "ext-value") (Some "text") (Some "fever");
                     mkToken (Some "ext-value") (Some "text") (Some "fever");
                     mkToken (Some "ext-value") (Some "http://loinc.org")
                       (Some "386661006") ])
    by (vm_compute; reflexivity).
  apply H in E. discriminate E.
Qed.

(** C8, as stated, fails on a parameter with two clauses: the first ends in
    "extension valueDateTime" and is forced to non-array, the second walks
    the multi-valued [telecom] and sets the array mark again, so the plan is
    an array plan. *)
Lemma extension_forcing_counterexample :
  ~ extensionForcingAsStated Demo2.parseFhirPath Demo.toString
      Demo.getElementDefinition "Patient" Demo2.contacted ∅.
Proof.
  intros H.
  assert (Hp : exists plan,
             fst (buildSearchParameterDetails Demo2.parseFhirPath
                    Demo.toString Demo.getElementDefinition "Patient"
                    Demo2.contacted ∅)
             = Ok plan
             /\ array plan = Some true)
    by (eexists; split; vm_compute; reflexivity).
  destruct Hp as (plan & Hp & Ha).
  destruct (H [ Demo.dots (SymbolAtom "Patient")
                  [SymbolAtom "extension"; SymbolAtom "valueDateTime"];
                Demo.patientTelecom ] plan) as [_ K];
    [vm_compute; reflexivity | exact Hp |].
  rewrite K in Ha; [discriminate Ha|].
  apply Exists_cons_hd. left. exists ["Patient"]. reflexivity.
Qed.

Lemma storage_strategy_classification_witness :
  exists plan,
    fst (buildSearchParameterDetails Demo.parseFhirPath Demo.toString
           Demo.getElementDefinition "Observation" Demo.clinicalCode ∅) = Ok plan
    /\ implementation plan = ImplTokenColumns
    /\ ~ isSideLookupParameter Demo.clinicalCode.
Proof.
  eexists. split; [vm_compute; reflexivity|].
  edestruct (storage_strategy_classification Demo.parseFhirPath Demo.toString
               Demo.getElementDefinition "Observation" Demo.clinicalCode ∅)
    as (resolved & _ & _ & HT & _); [vm_compute; reflexivity|].
  split; [reflexivity|]. now apply HT.
Defined.

Lemma semantic_type_derivation_witness :
  exists plan,
    fst (buildSearchParameterDetails Demo.parseFhirPath Demo.toString
           Demo.getElementDefinition "Condition" Demo.assertedDate ∅) = Ok plan
    /\ type plan = DATETIME.
Proof.
  eexists. split; [vm_compute; reflexivity|].
  edestruct (semantic_type_derivation Demo.parseFhirPath Demo.toString
               Demo.getElementDefinition "Condition" Demo.assertedDate ∅)
    as (expressions & builder & He & Hb & HT); [vm_compute; reflexivity|].
  vm_compute in He. injection He as <-.
  vm_compute in Hb. injection Hb as <-.
  cbn in HT. destruct HT as [_ HT]. apply HT.
  intros E. apply (f_equal (fun s : gset string => bool_decide ("date" ∈ s))) in E.
  vm_compute in E. discriminate E.
Defined.

Lemma extension_special_cases_witness :
  (exists plan,
     fst (buildSearchParameterDetails Demo.parseFhirPath Demo.toString
            Demo.getElementDefinition "Patient" Demo.race ∅) = Ok plan
     /\ array plan = Some true
     /\ type plan <> BOOLEAN)
  /\ (exists plan,
        fst (buildSearchParameterDetails Demo.parseFhirPath Demo.toString
               Demo.getElementDefinition "Condition" Demo.assertedDate ∅) = Ok plan
        /\ array plan = Some false).
Proof.
  split.
  - assert (Hp : exists plan,
               fst (buildSearchParameterDetails Demo.parseFhirPath
                      Demo.toString Demo.getElementDefinition "Patient"
                      Demo.race ∅) = Ok plan)
      by (eexists; vm_compute; reflexivity).
    destruct Hp as [plan Hp]. exists plan. split; [exact Hp|].
    destruct (extension_special_cases Demo.parseFhirPath Demo.toString
                Demo.getElementDefinition "Patient" Demo.patientRace)
      as (_ & _ & _ & H).
    destruct (H Demo.race ∅ [] [] plan) as [H1 _];
      [vm_compute; reflexivity | exact Hp |].
    destruct H1 as (N1 & _ & Ha);
      [left; exists ["Patient"; "extension"]; reflexivity|].
    split; [apply Ha; constructor | exact N1].
  - assert (Hp : exists plan,
               fst (buildSearchParameterDetails Demo.parseFhirPath
                      Demo.toString Demo.getElementDefinition "Condition"
                      Demo.assertedDate ∅)
               = Ok plan)
      by (eexists; vm_compute; reflexivity).
    destruct Hp as [plan Hp]. exists plan. split; [exact Hp|].
    destruct (extension_special_cases Demo.parseFhirPath Demo.toString
                Demo.getElementDefinition "Condition"
                Demo.conditionAssertedDate)
      as (_ & _ & _ & H).
    destruct (H Demo.assertedDate ∅ [] [] plan) as [_ H2];
      [vm_compute; reflexivity | exact Hp |].
    apply H2; [|reflexivity].
    left. exists ["Condition"]. reflexivity.
Defined.

Lemma negation_of_whole_disjunction_witness :
  exists a b,
    fst (buildWhere Demo.parseFhirPath Demo.toString Demo.getElementDefinition
           Demo.inheritedProperty Demo.escapeLikeString Demo.toLocaleLowerCase
           Demo.trim Demo.emptyQuery "Observation" "Observation"
           Demo.clinicalCode (mkFilter "code" FhirOperator.NOT_EQUALS "a,b") ∅)
    = Ok (Negation (Disjunction [a; b]))
    /\ negationFree a = true /\ negationFree b = true.
Proof.
  edestruct (negation_of_whole_disjunction Demo.parseFhirPath Demo.toString
               Demo.getElementDefinition Demo.inheritedProperty
               Demo.escapeLikeString Demo.toLocaleLowerCase Demo.trim
               Demo.emptyQuery "Observation" "Observation" Demo.clinicalCode
               (mkFilter "code" FhirOperator.NOT_EQUALS "a,b") ∅)
    as (terms & Hrun & _ & HF);
    [right; reflexivity | vm_compute; reflexivity | vm_compute; reflexivity |].
  rewrite Hrun. cbn [fst].
  inversion HF as [|qa a ql la [_ Ha] HF1 Eq1 E1]. subst.
  inversion HF1 as [|qb b ql' lb [_ Hb] HF2 Eq2 E2]. subst.
  inversion HF2. subst.
  exists a, b. now repeat split.
Defined.

Lemma missing_present_conditions_witness :
  let arrayEmpty :=
    TypedCondition (column "Observation" "code") ARRAY_EMPTY PUndefined None in
  fst (buildWhere Demo.parseFhirPath Demo.toString Demo.getElementDefinition
         Demo.inheritedProperty Demo.escapeLikeString Demo.toLocaleLowerCase
         Demo.trim Demo.emptyQuery "Observation" "Observation"
         Demo.clinicalCode (mkFilter "code" FhirOperator.MISSING "true") ∅)
  = Ok (Negation arrayEmpty)
  /\ requiresSomeEntry (column "Observation" "code") (Negation arrayEmpty).
Proof.
  cbv zeta.
  edestruct (missing_present_conditions Demo.parseFhirPath Demo.toString
               Demo.getElementDefinition Demo.inheritedProperty
               Demo.escapeLikeString Demo.toLocaleLowerCase Demo.trim
               Demo.emptyQuery "Observation" "Observation" Demo.clinicalCode
               "code" FhirOperator.MISSING "true" ∅)
    as (H & _ & _);
    [left; reflexivity | vm_compute; reflexivity | vm_compute; reflexivity |].
  destruct H as [Hrun Hreq]; [left; split; reflexivity|].
  rewrite Hrun. split; [reflexivity | exact Hreq].
Defined.

Lemma codeable_concept_tokens_witness :
  fst (buildTokens Demo.parseFhirPath Demo.toString Demo.getElementDefinition
         Demo.inheritedProperty Demo.toLocaleLowerCase [] Demo.clinicalCode
         Demo.observation (CodeableConceptValue (Some Demo.fever)) ∅)
  = Ok [ mkToken (Some "code") (Some "text") (Some "Fever");
         mkToken (Some "code") (Some "http://loinc.org") (Some "386661006") ].
Proof.
  pose (g' := snd (isCaseSensitiveSearchParameter Demo.parseFhirPath
                     Demo.toString Demo.getElementDefinition
                     Demo.inheritedProperty Demo.clinicalCode "Observation" ∅)).
  assert (Hc : isCaseSensitiveSearchParameter Demo.parseFhirPath Demo.toString
                 Demo.getElementDefinition Demo.inheritedProperty
                 Demo.clinicalCode (resourceType Demo.observation) ∅
               = (Ok true, g')) by (vm_compute; reflexivity).
  destruct (codeable_concept_tokens Demo.parseFhirPath Demo.toString
              Demo.getElementDefinition Demo.inheritedProperty
              Demo.toLocaleLowerCase [] Demo.clinicalCode Demo.observation ∅
              g' Hc) as (_ & _ & H).
  exact (f_equal fst H).
Defined.



(** ** The further properties on the small world *)

Lemma column_name_has_no_hyphen_witness :
  Js.hasChar "-" "birthdate" = false
  /\ convertCodeToColumnName "birthdate" = "birthdate".
Proof.
  split; [reflexivity|].
  apply (proj2 (column_name_has_no_hyphen "birthdate")). reflexivity.
Defined.

Lemma expressions_for_resource_type_witness :
  Demo.parseFhirPath (Some "Observation.code") = Ok Demo.observationCode
  /\ getExpressionsForResourceType Demo.parseFhirPath Demo.toString "Observation"
       (Some "Observation.code") = Ok [Demo.observationCode]
  /\ getExpressionForResourceType Demo.parseFhirPath Demo.toString "Patient"
       (Some "Observation.code") = Ok None.
Proof.
  assert (Demo.parseFhirPath (Some "Observation.code") = Ok Demo.observationCode)
    as Hparse by (vm_compute; reflexivity).
  split; [exact Hparse|].
  pose proof (expressions_for_resource_type Demo.parseFhirPath Demo.toString
                "Observation" _ _ Hparse) as HO.
  pose proof (expressions_for_resource_type Demo.parseFhirPath Demo.toString
                "Patient" _ _ Hparse) as HP.
  cbv zeta in HO, HP.
  destruct HO as (H1 & _ & _). destruct HP as (_ & H2 & _).
  split.
  - rewrite H1. vm_compute. reflexivity.
  - apply H2. vm_compute. repeat constructor.
Defined.

Lemma walk_only_adds_witness :
  exists after,
    crawlSearchParameterDetails Demo.toString Demo.getElementDefinition
      emptyBuilder [SymbolAtom "telecom"] "Patient" = Ok after
    /\ grows emptyBuilder after
    /\ b_array after = true.
Proof.
  eexists. split; [vm_compute; reflexivity|]. split; [|reflexivity].
  apply (proj1 (walk_only_adds Demo.toString Demo.getElementDefinition)
           [SymbolAtom "telecom"] emptyBuilder "Patient").
  vm_compute. reflexivity.
Defined.

Lemma resolved_types_are_narrowed_witness :
  exists plan,
    fst (buildSearchParameterDetails Demo2.parseFhirPath Demo.toString
           Demo2.getElementDefinition "Patient" Demo2.active ∅) = Ok plan
    /\ type plan = BOOLEAN
    /\ onlyOfType "boolean" [Demo2.activeElement].
Proof.
  eexists. split; [vm_compute; reflexivity|]. split; [reflexivity|].
  edestruct (resolved_types_are_narrowed Demo2.parseFhirPath Demo.toString
               Demo2.getElementDefinition "Patient" Demo2.active ∅)
    as (resolved & Hres & HB & _); [vm_compute; reflexivity|].
  destruct (HB eq_refl) as [Honly _].
  injection Hres as <-. exact Honly.
Defined.

Lemma unindexed_step_sets_array_witness :
  crawlSearchParameterDetails Demo.toString Demo.getElementDefinition
    emptyBuilder [SymbolAtom "telecom"] "Patient"
  = crawlSearchParameterDetails Demo.toString Demo.getElementDefinition
      (setArray true emptyBuilder)
      [SymbolAtom "telecom"; IndexerAtom (SymbolAtom "telecom") (LiteralAtom "0")]
      "Patient".
Proof.
  assert (Demo.getElementDefinition "Patient" (Demo.toString (SymbolAtom "telecom"))
          = Some Demo2.telecomElement) as Hdef by (vm_compute; reflexivity).
  apply (proj1 (unindexed_step_sets_array Demo.toString
                  Demo.getElementDefinition emptyBuilder
                  (SymbolAtom "telecom") [] "Patient" Demo2.telecomElement
                  (SymbolAtom "telecom") (LiteralAtom "0") eq_refl eq_refl
                  Hdef)).
Defined.

Lemma plan_cache_behaviour_witness :
  let first :=
    getSearchParameterDetails Demo.parseFhirPath Demo.toString
      Demo.getElementDefinition Demo.inheritedProperty "Observation"
      Demo.clinicalCode ∅ in
  (exists plan,
     fst first = Ok plan
     /\ cachedDetails Demo.inheritedProperty (snd first) "Observation"
          Demo.clinicalCode = Some plan)
  /\ (exists found,
        getSearchParameterDetails Demo.parseFhirPath Demo.toString
          Demo.getElementDefinition Demo.inheritedProperty "Observation"
          Demo2.constructorNamed (snd first) = (Ok found, snd first)
        /\ elementDefinitions found = None).
Proof.
  cbv zeta. split.
  - eexists. split; [vm_compute; reflexivity|].
    apply (proj1 (proj2 (plan_cache_behaviour Demo.parseFhirPath Demo.toString
                           Demo.getElementDefinition Demo.inheritedProperty
                           "Observation" Demo.clinicalCode ∅))).
    vm_compute. reflexivity.
  - exists Demo.notAPlan. split; [|reflexivity].
    apply (proj1 (plan_cache_behaviour Demo.parseFhirPath Demo.toString
                    Demo.getElementDefinition Demo.inheritedProperty
                    "Observation" Demo2.constructorNamed _)).
    vm_compute. reflexivity.
Defined.

Lemma same_code_shares_plan_witness :
  exists plan,
    fst (getSearchParameterDetails Demo.parseFhirPath Demo.toString
           Demo.getElementDefinition Demo.inheritedProperty "Observation"
           Demo.clinicalCode ∅) = Ok plan
    /\ fst (getSearchParameterDetails Demo.parseFhirPath Demo.toString
              Demo.getElementDefinition Demo.inheritedProperty "Observation"
                Demo2.sameCode
              (snd (getSearchParameterDetails Demo.parseFhirPath Demo.toString
                      Demo.getElementDefinition Demo.inheritedProperty
                        "Observation"
                      Demo.clinicalCode ∅))) = Ok plan
    /\ type plan = TEXT.
Proof.
  eexists. split; [vm_compute; reflexivity|]. split; [|reflexivity].
  pose proof (same_code_shares_plan Demo.parseFhirPath Demo.toString
                Demo.getElementDefinition Demo.inheritedProperty "Observation"
                Demo.clinicalCode Demo2.sameCode ∅) as H.
  cbv zeta in H. erewrite H; [reflexivity | reflexivity | vm_compute; reflexivity].
Defined.

Lemma compile_without_clause_witness :
  exists plan,
    fst (buildSearchParameterDetails Demo.parseFhirPath Demo.toString
           Demo.getElementDefinition "Patient" Demo.clinicalCode ∅) = Ok plan
    /\ elementDefinitions plan = Some []
    /\ type plan = TEXT.
Proof.
  destruct (compile_without_clause Demo.parseFhirPath Demo.toString
              Demo.getElementDefinition "Patient" Demo.clinicalCode ∅ "code"
              Demo.observationCode)
    as (plan & Hrun & He & _ & Ht).
  - reflexivity.
  - vm_compute. reflexivity.
  - vm_compute. repeat constructor.
  - exists plan. rewrite Hrun. split; [reflexivity|]. split; [exact He | exact Ht].
Defined.

Lemma boolean_expression_compiles_witness :
  exists plan,
    fst (buildSearchParameterDetails Demo2.parseFhirPath Demo.toString
           Demo.getElementDefinition "Patient" Demo2.deceased ∅) = Ok plan
    /\ type plan = BOOLEAN.
Proof.
  destruct (boolean_expression_compiles Demo2.parseFhirPath Demo.toString
              Demo.getElementDefinition "Patient" Demo2.deceased ∅ "deceased"
              Demo2.patientDeceased)
    as (plan & Hrun & _ & _ & Ht).
  - reflexivity.
  - vm_compute. reflexivity.
  - reflexivity.
  - exists plan. split; [exact Hrun | apply Ht; reflexivity].
Defined.

Lemma index_type_matches_classification_witness :
  exists indexType,
    fst (getTokenIndexType Demo.parseFhirPath Demo.toString
           Demo.getElementDefinition Demo.inheritedProperty Demo.clinicalCode
           "Observation" ∅)
    = Ok indexType
    /\ indexType <> None.
Proof.
  edestruct (index_type_matches_classification Demo.parseFhirPath
               Demo.toString Demo.getElementDefinition Demo.inheritedProperty
               "Observation" Demo.clinicalCode ∅)
    as (indexType & resolved & Hidx & _ & _ & HT & _).
  - vm_compute. reflexivity.
  - vm_compute. reflexivity.
  - exists indexType. split; [exact Hidx | apply HT; reflexivity].
Defined.

Lemma nothing_to_extract_witness :
  getTokens Demo.parseFhirPath Demo.toString Demo.getElementDefinition
    Demo.inheritedProperty
    Demo2.getSearchParameters Demo.evalFhirPathTyped
    Demo.deriveIdentifierSearchParameter Demo.toLocaleLowerCase
      Demo2.chargeItem ∅ = (Ok [], ∅).
Proof.
  apply nothing_to_extract. vm_compute. repeat constructor.
Defined.

Lemma tokens_carry_parameter_codes_witness :
  exists tokens,
    fst (getTokens Demo.parseFhirPath Demo.toString Demo.getElementDefinition
           Demo.inheritedProperty Demo.getSearchParameters
           Demo.evalFhirPathTyped Demo.deriveIdentifierSearchParameter
           Demo.toLocaleLowerCase Demo.observation ∅) = Ok tokens
    /\ tokens <> []
    /\ Forall (extractedFor Demo.deriveIdentifierSearchParameter
                 [Demo.clinicalCode; Demo.extensionValue]) tokens.
Proof.
  eexists. split; [vm_compute; reflexivity|]. split; [discriminate|].
  apply (tokens_carry_parameter_codes Demo.parseFhirPath Demo.toString
           Demo.getElementDefinition Demo.inheritedProperty
           Demo.getSearchParameters Demo.evalFhirPathTyped
           Demo.deriveIdentifierSearchParameter Demo.toLocaleLowerCase
           Demo.observation ∅); [reflexivity | vm_compute; reflexivity].
Defined.

Lemma extraction_keeps_distinct_witness :
  (exists tokens,
     fst (buildTokens Demo.parseFhirPath Demo.toString
            Demo.getElementDefinition Demo.inheritedProperty
            Demo.toLocaleLowerCase [] Demo.clinicalCode Demo.observation
            (CodeableConceptValue (Some Demo.fever)) ∅) = Ok tokens
     /\ tokens <> []
     /\ NoDup tokens)
  /\ (exists tokens,
        fst (buildTokens Demo.parseFhirPath Demo.toString
               Demo.getElementDefinition Demo.inheritedProperty
               Demo.toLocaleLowerCase
               [mkToken (Some "telecom") (Some "email") (Some "a@x.org")]
               Demo.telecom (mkResource "Patient")
               (ContactPointValue
                  (Some (mkContactPoint (Some "email") (Some "A@X.ORG")))) ∅)
        = Ok tokens
        /\ length tokens = 1
        /\ NoDup tokens).
Proof.
  split.
  - eexists. split; [vm_compute; reflexivity|]. split; [discriminate|].
    apply (extraction_keeps_distinct Demo.parseFhirPath Demo.toString
             Demo.getElementDefinition Demo.inheritedProperty
             Demo.toLocaleLowerCase [] Demo.clinicalCode Demo.observation
             (CodeableConceptValue (Some Demo.fever)) ∅);
      [constructor | vm_compute; reflexivity | left; vm_compute; reflexivity].
  - eexists. split; [vm_compute; reflexivity|]. split; [reflexivity|].
    apply (extraction_keeps_distinct Demo.parseFhirPath Demo.toString
             Demo.getElementDefinition Demo.inheritedProperty
             Demo.toLocaleLowerCase
             [mkToken (Some "telecom") (Some "email") (Some "a@x.org")]
             Demo.telecom (mkResource "Patient")
             (ContactPointValue
                (Some (mkContactPoint (Some "email") (Some "A@X.ORG")))) ∅).
    + apply NoDup_singleton.
    + vm_compute. reflexivity.
    + right. split; [eexists; reflexivity|]. exact toLowerCase_idempotent.
Defined.

Lemma buildWhere_client_errors_witness :
  (exists e,
     fst (buildWhere Demo.parseFhirPath Demo.toString
            Demo.getElementDefinition Demo.inheritedProperty
            Demo.escapeLikeString Demo.toLocaleLowerCase Demo.trim
            Demo.emptyQuery "Observation" "Observation" Demo.clinicalCode
            (mkFilter "code" FhirOperator.EQUALS "a") ∅) = Ok e)
  /\ fst (buildWhere Demo.parseFhirPath Demo.toString
            Demo.getElementDefinition Demo.inheritedProperty
            Demo.escapeLikeString Demo.toLocaleLowerCase Demo.trim
            Demo.emptyQuery "Observation" "Observation" Demo.clinicalCode
            (mkFilter "code" FhirOperator.MISSING "maybe") ∅)
     = Err (BadRequest missingMessage).
Proof.
  pose (g1 := snd (isCaseSensitiveSearchParameter Demo.parseFhirPath
                     Demo.toString Demo.getElementDefinition
                     Demo.inheritedProperty Demo.clinicalCode "Observation" ∅)).
  pose (request := getSearchParameterDetails Demo.parseFhirPath Demo.toString
                     Demo.getElementDefinition Demo.inheritedProperty
                       "Observation" Demo.clinicalCode g1).
  assert (isCaseSensitiveSearchParameter Demo.parseFhirPath Demo.toString
            Demo.getElementDefinition Demo.inheritedProperty Demo.clinicalCode
            "Observation" ∅ = (Ok true, g1)) as Hc by (vm_compute; reflexivity).
  assert (exists details, request = (Ok details, snd request)) as [details Hd]
    by (eexists; vm_compute; reflexivity).
  split.
  - destruct (buildWhere_client_errors Demo.parseFhirPath Demo.toString
                Demo.getElementDefinition Demo.inheritedProperty
                Demo.escapeLikeString Demo.toLocaleLowerCase Demo.trim
                Demo.emptyQuery "Observation" "Observation" Demo.clinicalCode
                (mkFilter "code" FhirOperator.EQUALS "a") ∅ g1 (snd request)
                true details Hc Hd) as [H _].
    destruct H as [e He].
    + intros X. discriminate X.
    + intros X. discriminate X.
    + exists e. exact (f_equal fst He).
  - destruct (buildWhere_client_errors Demo.parseFhirPath Demo.toString
                Demo.getElementDefinition Demo.inheritedProperty
                Demo.escapeLikeString Demo.toLocaleLowerCase Demo.trim
                Demo.emptyQuery "Observation" "Observation" Demo.clinicalCode
                (mkFilter "code" FhirOperator.MISSING "maybe") ∅ g1
                (snd request) true details Hc Hd) as [_ H].
    assert (exists err,
              fst (buildWhere Demo.parseFhirPath Demo.toString
                     Demo.getElementDefinition Demo.inheritedProperty
                     Demo.escapeLikeString Demo.toLocaleLowerCase Demo.trim
                     Demo.emptyQuery "Observation" "Observation"
                     Demo.clinicalCode
                     (mkFilter "code" FhirOperator.MISSING "maybe") ∅) = Err err)
      as [err Herr] by (eexists; vm_compute; reflexivity).
    destruct (H err Herr) as [Hmsg _].
    rewrite Herr, Hmsg. reflexivity.
Defined.

Lemma value_without_bar_ignored_witness :
  fst (buildWhere Demo.parseFhirPath Demo.toString Demo.getElementDefinition
         Demo.inheritedProperty Demo.escapeLikeString Demo.toLocaleLowerCase
         Demo.trim Demo.emptyQuery "Observation" "Observation"
         Demo.clinicalCode
         (mkFilter "code" FhirOperator.NOT_IN "http://example.org/ValueSet/a")
         ∅)
  = Ok (TypedCondition (column "Observation" "code") ARRAY_EMPTY PUndefined None).
Proof.
  pose (g1 := snd (isCaseSensitiveSearchParameter Demo.parseFhirPath
                     Demo.toString Demo.getElementDefinition
                     Demo.inheritedProperty Demo.clinicalCode "Observation" ∅)).
  pose (request := getSearchParameterDetails Demo.parseFhirPath Demo.toString
                     Demo.getElementDefinition Demo.inheritedProperty
                       "Observation" Demo.clinicalCode g1).
  assert (isCaseSensitiveSearchParameter Demo.parseFhirPath Demo.toString
            Demo.getElementDefinition Demo.inheritedProperty Demo.clinicalCode
            "Observation" ∅ = (Ok true, g1)) as Hc by (vm_compute; reflexivity).
  assert (exists details,
            request = (Ok details, snd request) /\ columnName details = "code")
    as (details & Hd & Hname)
    by (eexists; split; [vm_compute; reflexivity | reflexivity]).
  rewrite <- Hname.
  exact (f_equal fst
           (value_without_bar_ignored Demo.parseFhirPath Demo.toString
              Demo.getElementDefinition Demo.inheritedProperty
                Demo.escapeLikeString Demo.toLocaleLowerCase Demo.trim
                Demo.emptyQuery
              "Observation" "Observation" Demo.clinicalCode
              (mkFilter "code" FhirOperator.NOT_IN "http://example.org/ValueSet/a")
              ∅ g1 (snd request) true details (or_introl eq_refl) eq_refl Hc Hd)).
Defined.

Lemma in_condition_ignores_parameter_witness :
  buildWhereCondition Demo.escapeLikeString Demo.toLocaleLowerCase Demo.trim
    (mkDetails "code" TEXT None None ImplTokenColumns) "Observation"
    (mkFilter "code" FhirOperator.IN "http://example.org/ValueSet/a") true
    "http://example.org/ValueSet/a"
  = buildWhereCondition Demo.escapeLikeString Demo.toLocaleLowerCase Demo.trim
      (mkDetails "category" TEXT None None ImplTokenColumns) "Observation"
      (mkFilter "category" FhirOperator.IN "http://example.org/ValueSet/a") false
      "http://example.org/ValueSet/a".
Proof.
  destruct (in_condition_ignores_parameter Demo.escapeLikeString
              Demo.toLocaleLowerCase Demo.trim "Observation"
              "http://example.org/ValueSet/a" eq_refl) as [subquery H].
  rewrite (H (mkDetails "code" TEXT None None ImplTokenColumns)
             (mkFilter "code" FhirOperator.IN "http://example.org/ValueSet/a")
             true eq_refl).
  rewrite (H (mkDetails "category" TEXT None None ImplTokenColumns)
             (mkFilter "category" FhirOperator.IN "http://example.org/ValueSet/a")
             false eq_refl).
  reflexivity.
Defined.

Lemma disjunction_for_comparing_operators_witness :
  exists terms,
    fst (buildWhere Demo.parseFhirPath Demo.toString Demo.getElementDefinition
           Demo.inheritedProperty Demo.escapeLikeString Demo.toLocaleLowerCase
           Demo.trim Demo.emptyQuery "Observation" "Observation"
           Demo.clinicalCode (mkFilter "code" FhirOperator.EQUALS "a,b") ∅)
    = Ok (Disjunction terms)
    /\ length terms = 2.
Proof.
  pose (g1 := snd (isCaseSensitiveSearchParameter Demo.parseFhirPath
                     Demo.toString Demo.getElementDefinition
                     Demo.inheritedProperty Demo.clinicalCode "Observation" ∅)).
  pose (request := getSearchParameterDetails Demo.parseFhirPath Demo.toString
                     Demo.getElementDefinition Demo.inheritedProperty
                       "Observation" Demo.clinicalCode g1).
  assert (isCaseSensitiveSearchParameter Demo.parseFhirPath Demo.toString
            Demo.getElementDefinition Demo.inheritedProperty Demo.clinicalCode
            "Observation" ∅ = (Ok true, g1)) as Hc by (vm_compute; reflexivity).
  assert (exists details, request = (Ok details, snd request)) as [details Hd]
    by (eexists; vm_compute; reflexivity).
  destruct (disjunction_for_comparing_operators Demo.parseFhirPath
              Demo.toString Demo.getElementDefinition Demo.inheritedProperty
              Demo.escapeLikeString Demo.toLocaleLowerCase Demo.trim
              Demo.emptyQuery "Observation" "Observation" Demo.clinicalCode
              (mkFilter "code" FhirOperator.EQUALS "a,b") ∅ g1 (snd request)
              true details eq_refl)
    as (terms & Hrun & _ & HF); [intros X; discriminate X
                                | intros X; discriminate X | exact Hc | exact Hd |].
  exists terms. split; [exact (f_equal fst Hrun)|].
  apply Forall2_length in HF. rewrite <- HF. vm_compute. reflexivity.
Defined.

Lemma system_value_term_witness :
  buildWhereCondition Demo.escapeLikeString Demo.toLocaleLowerCase Demo.trim
    (mkDetails "code" TEXT None None ImplTokenColumns) "Observation"
    (mkFilter "code" FhirOperator.EQUALS "http://loinc.org|a|b") true
    "http://loinc.org|a|b"
  = Some (TypedCondition (column "Observation" "code") ARRAY_CONTAINS
            (PString ("http://loinc.org" +:+ DELIM +:+ "a|b")) (Some "text[]")).
Proof.
  pose proof (system_value_term Demo.escapeLikeString Demo.toLocaleLowerCase
                Demo.trim (mkDetails "code" TEXT None None ImplTokenColumns)
                "Observation"
                (mkFilter "code" FhirOperator.EQUALS "http://loinc.org|a|b")
                "http://loinc.org" "a|b" eq_refl) as H.
  cbv zeta in H. destruct H as [H _]; [discriminate | discriminate |].
  exact H.
Defined.
